(** * Kanchan chilled water: ledger, billing and order-charge computations

    A shallow embedding of the TypeScript/JavaScript sources that compute
    - the order receipt figures (src/utils/receipt.ts, the Orders page),
    - the monthly ledger totals (the Billing page),
    - the daily holding balance (the DailyUpdate page),
    - the order form validation (src/pages/OrdersForm.tsx),
    - the order creation route (server/routes/orders.routes.js),
    followed by the properties proved about them.

    Numbers are idealised: a JavaScript number is either NaN or an integer of
    unbounded size ([Js.number]).  Fractions, infinities, the sign of zero
    and the rounding of IEEE doubles are not represented. *)

From Stdlib Require Import ZArith String Ascii List Bool Lia.
From stdpp Require Import gmap strings.

Local Open Scope string_scope.
Local Open Scope Z_scope.

(** ** JavaScript values and the operators the sources use *)

Module Js.

(** The result of a numeric operation. *)
Inductive number : Type :=
| NaN
| Fin (z : Z).

(** A value of a field read from JSON or from a form input ([any] in the
    sources): absent, null, a number or a string. *)
Inductive value : Type :=
| Undefined
| Null
| Num (z : Z)
| Str (s : string).

(** NaN-propagating arithmetic: [a + b], [a - b], [a * b], [Math.max(a, b)]. *)
Definition lift2 (f : Z -> Z -> Z) (a b : number) : number :=
  match a, b with
  | Fin x, Fin y => Fin (f x y)
  | _, _ => NaN
  end.

Definition add : number -> number -> number := lift2 Z.add.
Definition sub : number -> number -> number := lift2 Z.sub.
Definition mul : number -> number -> number := lift2 Z.mul.
Definition Math_max : number -> number -> number := lift2 Z.max.

(** *** Reading a number out of a string *)

(** White space, among the ASCII characters. *)
Definition is_ws (a : ascii) : bool :=
  let n := nat_of_ascii a in
  ((9 <=? n) && (n <=? 13))%nat || (n =? 32)%nat.

(** The value of a digit in radix up to 36: 0-9, then a-z or A-Z. *)
Definition digit_val (a : ascii) : option Z :=
  let n := Z.of_nat (nat_of_ascii a) in
  if (48 <=? n) && (n <=? 57) then Some (n - 48)
  else if (97 <=? n) && (n <=? 122) then Some (n - 87)
  else if (65 <=? n) && (n <=? 90) then Some (n - 55)
  else None.

Fixpoint skip_ws (s : string) : string :=
  match s with
  | String a rest => if is_ws a then skip_ws rest else s
  | EmptyString => s
  end.

(** The longest prefix of digits of radix [r]: its value when it is not
    empty, and what follows it. *)
Fixpoint digits (r : Z) (s : string) (acc : option Z) : option Z * string :=
  match s with
  | String a rest =>
      match digit_val a with
      | Some d =>
          if d <? r then digits r rest (Some (default 0 acc * r + d))
          else (acc, s)
      | None => (acc, s)
      end
  | EmptyString => (acc, s)
  end.

(** A leading [+] or [-]: the sign and the rest. *)
Definition sign (s : string) : Z * string :=
  match s with
  | String "-" rest => (-1, rest)
  | String "+" rest => (1, rest)
  | _ => (1, s)
  end.

(** A [0x]/[0X] prefix selects radix 16. *)
Definition hex_prefix (s : string) : option string :=
  match s with
  | String "0" (String "x" rest) => Some rest
  | String "0" (String "X" rest) => Some rest
  | _ => None
  end.

(** [parseInt(s)] without a radix: leading white space, a sign, an optional
    hexadecimal prefix, then as many digits as there are; NaN when there is
    none.  What follows the digits is ignored. *)
Definition parseInt_string (s : string) : number :=
  let '(sg, s1) := sign (skip_ws s) in
  let '(r, s2) := match hex_prefix s1 with
                  | Some rest => (16, rest)
                  | None => (10, s1)
                  end in
  match fst (digits r s2 None) with
  | Some n => Fin (sg * n)
  | None => NaN
  end.

(** [Number(s)] on a string: white space is trimmed on both sides, the empty
    string is 0, a signed decimal integer or an unsigned hexadecimal one is
    its value, and everything else is NaN (numerals with a fraction or an
    exponent denote numbers the model does not have). *)
Definition StringToNumber (s : string) : number :=
  let s0 := skip_ws s in
  match s0 with
  | EmptyString => Fin 0
  | _ =>
      match hex_prefix s0 with
      | Some rest =>
          match digits 16 rest None with
          | (Some n, tl) => match skip_ws tl with EmptyString => Fin n | _ => NaN end
          | (None, _) => NaN
          end
      | None =>
          let '(sg, s1) := sign s0 in
          match digits 10 s1 None with
          | (Some n, tl) => match skip_ws tl with EmptyString => Fin (sg * n) | _ => NaN end
          | (None, _) => NaN
          end
      end
  end.

(** *** Conversions *)

(** [Number(v)], also the implicit conversion of [*], [-] and of a comparison
    with a number. *)
Definition ToNumber (v : value) : number :=
  match v with
  | Undefined => NaN
  | Null => Fin 0
  | Num z => Fin z
  | Str s => StringToNumber s
  end.

(** The character of a decimal digit. *)
Definition digit_char (m : Z) : ascii := ascii_of_nat (Z.to_nat (48 + m)).

(** The decimal digits of a natural number, most significant first. *)
Fixpoint decimal_fuel (fuel : nat) (n : Z) (acc : string) : string :=
  match fuel with
  | O => acc
  | S fuel' =>
      let d := String (digit_char (n mod 10)) acc in
      if n <? 10 then d else decimal_fuel fuel' (n / 10) d
  end.

(** A string that starts with a digit and goes on with a digit or ends. *)
Inductive digit_headed : string -> Prop :=
| digit_alone (m : Z) : 0 <= m < 10 -> digit_headed (String (digit_char m) "")
| digit_more (m m' : Z) (s : string) :
    0 <= m < 10 -> 0 <= m' < 10 ->
    digit_headed (String (digit_char m) (String (digit_char m') s)).

(** [String(z)] for an integer, in plain decimal notation (JavaScript turns
    to exponent notation from 1e21 on). *)
Definition Z_to_string (z : Z) : string :=
  let n := Z.abs z in
  let body := decimal_fuel (S (Z.to_nat (Z.log2 n))) n EmptyString in
  if z <? 0 then String "-" body else body.

Definition ToString (v : value) : string :=
  match v with
  | Undefined => "undefined"
  | Null => "null"
  | Num z => Z_to_string z
  | Str s => s
  end.

(** [parseInt(v)]: the argument is converted to a string first. *)
Definition parseInt (v : value) : number := parseInt_string (ToString v).

(** Truthiness: [undefined], [null], [0] and the empty string are falsy. *)
Definition truthy (v : value) : bool :=
  match v with
  | Undefined | Null => false
  | Num z => negb (z =? 0)
  | Str s => negb (String.eqb s "")
  end.

(** [v || 0] on a value. *)
Definition or_zero (v : value) : value := if truthy v then v else Num 0.

(** [n || 0] on a number: NaN and 0 are falsy. *)
Definition number_or_zero (n : number) : Z :=
  match n with
  | NaN => 0
  | Fin z => z
  end.

(** *** Relational operators *)

(** The abstract relational comparison: two strings are compared as strings,
    character code by character code; otherwise both sides are converted to
    numbers, and the comparison is undefined ([None]) when one of them is
    NaN. *)
Definition compare (a b : value) : option comparison :=
  match a, b with
  | Str s, Str t => Some (String.compare s t)
  | _, _ =>
      match ToNumber a, ToNumber b with
      | Fin x, Fin y => Some (x ?= y)
      | _, _ => None
      end
  end.

(** [a < b], [a > b], [a <= b]; an undefined comparison is false. *)
Definition lt (a b : value) : bool :=
  match compare a b with Some Lt => true | _ => false end.
Definition gt (a b : value) : bool := lt b a.
Definition le (a b : value) : bool :=
  match compare b a with Some Lt => false | Some _ => true | None => false end.

(** [a === b] on these values. *)
Definition strict_eq (a b : value) : bool :=
  match a, b with
  | Undefined, Undefined | Null, Null => true
  | Num x, Num y => x =? y
  | Str s, Str t => String.eqb s t
  | _, _ => false
  end.

End Js.

(** ** Strings: the methods the filters use *)

Module JsText.

(** [toLowerCase] on a character: the ASCII capitals are lowered, the other
    characters are kept. *)
Definition lower_char (a : ascii) : ascii :=
  let n := nat_of_ascii a in
  if ((65 <=? n) && (n <=? 90))%nat then ascii_of_nat (n + 32) else a.

Fixpoint toLowerCase (s : string) : string :=
  match s with
  | String a rest => String (lower_char a) (toLowerCase rest)
  | EmptyString => EmptyString
  end.

(** [s.includes(t)]: [t] occurs in [s]. *)
Fixpoint includes (s t : string) : bool :=
  String.prefix t s
  || match s with
     | String _ rest => includes rest t
     | EmptyString => false
     end.

End JsText.

(** ** Shared shapes *)

(** What a request or an event handler produces: a value, or the message of
    the error it throws. *)
Inductive result (A : Type) : Type :=
| Ok (a : A)
| Error (msg : string).
Arguments Ok {A} a.
Arguments Error {A} msg.

(** A row of the price settings, [prices[0]] of [GET /api/settings/prices]. *)
Record PriceSheet : Type := {
  order_price : Js.value;
  shop_price : Js.value;
  monthly_price : Js.value
}.

(** The state [formData] of the order form (OrdersForm.tsx, [useState]).  The
    inputs store what the user typed, so every field is a [Js.value]. *)
Module Form.

Record FormData : Type := {
  order_date : Js.value;
  customer_name : Js.value;
  customer_phone : Js.value;
  customer_address : Js.value;
  delivery_amount : Js.value;
  can_qty : Js.value;
  collected_qty : Js.value;
  collected_date : Js.value;
  delivery_date : Js.value;
  delivery_time : Js.value;
  order_status : Js.value;
  notes : Js.value
}.

End Form.

(** ** src/utils/receipt.ts *)

Module Receipt.

Record ReceiptData : Type := {
  pricePerCan : Js.value;
  subtotal : Js.number;
  deliveryAmount : Js.number;
  missingCans : Js.number;
  missingCanCharge : Js.number;
  totalAmount : Js.number;
  orderId : string
}.

Definition calculateReceiptData (formData : Form.FormData) (currentPrices : PriceSheet)
    (id : string) : ReceiptData :=
  let pricePerCan := order_price currentPrices in
  let subtotal := Js.mul (Js.ToNumber (Form.can_qty formData)) (Js.ToNumber pricePerCan) in
  let deliveryAmount :=
    Js.Fin (Js.number_or_zero (Js.ToNumber (Form.delivery_amount formData))) in
  let missingCans :=
    Js.Math_max (Js.Fin 0)
      (Js.sub (Js.ToNumber (Form.can_qty formData))
              (Js.ToNumber (Js.or_zero (Form.collected_qty formData)))) in
  let missingCanCharge := Js.mul missingCans (Js.Fin 500) in
  let totalAmount := Js.add (Js.add subtotal deliveryAmount) missingCanCharge in
  {| pricePerCan := pricePerCan;
     subtotal := subtotal;
     deliveryAmount := deliveryAmount;
     missingCans := missingCans;
     missingCanCharge := missingCanCharge;
     totalAmount := totalAmount;
     orderId := id |}.

(** The placeholder page of [generateReceiptHTML]: it names the customer and
    prints none of the figures. *)
Definition generateReceiptHTML (formData : Form.FormData) (receiptData : ReceiptData) : string :=
  "<html><body>Receipt for " ++ Js.ToString (Form.customer_name formData)
    ++ " (implement full template here)</body></html>".

End Receipt.

(** ** The Orders page: receipt download and receipt preview *)

Module Orders.

Record Order : Type := {
  id : Z;
  order_date : string;
  customer_name : string;
  customer_phone : string;
  customer_address : string;
  can_qty : Js.value;
  collected_qty : Js.value;
  delivery_amount : Js.value;
  delivery_date : string;
  delivery_time : string;
  order_status : string;
  notes : Js.value;
  collected_date : Js.value
}.

(** The locals both handlers compute between the price lookup and the
    request or the page. *)
Record Figures : Type := {
  pricePerCan : Js.value;
  subtotal : Js.number;
  deliveryAmount : Js.number;
  missingCans : Js.number;
  missingCanCharge : Js.number;
  totalAmount : Js.number
}.

(** [prices[0]] after [fetch('/api/settings/prices')]; [None] is a response
    that is not ok. *)
Definition currentPrice (pricesResponse : option (list PriceSheet)) : result PriceSheet :=
  match pricesResponse with
  | None => Error "Failed to fetch prices"
  | Some prices =>
      match prices with
      | p :: _ => Ok p
      | [] => Error "Current pricing data not found"
      end
  end.

(** The body of [POST /generate-order-receipt]:
    [{ order: { ...order, total_amount, price_per_can } }]. *)
Record ReceiptRequest : Type := {
  order : Order;
  total_amount : Js.number;
  price_per_can : Js.value
}.

Definition generateOrderReceipt_figures (currentPrice : PriceSheet) (order : Order) : Figures :=
  let pricePerCan := order_price currentPrice in
  let subtotal := Js.mul (Js.ToNumber (can_qty order)) (Js.ToNumber pricePerCan) in
  let deliveryAmount := Js.Fin (Js.number_or_zero (Js.ToNumber (delivery_amount order))) in
  let missingCans :=
    Js.Math_max (Js.Fin 0)
      (Js.sub (Js.ToNumber (can_qty order)) (Js.ToNumber (Js.or_zero (collected_qty order)))) in
  let missingCanCharge := Js.mul missingCans (Js.Fin 500) in
  let totalAmount := Js.add (Js.add subtotal deliveryAmount) missingCanCharge in
  {| pricePerCan := pricePerCan; subtotal := subtotal; deliveryAmount := deliveryAmount;
     missingCans := missingCans; missingCanCharge := missingCanCharge;
     totalAmount := totalAmount |}.

Definition generateOrderReceipt (pricesResponse : option (list PriceSheet)) (order : Order)
    : result ReceiptRequest :=
  match currentPrice pricesResponse with
  | Error msg => Error msg
  | Ok price =>
      let fig := generateOrderReceipt_figures price order in
      Ok {| order := order; total_amount := totalAmount fig; price_per_can := pricePerCan fig |}
  end.

Definition viewOrderReceipt_figures (currentPrice : PriceSheet) (order : Order) : Figures :=
  let pricePerCan := order_price currentPrice in
  let subtotal := Js.mul (Js.ToNumber (can_qty order)) (Js.ToNumber pricePerCan) in
  let deliveryAmount := Js.Fin (Js.number_or_zero (Js.ToNumber (delivery_amount order))) in
  let missingCans :=
    Js.Math_max (Js.Fin 0)
      (Js.sub (Js.ToNumber (can_qty order)) (Js.ToNumber (Js.or_zero (collected_qty order)))) in
  let missingCanCharge := Js.mul missingCans (Js.Fin 500) in
  let totalAmount := Js.add (Js.add subtotal deliveryAmount) missingCanCharge in
  {| pricePerCan := pricePerCan; subtotal := subtotal; deliveryAmount := deliveryAmount;
     missingCans := missingCans; missingCanCharge := missingCanCharge;
     totalAmount := totalAmount |}.

(** The figures interpolated into the receipt page (the markup itself is not
    modelled). *)
Definition viewOrderReceipt (pricesResponse : option (list PriceSheet)) (order : Order)
    : result Figures :=
  match currentPrice pricesResponse with
  | Error msg => Error msg
  | Ok price => Ok (viewOrderReceipt_figures price order)
  end.

(** *** The collection column and the parts of the receipt page *)

(** [x === undefined || x === null]. *)
Definition not_set (v : Js.value) : bool :=
  Js.strict_eq v Js.Undefined || Js.strict_eq v Js.Null.

Definition getCollectionStatus (order : Order) : string :=
  if not_set (collected_qty order) then "Not set"
  else if Js.le (can_qty order) (collected_qty order) then "Complete"
  else Js.ToString (collected_qty order) ++ "/" ++ Js.ToString (can_qty order).

Definition getCollectionStatusColor (order : Order) : string :=
  if not_set (collected_qty order) then "text-gray-500"
  else if Js.le (can_qty order) (collected_qty order) then "text-green-600"
  else "text-orange-600".

(** [n > 0] on a number; false on NaN. *)
Definition positive (n : Js.number) : bool :=
  match n with
  | Js.Fin z => 0 <? z
  | Js.NaN => false
  end.

(** The parts of the page of [viewOrderReceipt] that a condition of the
    template switches on.  The row of the total stands in the same block as
    the rows of the missing cans. *)
Record Sections : Type := {
  delivery_row : bool;
  missing_rows : bool;
  total_row : bool;
  collection_table : bool;
  notes_block : bool
}.

Definition viewOrderReceipt_sections (currentPrice : PriceSheet) (order : Order) : Sections :=
  let fig := viewOrderReceipt_figures currentPrice order in
  {| delivery_row :=
       Js.truthy (delivery_amount order) && Js.gt (delivery_amount order) (Js.Num 0);
     missing_rows := positive (missingCans fig);
     total_row := positive (missingCans fig);
     collection_table :=
       negb (Js.strict_eq (collected_qty order) Js.Undefined)
       && (Js.gt (collected_qty order) (Js.Num 0) || positive (missingCans fig));
     notes_block := Js.truthy (notes order) |}.

(** The cell "Pending Collection" of the collection table:
    [order.can_qty - order.collected_qty]. *)
Definition pending_cell (order : Order) : Js.number :=
  Js.sub (Js.ToNumber (can_qty order)) (Js.ToNumber (collected_qty order)).

(** The rows of the table of orders, for a search term and a status. *)
Definition filteredOrders (orders : list Order) (searchTerm selectedStatus : string)
    : list Order :=
  List.filter
    (fun order =>
       let matchesSearch :=
         JsText.includes (JsText.toLowerCase (customer_name order))
                         (JsText.toLowerCase searchTerm)
         || JsText.includes (customer_phone order) searchTerm in
       let matchesStatus :=
         String.eqb selectedStatus "all" || String.eqb (order_status order) selectedStatus in
       matchesSearch && matchesStatus)
    orders.

(** [handleDeleteOrder]: the list after the user has confirmed and the
    server has answered; it is unchanged otherwise. *)
Definition handleDeleteOrder (orders : list Order) (orderId : Z) (confirmed ok : bool)
    : list Order :=
  if confirmed && ok
  then List.filter (fun order => negb (id order =? orderId)) orders
  else orders.

End Orders.

(** ** The Billing page: the ledger of a customer for a month *)

Module Billing.

(** A row of [GET /api/daily-updates/monthly-bills]; only what [openLedger]
    reads is kept. *)
Record Bill : Type := {
  customer_id : string;
  name : string;
  customer_type : string
}.

(** A row of [GET /api/daily-updates/ledger]. *)
Record LedgerEntry : Type := {
  date : string;
  delivered_qty : Js.value
}.

Record LedgerTotals : Type := {
  pricePerCan : Js.value;
  totalCans : Js.number;
  totalAmount : Js.number
}.

Definition pricePerCan_of (bill : Bill) (currentPrice : PriceSheet) : Js.value :=
  if String.eqb (customer_type bill) "shop" then shop_price currentPrice
  else if String.eqb (customer_type bill) "monthly" then monthly_price currentPrice
  else order_price currentPrice.

(** [ledgerData.reduce((sum, d) => sum + Number(d.delivered_qty), 0)]. *)
Definition totalCans_of (ledgerData : list LedgerEntry) : Js.number :=
  fold_left (fun sum d => Js.add sum (Js.ToNumber (delivered_qty d))) ledgerData (Js.Fin 0).

(** The totals [openLedger] prints under the calendar (the cells of the
    calendar are not modelled).  A response that is not ok throws, and so
    does reading a price of [prices[0]] when the list is empty; the handler
    catches all of them with the same toast. *)
Definition openLedger (pricesResponse : option (list PriceSheet))
    (ledgerResponse : option (list LedgerEntry)) (bill : Bill) : result LedgerTotals :=
  match pricesResponse, ledgerResponse with
  | Some (currentPrice :: _), Some ledgerData =>
      let pricePerCan := pricePerCan_of bill currentPrice in
      let totalCans := totalCans_of ledgerData in
      let totalAmount := Js.mul totalCans (Js.ToNumber pricePerCan) in
      Ok {| pricePerCan := pricePerCan; totalCans := totalCans; totalAmount := totalAmount |}
  | _, _ => Error "Failed to fetch ledger data for modal"
  end.

(** Modelled from the spec: the monthly aggregation of the server (the route
    behind [/api/daily-updates/monthly-bills]) is not among the sources; the
    specification gives its delivery-day count as the number of ledger
    entries of the month with [delivered_qty > 0]. *)
Definition total_delivery_days (ledgerData : list LedgerEntry) : Z :=
  Z.of_nat (length (List.filter (fun d => Js.gt (delivered_qty d) (Js.Num 0)) ledgerData)).

(** *** The calendar of [openLedger] *)

(** A row of the calendar: a day on the left with its quantity, and the day
    and the quantity on the right when the month has that day. *)
Record CalendarRow : Type := {
  dayLeft : Z;
  deliveredQtyLeft : Js.value;
  dayRight : option Z;
  deliveredQtyRight : Js.value
}.

(** [Math.ceil(daysInMonth / 2)]. *)
Definition half_month (daysInMonth : Z) : Z := (daysInMonth + 1) / 2.

(** [dailyDeliveries.get(day) || '']. *)
Definition delivered_or_blank (dailyDeliveries : gmap Z Js.value) (day : Z) : Js.value :=
  match dailyDeliveries !! day with
  | Some v => if Js.truthy v then v else Js.Str ""
  | None => Js.Str ""
  end.

(** [Array.from({ length: Math.ceil(daysInMonth / 2) }, (_, i) => ...)]. *)
Definition calendar_rows (daysInMonth : Z) (dailyDeliveries : gmap Z Js.value)
    : list CalendarRow :=
  map (fun i : nat =>
         let dayLeft := Z.of_nat i + 1 in
         let dayRight := Z.of_nat i + 1 + half_month daysInMonth in
         {| dayLeft := dayLeft;
            deliveredQtyLeft := delivered_or_blank dailyDeliveries dayLeft;
            dayRight := if dayRight <=? daysInMonth then Some dayRight else None;
            deliveredQtyRight := if dayRight <=? daysInMonth
                                 then delivered_or_blank dailyDeliveries dayRight
                                 else Js.Str "" |})
      (seq 0 (Z.to_nat (half_month daysInMonth))).

Section Calendar.

(** [new Date(entry.date).getDate()]: the day of the month of a date, in the
    time zone of the browser. *)
Variable getDate : string -> Z.

(** [ledgerData.forEach(entry => dailyDeliveries.set(day, entry.delivered_qty))]. *)
Definition dailyDeliveries_of (ledgerData : list LedgerEntry) : gmap Z Js.value :=
  fold_left (fun acc entry => <[getDate (date entry) := delivered_qty entry]> acc)
            ledgerData ∅.

(** The calendar of a ledger, for a month of [daysInMonth] days. *)
Definition calendar (daysInMonth : Z) (ledgerData : list LedgerEntry) : list CalendarRow :=
  calendar_rows daysInMonth (dailyDeliveries_of ledgerData).

End Calendar.

(** *** The list of bills *)

(** [paid_status]: the column as the server sends it, or the boolean the
    page writes after a change of status. *)
Inductive Flag : Type :=
| FlagValue (v : Js.value)
| FlagBool (b : bool).

Definition flag_truthy (f : Flag) : bool :=
  match f with
  | FlagValue v => Js.truthy v
  | FlagBool b => b
  end.

(** A row of [GET /api/daily-updates/monthly-bills], as the list uses it. *)
Record MonthlyBill : Type := {
  mb_customer_id : string;
  mb_name : string;
  mb_phone_number : string;
  mb_customer_type : string;
  mb_bill_amount : Js.value;
  mb_total_cans_delivered : Js.value;
  mb_total_delivery_days : Js.value;
  mb_paid_status : Flag
}.

(** An element of the body of [POST /api/bills/save-monthly-bills]. *)
Record BillData : Type := {
  bd_customer_id : string;
  bd_bill_month : string;
  bd_paid_status : Flag;
  bd_sent_status : bool;
  bd_bill_amount : Js.value;
  bd_total_cans : Js.value;
  bd_delivery_days : Js.value
}.

Definition matchesSearch (bill : MonthlyBill) (searchTerm : string) : bool :=
  JsText.includes (JsText.toLowerCase (mb_name bill)) (JsText.toLowerCase searchTerm)
  || JsText.includes (mb_phone_number bill) searchTerm.

Definition matchesStatus (bill : MonthlyBill) (filterStatus : string) : bool :=
  String.eqb filterStatus "all"
  || (String.eqb filterStatus "paid" && flag_truthy (mb_paid_status bill))
  || (String.eqb filterStatus "unpaid" && negb (flag_truthy (mb_paid_status bill))).

Definition filteredBills (bills : list MonthlyBill) (searchTerm filterStatus : string)
    : list MonthlyBill :=
  List.filter (fun bill => matchesSearch bill searchTerm && matchesStatus bill filterStatus)
              bills.

(** [bills.find(b => b.customer_id === customerId)?.field || 0]. *)
Definition found_or_zero (bills : list MonthlyBill) (customerId : string)
    (field : MonthlyBill -> Js.value) : Js.value :=
  match List.find (fun b => String.eqb (mb_customer_id b) customerId) bills with
  | Some b => Js.or_zero (field b)
  | None => Js.Num 0
  end.

Definition with_paid_status (bill : MonthlyBill) (paid : bool) : MonthlyBill :=
  {| mb_customer_id := mb_customer_id bill;
     mb_name := mb_name bill;
     mb_phone_number := mb_phone_number bill;
     mb_customer_type := mb_customer_type bill;
     mb_bill_amount := mb_bill_amount bill;
     mb_total_cans_delivered := mb_total_cans_delivered bill;
     mb_total_delivery_days := mb_total_delivery_days bill;
     mb_paid_status := FlagBool paid |}.

(** [updateBillStatus]: the request, and the list of bills after it; [ok]
    tells whether the server accepted the request. *)
Definition updateBillStatus (bills : list MonthlyBill) (selectedMonth customerId : string)
    (newPaidStatus ok : bool) : BillData * list MonthlyBill :=
  let billData :=
    {| bd_customer_id := customerId;
       bd_bill_month := selectedMonth;
       bd_paid_status := FlagBool newPaidStatus;
       bd_sent_status := false;
       bd_bill_amount := found_or_zero bills customerId mb_bill_amount;
       bd_total_cans := found_or_zero bills customerId mb_total_cans_delivered;
       bd_delivery_days := found_or_zero bills customerId mb_total_delivery_days |} in
  (billData,
   if ok then
     map (fun bill => if String.eqb (mb_customer_id bill) customerId
                      then with_paid_status bill newPaidStatus else bill) bills
   else bills).

(** [handleSaveAllBillsToDB]: the bills sent to be saved, none when the
    filters leave no bill. *)
Definition handleSaveAllBillsToDB (bills : list MonthlyBill)
    (selectedMonth searchTerm filterStatus : string) : option (list BillData) :=
  match filteredBills bills searchTerm filterStatus with
  | [] => None
  | shown =>
      Some (map (fun bill =>
                   {| bd_customer_id := mb_customer_id bill;
                      bd_bill_month := selectedMonth;
                      bd_paid_status := if flag_truthy (mb_paid_status bill)
                                        then mb_paid_status bill else FlagBool false;
                      bd_sent_status := false;
                      bd_bill_amount := mb_bill_amount bill;
                      bd_total_cans := mb_total_cans_delivered bill;
                      bd_delivery_days := mb_total_delivery_days bill |}) shown)
  end.

End Billing.

(** ** The DailyUpdate page: deliveries, collections and the holding *)

Module DailyUpdate.

(** [Customer] of [../types]; [can_qty] may be missing. *)
Record Customer : Type := {
  customer_id : string;
  name : string;
  phone_number : string;
  customer_type : string;
  can_qty : option Z
}.

(** [DailyUpdate] of [../types], a row of [GET /api/daily-updates?date=]. *)
Record DailyUpdateType : Type := {
  du_customer_id : string;
  delivered_qty : Z;
  collected_qty : Z;
  du_holding_status : Z;
  du_notes : option string
}.

(** A row of the table; [delivered] and [collected] are [number | string]. *)
Record DailyUpdateState : Type := {
  delivered : Js.value;
  collected : Js.value;
  holding_status : Z;
  notes : string
}.

(** The state of the component the handlers read and write. *)
Record State : Type := {
  selectedDate : string;
  updates : gmap string DailyUpdateState;
  customers : list Customer;
  previousDayHoldings : gmap string Z;
  error : option string
}.

Inductive Field : Type := Fdelivered | Fcollected | Fnotes.

(** [customer.can_qty || 0]. *)
Definition can_qty_or_zero (c : Customer) : Z := default 0 (can_qty c).

(** [customers.find(c => c.customer_id === customerId)]. *)
Definition find_customer (customers : list Customer) (customerId : string) : option Customer :=
  List.find (fun c => String.eqb (customer_id c) customerId) customers.

(** [prevDayUpdates.forEach(update => { prevDayHoldings[update.customer_id]
    = update.holding_status })]. *)
Definition prevDayHoldings_of (prevDayUpdates : list DailyUpdateType) : gmap string Z :=
  fold_left (fun acc update => <[du_customer_id update := du_holding_status update]> acc)
            prevDayUpdates ∅.

(** The row a customer gets before the day's saved entries are read. *)
Definition default_row (prevDayHoldings : gmap string Z) (customer : Customer)
    : DailyUpdateState :=
  let prevHolding :=
    match prevDayHoldings !! customer_id customer with
    | Some h => h
    | None => can_qty_or_zero customer
    end in
  let initialDelivered := can_qty_or_zero customer in
  let initialCollected := 0 in
  {| delivered := Js.Num initialDelivered;
     collected := Js.Num initialCollected;
     holding_status := prevHolding + initialDelivered - initialCollected;
     notes := "" |}.

Definition defaultUpdatesMap_of (prevDayHoldings : gmap string Z) (customersData : list Customer)
    : gmap string DailyUpdateState :=
  fold_left (fun acc customer => <[customer_id customer := default_row prevDayHoldings customer]> acc)
            customersData ∅.

Definition row_of_update (update : DailyUpdateType) : DailyUpdateState :=
  {| delivered := Js.Num (delivered_qty update);
     collected := Js.Num (collected_qty update);
     holding_status := du_holding_status update;
     notes := default "" (du_notes update) |}.

(** [data.forEach(update => { if (map[update.customer_id]) map[...] = {...} })]. *)
Definition merge_updates (map : gmap string DailyUpdateState) (data : list DailyUpdateType)
    : gmap string DailyUpdateState :=
  fold_left (fun acc update =>
               match acc !! du_customer_id update with
               | Some _ => <[du_customer_id update := row_of_update update]> acc
               | None => acc
               end) data map.

(** The effect run for the selected date.  A response that is not ok is
    [Error] for the customers (the handler throws) and [None] for the two
    lists of entries (the handler goes on without them). *)
Definition fetchInitialData (st : State) (customersResponse : result (list Customer))
    (initialUpdatesResponse prevDayUpdatesResponse : option (list DailyUpdateType)) : State :=
  match customersResponse with
  | Error msg =>
      {| selectedDate := selectedDate st; updates := updates st; customers := customers st;
         previousDayHoldings := previousDayHoldings st; error := Some msg |}
  | Ok customersData =>
      let prevDayHoldings :=
        match prevDayUpdatesResponse with
        | Some prevDayUpdates => prevDayHoldings_of prevDayUpdates
        | None => ∅
        end in
      let defaultUpdatesMap := defaultUpdatesMap_of prevDayHoldings customersData in
      let updatesMap :=
        match initialUpdatesResponse with
        | Some initialUpdatesData => merge_updates defaultUpdatesMap initialUpdatesData
        | None => defaultUpdatesMap
        end in
      {| selectedDate := selectedDate st; updates := updatesMap; customers := customersData;
         previousDayHoldings := prevDayHoldings; error := None |}
  end.

(** [previousDayHoldings[customerId] ??
     (customers.find(c => c.customer_id === customerId)?.can_qty || 0)]. *)
Definition baseHolding (st : State) (customerId : string) : Z :=
  match previousDayHoldings st !! customerId with
  | Some h => h
  | None =>
      match find_customer (customers st) customerId with
      | Some c => can_qty_or_zero c
      | None => 0
      end
  end.

(** [parseInt(v) || 0]. *)
Definition parseInt_or_zero (v : Js.value) : Z := Js.number_or_zero (Js.parseInt v).

Definition handleUpdateChange (st : State) (customerId : string) (field : Field)
    (value : string) : State :=
  let existing :=
    default {| delivered := Js.Num 0; collected := Js.Num 0; holding_status := 0; notes := "" |}
            (updates st !! customerId) in
  let updated :=
    match field with
    | Fdelivered =>
        {| delivered := Js.Str value; collected := collected existing;
           holding_status := holding_status existing; notes := notes existing |}
    | Fcollected =>
        {| delivered := delivered existing; collected := Js.Str value;
           holding_status := holding_status existing; notes := notes existing |}
    | Fnotes =>
        {| delivered := delivered existing; collected := collected existing;
           holding_status := holding_status existing; notes := value |}
    end in
  let updated :=
    match field with
    | Fnotes => updated
    | _ =>
        let deliveredQty :=
          match field with
          | Fdelivered => parseInt_or_zero (Js.Str value)
          | _ => parseInt_or_zero (delivered existing)
          end in
        let collectedQty :=
          match field with
          | Fcollected => parseInt_or_zero (Js.Str value)
          | _ => parseInt_or_zero (collected existing)
          end in
        {| delivered := delivered updated; collected := collected updated;
           holding_status := baseHolding st customerId + deliveredQty - collectedQty;
           notes := notes updated |}
    end in
  {| selectedDate := selectedDate st; updates := <[customerId := updated]> (updates st);
     customers := customers st; previousDayHoldings := previousDayHoldings st;
     error := error st |}.

(** The body of [POST /api/daily-updates]. *)
Record UpdateData : Type := {
  ud_customer_id : string;
  ud_date : string;
  ud_delivered_qty : Z;
  ud_collected_qty : Z;
  ud_notes : string
}.

(** [updates[customerId]?.delivered] and the like: [undefined] without a row. *)
Definition field_of (st : State) (customerId : string)
    (f : DailyUpdateState -> Js.value) : Js.value :=
  match updates st !! customerId with
  | Some row => f row
  | None => Js.Undefined
  end.

Definition updateData_of (st : State) (customerId : string) : UpdateData :=
  {| ud_customer_id := customerId;
     ud_date := selectedDate st;
     ud_delivered_qty := parseInt_or_zero (field_of st customerId delivered);
     ud_collected_qty := parseInt_or_zero (field_of st customerId collected);
     ud_notes := match updates st !! customerId with
                 | Some row => notes row
                 | None => ""
                 end |}.

(** Saving a row: the request is built and sent whatever the row holds; when
    the server accepts it ([saved]) and the entries of the day can be read
    again, they replace the rows of their customers. *)
Definition handleSaveSingleUpdate (st : State) (customerId : string) (saved : bool)
    (refreshResponse : option (list DailyUpdateType)) : UpdateData * State :=
  let updateData := updateData_of st customerId in
  let st' :=
    match saved, refreshResponse with
    | true, Some refreshedData =>
        {| selectedDate := selectedDate st;
           updates := merge_updates (updates st) refreshedData;
           customers := customers st; previousDayHoldings := previousDayHoldings st;
           error := error st |}
    | _, _ => st
    end in
  (updateData, st').

(** The holding cell of a row: [updates[customer.customer_id]?.holding_status ?? 0]. *)
Definition holding_cell (st : State) (customerId : string) : Z :=
  match updates st !! customerId with
  | Some row => holding_status row
  | None => 0
  end.

(** An entry of the panel "Cans to Collect Today". *)
Record Collection : Type := {
  col_customer_id : string;
  col_name : string;
  col_holding_status : Z
}.

(** [previousDayHoldings[customer.customer_id] ?? 0]. *)
Definition previous_holding_or_zero (st : State) (customerId : string) : Z :=
  default 0 (previousDayHoldings st !! customerId).

Definition cansToCollectToday (st : State) : list Collection :=
  map (fun customer =>
         {| col_customer_id := customer_id customer;
            col_name := name customer;
            col_holding_status := previous_holding_or_zero st (customer_id customer) |})
      (List.filter (fun customer => 0 <? previous_holding_or_zero st (customer_id customer))
                   (customers st)).

(** The rows of the table: the customers of the selected type whose name,
    letter case apart, or whose phone holds the search term. *)
Definition filteredCustomers (customers : list Customer) (filterType searchTerm : string)
    : list Customer :=
  List.filter
    (fun customer =>
       let matchesType :=
         String.eqb filterType "all" || String.eqb (customer_type customer) filterType in
       let matchesSearch :=
         JsText.includes (JsText.toLowerCase (name customer)) (JsText.toLowerCase searchTerm)
         || JsText.includes (phone_number customer) searchTerm in
       matchesType && matchesSearch)
    customers.

(** What happens on the page while the selected date stays: a field of a
    row is edited, or a row is saved, with the answer of the server and the
    entries of the day read again after it. *)
Inductive Event : Type :=
| Edit (customerId : string) (field : Field) (value : string)
| Save (customerId : string) (saved : bool)
       (refreshResponse : option (list DailyUpdateType)).

Definition handle (st : State) (e : Event) : State :=
  match e with
  | Edit customerId field value => handleUpdateChange st customerId field value
  | Save customerId saved refreshResponse =>
      snd (handleSaveSingleUpdate st customerId saved refreshResponse)
  end.

Definition run (st : State) (events : list Event) : State := fold_left handle events st.

End DailyUpdate.

(** ** src/pages/OrdersForm.tsx *)

Module OrdersForm.

Import Form.

(** The initial state of the form; [today] is
    [new Date().toISOString().split('T')[0]]. *)
Definition initialFormData (today : string) : FormData :=
  {| order_date := Js.Str today;
     customer_name := Js.Str "";
     customer_phone := Js.Str "";
     customer_address := Js.Str "";
     delivery_amount := Js.Num 0;
     can_qty := Js.Num 0;
     collected_qty := Js.Num 0;
     collected_date := Js.Str "";
     delivery_date := Js.Str today;
     delivery_time := Js.Str "10:00";
     order_status := Js.Str "pending";
     notes := Js.Str "" |}.

(** [isEditing = !!id], with [id] the route parameter. *)
Definition isEditing (id : option string) : bool :=
  match id with
  | Some s => negb (String.eqb s "")
  | None => false
  end.

(** [{ ...formData, [name]: value }] for the names the inputs carry. *)
Definition set_field (formData : FormData) (name : string) (value : Js.value) : FormData :=
  let f (k : string) (old : Js.value) := if String.eqb name k then value else old in
  {| order_date := f "order_date" (order_date formData);
     customer_name := f "customer_name" (customer_name formData);
     customer_phone := f "customer_phone" (customer_phone formData);
     customer_address := f "customer_address" (customer_address formData);
     delivery_amount := f "delivery_amount" (delivery_amount formData);
     can_qty := f "can_qty" (can_qty formData);
     collected_qty := f "collected_qty" (collected_qty formData);
     collected_date := f "collected_date" (collected_date formData);
     delivery_date := f "delivery_date" (delivery_date formData);
     delivery_time := f "delivery_time" (delivery_time formData);
     order_status := f "order_status" (order_status formData);
     notes := f "notes" (notes formData) |}.

(** An input event stores the text of the input, a string, under its name,
    and clears the error shown for it. *)
Definition handleChange (formData : FormData) (errors : gmap string string)
    (name value : string) : FormData * gmap string string :=
  (set_field formData name (Js.Str value),
   match errors !! name with
   | Some msg => if String.eqb msg "" then errors else <[name := ""]> errors
   | None => errors
   end).

(** [if (cond) newErrors.key = message]. *)
Definition set_if (cond : bool) (key message : string) (newErrors : gmap string string)
    : gmap string string :=
  if cond then <[key := message]> newErrors else newErrors.

Definition validate_errors (editing : bool) (formData : FormData) : gmap string string :=
  let e : gmap string string := ∅ in
  let e := set_if (negb (Js.truthy (customer_name formData)))
                  "customer_name" "Customer Name is required" e in
  let e := set_if (negb (Js.truthy (customer_phone formData)))
                  "customer_phone" "Customer Phone is required" e in
  let e := set_if (negb (Js.truthy (customer_address formData)))
                  "customer_address" "Delivery Address is required" e in
  let e := set_if (negb (Js.truthy (order_date formData)))
                  "order_date" "Order Date is required" e in
  let e := set_if (Js.le (can_qty formData) (Js.Num 0))
                  "can_qty" "Can Quantity must be greater than 0" e in
  let e :=
    if editing then
      let e := set_if (Js.lt (collected_qty formData) (Js.Num 0))
                      "collected_qty" "Collected Quantity cannot be negative" e in
      let e := set_if (Js.gt (collected_qty formData) (can_qty formData))
                      "collected_qty" "Collected Quantity cannot exceed delivered quantity" e in
      set_if (Js.gt (collected_qty formData) (Js.Num 0)
                && negb (Js.truthy (collected_date formData)))
             "collected_date" "Collection Date is required if cans are collected" e
    else e in
  let e := set_if (negb (Js.truthy (delivery_date formData)))
                  "delivery_date" "Delivery Date is required" e in
  let e := set_if (negb (Js.truthy (delivery_time formData)))
                  "delivery_time" "Delivery Time is required" e in
  set_if (negb (Js.truthy (order_status formData)))
         "order_status" "Order Status is required" e.

(** [Object.keys(newErrors).length === 0]. *)
Definition validate (editing : bool) (formData : FormData) : bool :=
  Nat.eqb (size (validate_errors editing formData)) 0.

(** The request of [handleSubmit]. *)
Record Request : Type := {
  url : string;
  method : string;
  payload : FormData
}.

Definition empty_to_null (v : Js.value) : Js.value :=
  if Js.strict_eq v (Js.Str "") then Js.Null else v.

Definition payload_of (formData : FormData) : FormData :=
  {| order_date := order_date formData;
     customer_name := customer_name formData;
     customer_phone := customer_phone formData;
     customer_address := customer_address formData;
     delivery_amount := delivery_amount formData;
     can_qty := can_qty formData;
     collected_qty := collected_qty formData;
     collected_date := empty_to_null (collected_date formData);
     delivery_date := delivery_date formData;
     delivery_time := delivery_time formData;
     order_status := order_status formData;
     notes := empty_to_null (notes formData) |}.

(** Submitting: the errors shown, and the request when there is none. *)
Definition handleSubmit (id : option string) (formData : FormData)
    : gmap string string * option Request :=
  let editing := isEditing id in
  (validate_errors editing formData,
   if validate editing formData then
     Some {| url := if editing then "/api/orders/" ++ default "" id else "/api/orders";
             method := if editing then "PUT" else "POST";
             payload := payload_of formData |}
   else None).

(** What the page shows as pending collection:
    [formData.can_qty - formData.collected_qty]. *)
Definition pending_collection (formData : FormData) : Js.number :=
  Js.sub (Js.ToNumber (can_qty formData)) (Js.ToNumber (collected_qty formData)).

(** Download: the figures sent to [POST /generate-order-receipt]. *)
Definition generateReceipt (id : option string) (currentPrices : option PriceSheet)
    (formData : FormData) : result Receipt.ReceiptData :=
  match isEditing id, id with
  | true, Some i =>
      match currentPrices with
      | None => Error "Current pricing data not found"
      | Some prices => Ok (Receipt.calculateReceiptData formData prices i)
      end
  | _, _ => Error "Please save the order first before generating receipt"
  end.

(** Preview: the figures and the page shown in the modal. *)
Definition viewReceipt (id : option string) (currentPrices : option PriceSheet)
    (formData : FormData) : result (Receipt.ReceiptData * string) :=
  match isEditing id, id with
  | true, Some i =>
      match currentPrices with
      | None => Error "Current pricing data not found"
      | Some prices =>
          let receiptData := Receipt.calculateReceiptData formData prices i in
          Ok (receiptData, Receipt.generateReceiptHTML formData receiptData)
      end
  | _, _ => Error "Please save the order first before viewing receipt"
  end.

(** *** The order summary beside the form *)

(** [currentPrices?.order_price || 0]. *)
Definition price_or_zero (currentPrices : option PriceSheet) : Js.value :=
  match currentPrices with
  | Some prices => Js.or_zero (order_price prices)
  | None => Js.Num 0
  end.

(** [(formData.can_qty || 0) * (currentPrices?.order_price || 0)]. *)
Definition summary_subtotal (formData : FormData) (currentPrices : option PriceSheet)
    : Js.number :=
  Js.mul (Js.ToNumber (Js.or_zero (can_qty formData)))
         (Js.ToNumber (price_or_zero currentPrices)).

(** [Math.max(0, (formData.can_qty || 0) - (formData.collected_qty || 0))]. *)
Definition summary_missingCans (formData : FormData) : Js.number :=
  Js.Math_max (Js.Fin 0)
    (Js.sub (Js.ToNumber (Js.or_zero (can_qty formData)))
            (Js.ToNumber (Js.or_zero (collected_qty formData)))).

(** The total of the summary. *)
Definition summary_total (formData : FormData) (currentPrices : option PriceSheet)
    : Js.number :=
  let subtotal := summary_subtotal formData currentPrices in
  let deliveryAmount :=
    Js.Fin (Js.number_or_zero (Js.ToNumber (delivery_amount formData))) in
  let missingCans := summary_missingCans formData in
  let missingCanCharge := Js.mul missingCans (Js.Fin 500) in
  Js.add (Js.add subtotal deliveryAmount) missingCanCharge.

End OrdersForm.

(** ** server/routes/orders.routes.js: creating an order *)

Module OrdersRoutes.

(** [req.body]; a key the request leaves out reads as [Js.Undefined]. *)
Record Body : Type := {
  order_date : Js.value;
  customer_name : Js.value;
  customer_phone : Js.value;
  customer_address : Js.value;
  delivery_amount : Js.value;
  can_qty : Js.value;
  collected_qty : Js.value;
  collected_date : Js.value;
  delivery_date : Js.value;
  delivery_time : Js.value;
  order_status : Js.value;
  notes : Js.value
}.

(** Modelled from the spec: the persistence collaborator, here the table
    [orders] behind [pool.query], whose module ([../database]) and schema
    are not among the sources.  The specification asks of the collaborator
    that a write is one atomic write to its keyed row and that a read sees
    the writes before it, and says no more of this table.  The model adds
    what the routes rely on and no source decides: the key [id] of a new
    row is [insertId], taken from a counter ([next_id]), and a row keeps
    the values bound to the statement as they are given, without the
    conversions of the column types; whether the table takes the values at
    all is the parameter [table_accepts] of the routes. *)
Record OrderRow : Type := {
  id : Z;
  columns : Body
}.

Record Db : Type := {
  rows : list OrderRow;
  next_id : Z
}.

Inductive Response : Type :=
| Created (status : Z) (row : option OrderRow)
| Failed (status : Z) (error : string).

Definition missing_required (b : Body) : bool :=
  negb (Js.truthy (order_date b)) || negb (Js.truthy (customer_name b))
  || negb (Js.truthy (customer_phone b)) || negb (Js.truthy (customer_address b))
  || Js.strict_eq (can_qty b) Js.Undefined || Js.strict_eq (can_qty b) Js.Null
  || negb (Js.truthy (delivery_date b)) || negb (Js.truthy (delivery_time b))
  || negb (Js.truthy (order_status b)).

(** The values bound to the [INSERT]. *)
Definition insert_values (b : Body) : Body :=
  {| order_date := order_date b;
     customer_name := customer_name b;
     customer_phone := customer_phone b;
     customer_address := customer_address b;
     delivery_amount := delivery_amount b;
     can_qty := can_qty b;
     collected_qty := Js.or_zero (collected_qty b);
     collected_date := collected_date b;
     delivery_date := delivery_date b;
     delivery_time := delivery_time b;
     order_status := order_status b;
     notes := if Js.strict_eq (notes b) (Js.Str "") then Js.Null else notes b |}.

Section Route.

(** The database module is not among the sources: whether the table takes a
    row (its column types and constraints) is a parameter.  A row it does
    not take makes [pool.query] throw. *)
Variable table_accepts : Body -> bool.

(** [pool.query('INSERT INTO orders ...')]: the new id and the new table.
    The table is the model described at [OrderRow]: the id is the one its
    counter gives, and the row holds the values as they are bound. *)
Definition query_insert (db : Db) (values : Body) : option (Z * Db) :=
  if table_accepts values then
    Some (next_id db,
          {| rows := rows db ++ [{| id := next_id db; columns := values |}];
             next_id := next_id db + 1 |})
  else None.

(** [pool.query('SELECT * FROM orders WHERE id = ?')]. *)
Definition query_select (db : Db) (orderId : Z) : list OrderRow :=
  List.filter (fun r => id r =? orderId) (rows db).

(** [router.post('/')]. *)
Definition router_post (db : Db) (body : Body) : Response * Db :=
  if missing_required body then (Failed 400 "Missing required fields", db)
  else
    match query_insert db (insert_values body) with
    | Some (newOrderId, db') => (Created 201 (head (query_select db' newOrderId)), db')
    | None => (Failed 500 "Failed to create order", db)
    end.

(** What the other routes answer: a list of rows, one row, a [{ message }]
    or an [{ error }]. *)
Inductive Reply : Type :=
| Rows (status : Z) (found : list OrderRow)
| Row (status : Z) (found : option OrderRow)
| Message (status : Z) (message : string)
| Failure (status : Z) (error : string).

(** [router.get('/')]. *)
Definition router_get (db : Db) : Reply := Rows 200 (rows db).

(** [router.get('/:id')].  Here and in the two routes below, [orderId] is
    the id the path parameter denotes, and where a message repeats the
    parameter it is printed in plain decimal: a path that writes the id
    otherwise, as in [/02], finds the same row and has its own text in the
    message. *)
Definition router_get_id (db : Db) (orderId : Z) : Reply :=
  match query_select db orderId with
  | row :: _ => Row 200 (Some row)
  | [] => Message 404 "Order not found"
  end.

(** The values bound to the [UPDATE]: the body as it is, but for the notes. *)
Definition update_values (b : Body) : Body :=
  {| order_date := order_date b;
     customer_name := customer_name b;
     customer_phone := customer_phone b;
     customer_address := customer_address b;
     delivery_amount := delivery_amount b;
     can_qty := can_qty b;
     collected_qty := collected_qty b;
     collected_date := collected_date b;
     delivery_date := delivery_date b;
     delivery_time := delivery_time b;
     order_status := order_status b;
     notes := if Js.strict_eq (notes b) (Js.Str "") then Js.Null else notes b |}.

(** [pool.query('UPDATE orders SET ... WHERE id = ?')]. *)
Definition query_update (db : Db) (orderId : Z) (values : Body) : option Db :=
  if table_accepts values then
    Some {| rows := map (fun r => if id r =? orderId
                                  then {| id := id r; columns := values |} else r)
                        (rows db);
            next_id := next_id db |}
  else None.

(** [pool.query('DELETE FROM orders WHERE id = ?')]. *)
Definition query_delete (db : Db) (orderId : Z) : Db :=
  {| rows := List.filter (fun r => negb (id r =? orderId)) (rows db);
     next_id := next_id db |}.

(** [router.put('/:id')]. *)
Definition router_put (db : Db) (orderId : Z) (body : Body) : Reply * Db :=
  match query_select db orderId with
  | [] => (Message 404 "Order not found", db)
  | _ :: _ =>
      match query_update db orderId (update_values body) with
      | Some db' => (Row 200 (head (query_select db' orderId)), db')
      | None => (Failure 500 "Failed to update order", db)
      end
  end.

(** [router.delete('/:id')]. *)
Definition router_delete (db : Db) (orderId : Z) : Reply * Db :=
  match query_select db orderId with
  | [] => (Message 404 "Order not found", db)
  | _ :: _ =>
      (Message 200 ("Order with ID " ++ Js.Z_to_string orderId ++ " deleted successfully"),
       query_delete db orderId)
  end.

(** What the primary key of the table gives: ids are below the next id to
    assign, and no two rows share one.  It is assumed of the table, not
    enforced by a route. *)
Definition well_formed (db : Db) : Prop :=
  Forall (fun r => id r < next_id db) (rows db) /\ NoDup (map id (rows db)).

End Route.

End OrdersRoutes.

(** ** From the form to the route *)

Module Wire.

(** The body the route reads from the JSON of a payload of the form: the
    fields keep their names and their values. *)
Definition body_of_form (payload : Form.FormData) : OrdersRoutes.Body :=
  {| OrdersRoutes.order_date := Form.order_date payload;
     OrdersRoutes.customer_name := Form.customer_name payload;
     OrdersRoutes.customer_phone := Form.customer_phone payload;
     OrdersRoutes.customer_address := Form.customer_address payload;
     OrdersRoutes.delivery_amount := Form.delivery_amount payload;
     OrdersRoutes.can_qty := Form.can_qty payload;
     OrdersRoutes.collected_qty := Form.collected_qty payload;
     OrdersRoutes.collected_date := Form.collected_date payload;
     OrdersRoutes.delivery_date := Form.delivery_date payload;
     OrdersRoutes.delivery_time := Form.delivery_time payload;
     OrdersRoutes.order_status := Form.order_status payload;
     OrdersRoutes.notes := Form.notes payload |}.

(** The status of a reply, and [response.ok] of [fetch]: the status is in
    the range 200 to 299. *)
Definition status_of (reply : OrdersRoutes.Reply) : Z :=
  match reply with
  | OrdersRoutes.Rows status _ => status
  | OrdersRoutes.Row status _ => status
  | OrdersRoutes.Message status _ => status
  | OrdersRoutes.Failure status _ => status
  end.

Definition response_ok (reply : OrdersRoutes.Reply) : bool :=
  (200 <=? status_of reply) && (status_of reply <=? 299).

End Wire.

(** ** The order charge as the specification words it *)

Module ChargeSpec.

(** An optional numeric field with its declared default: [collected_qty] is
    0 when it is absent. *)
Definition collected_or_default (collected_qty : Js.value) : Js.number :=
  match collected_qty with
  | Js.Undefined | Js.Null => Js.Fin 0
  | v => Js.ToNumber v
  end.

(** [delivery_amount] is 0 when it is absent or not a number. *)
Definition delivery_or_default (delivery_amount : Js.value) : Js.number :=
  match delivery_amount with
  | Js.Undefined | Js.Null => Js.Fin 0
  | v => match Js.ToNumber v with
         | Js.NaN => Js.Fin 0
         | n => n
         end
  end.

Record Charge : Type := {
  subtotal : Js.number;
  missing_cans : Js.number;
  missing_can_charge : Js.number;
  total_amount : Js.number
}.

Definition computeOrderCharge (can_qty collected_qty delivery_amount price_per_can : Js.value)
    : Charge :=
  let subtotal := Js.mul (Js.ToNumber can_qty) (Js.ToNumber price_per_can) in
  let missing_cans :=
    Js.Math_max (Js.Fin 0) (Js.sub (Js.ToNumber can_qty) (collected_or_default collected_qty)) in
  let missing_can_charge := Js.mul missing_cans (Js.Fin 500) in
  {| subtotal := subtotal;
     missing_cans := missing_cans;
     missing_can_charge := missing_can_charge;
     total_amount :=
       Js.add (Js.add subtotal (delivery_or_default delivery_amount)) missing_can_charge |}.

End ChargeSpec.

(** ** The monthly total as the specification words it *)

Module BillSpec.

(** The sum of the deliveries of a ledger, entry by entry. *)
Fixpoint sum_delivered (ledgerData : list Billing.LedgerEntry) : Js.number :=
  match ledgerData with
  | [] => Js.Fin 0
  | d :: rest => Js.add (Js.ToNumber (Billing.delivered_qty d)) (sum_delivered rest)
  end.

(** The sum of the numbers the cells of a calendar read as. *)
Definition sum_cells (cells : list Js.value) : Js.number :=
  fold_right (fun v total => Js.add (Js.ToNumber v) total) (Js.Fin 0) cells.

End BillSpec.

(** ** Sample states for the examples *)

Definition prices_a : PriceSheet :=
  {| order_price := Js.Num 60; shop_price := Js.Num 40; monthly_price := Js.Num 30 |}.

Definition prices_b : PriceSheet :=
  {| order_price := Js.Num 60; shop_price := Js.Num 45; monthly_price := Js.Num 35 |}.

Definition form_with (can collected : Js.value) : Form.FormData :=
  OrdersForm.set_field
    (OrdersForm.set_field (OrdersForm.initialFormData "2024-03-01") "can_qty" can)
    "collected_qty" collected.

Definition pending_order_form : Form.FormData :=
  {| Form.order_date := Js.Str "2024-03-01";
     Form.customer_name := Js.Str "Asha";
     Form.customer_phone := Js.Str "9000000001";
     Form.customer_address := Js.Str "Mandsaur";
     Form.delivery_amount := Js.Str "50";
     Form.can_qty := Js.Num 10;
     Form.collected_qty := Js.Num 7;
     Form.collected_date := Js.Str "2024-03-03";
     Form.delivery_date := Js.Str "2024-03-02";
     Form.delivery_time := Js.Str "10:00";
     Form.order_status := Js.Str "pending";
     Form.notes := Js.Str "" |}.

Definition cancelled_order_form : Form.FormData :=
  {| Form.order_date := Js.Str "2025-01-15";
     Form.customer_name := Js.Str "Ravi";
     Form.customer_phone := Js.Str "9000000002";
     Form.customer_address := Js.Str "Indore";
     Form.delivery_amount := Js.Str "50";
     Form.can_qty := Js.Num 10;
     Form.collected_qty := Js.Num 7;
     Form.collected_date := Js.Str "";
     Form.delivery_date := Js.Str "2025-01-16";
     Form.delivery_time := Js.Str "18:30";
     Form.order_status := Js.Str "cancelled";
     Form.notes := Js.Str "cancelled by the customer" |}.

Definition sample_order : Orders.Order :=
  {| Orders.id := 17;
     Orders.order_date := "2024-03-01";
     Orders.customer_name := "Asha";
     Orders.customer_phone := "9000000001";
     Orders.customer_address := "Mandsaur";
     Orders.can_qty := Js.Num 10;
     Orders.collected_qty := Js.Num 7;
     Orders.delivery_amount := Js.Str "50";
     Orders.delivery_date := "2024-03-02";
     Orders.delivery_time := "10:00";
     Orders.order_status := "delivered";
     Orders.notes := Js.Null;
     Orders.collected_date := Js.Str "2024-03-03" |}.

Definition march_ledger : list Billing.LedgerEntry :=
  [ {| Billing.date := "2024-03-01"; Billing.delivered_qty := Js.Num 2 |};
    {| Billing.date := "2024-03-02"; Billing.delivered_qty := Js.Num 0 |};
    {| Billing.date := "2024-03-05"; Billing.delivered_qty := Js.Num 3 |};
    {| Billing.date := "2024-03-09"; Billing.delivered_qty := Js.Num 1 |} ].

Definition monthly_bill : Billing.Bill :=
  {| Billing.customer_id := "C"; Billing.name := "C"; Billing.customer_type := "monthly" |}.

(** The ledger of a month whose entries hold the numbers given, by date. *)
Definition numeric_ledger (entries : list (string * Z)) : list Billing.LedgerEntry :=
  map (fun e => {| Billing.date := fst e; Billing.delivered_qty := Js.Num (snd e) |}) entries.

(** The same customer under another type. *)
Definition with_customer_type (c : DailyUpdate.Customer) (type : string)
    : DailyUpdate.Customer :=
  {| DailyUpdate.customer_id := DailyUpdate.customer_id c;
     DailyUpdate.name := DailyUpdate.name c;
     DailyUpdate.phone_number := DailyUpdate.phone_number c;
     DailyUpdate.customer_type := type;
     DailyUpdate.can_qty := DailyUpdate.can_qty c |}.

Definition empty_state (date : string) : DailyUpdate.State :=
  {| DailyUpdate.selectedDate := date;
     DailyUpdate.updates := ∅;
     DailyUpdate.customers := [];
     DailyUpdate.previousDayHoldings := ∅;
     DailyUpdate.error := None |}.

Definition shop_customer : DailyUpdate.Customer :=
  {| DailyUpdate.customer_id := "c1"; DailyUpdate.name := "Asha";
     DailyUpdate.phone_number := "9000000001"; DailyUpdate.customer_type := "shop";
     DailyUpdate.can_qty := Some 4 |}.

Definition order_customer : DailyUpdate.Customer :=
  {| DailyUpdate.customer_id := "c2"; DailyUpdate.name := "Ravi";
     DailyUpdate.phone_number := "9000000002"; DailyUpdate.customer_type := "order";
     DailyUpdate.can_qty := Some 5 |}.

(** The entry of the day before for the shop customer: 6 cans held. *)
Definition yesterday_entry : DailyUpdate.DailyUpdateType :=
  {| DailyUpdate.du_customer_id := "c1"; DailyUpdate.delivered_qty := 4;
     DailyUpdate.collected_qty := 2; DailyUpdate.du_holding_status := 6;
     DailyUpdate.du_notes := None |}.

(** The page loaded for a day without saved entries. *)
Definition loaded_state : DailyUpdate.State :=
  DailyUpdate.fetchInitialData (empty_state "2024-03-02")
    (Ok [shop_customer; order_customer]) (Some []) (Some [yesterday_entry]).

(** A request body with other quantities. *)
Definition with_quantities (b : OrdersRoutes.Body) (can collected delivery : Js.value)
    : OrdersRoutes.Body :=
  {| OrdersRoutes.order_date := OrdersRoutes.order_date b;
     OrdersRoutes.customer_name := OrdersRoutes.customer_name b;
     OrdersRoutes.customer_phone := OrdersRoutes.customer_phone b;
     OrdersRoutes.customer_address := OrdersRoutes.customer_address b;
     OrdersRoutes.delivery_amount := delivery;
     OrdersRoutes.can_qty := can;
     OrdersRoutes.collected_qty := collected;
     OrdersRoutes.collected_date := OrdersRoutes.collected_date b;
     OrdersRoutes.delivery_date := OrdersRoutes.delivery_date b;
     OrdersRoutes.delivery_time := OrdersRoutes.delivery_time b;
     OrdersRoutes.order_status := OrdersRoutes.order_status b;
     OrdersRoutes.notes := OrdersRoutes.notes b |}.

Definition sample_body : OrdersRoutes.Body :=
  {| OrdersRoutes.order_date := Js.Str "2024-03-01";
     OrdersRoutes.customer_name := Js.Str "Asha";
     OrdersRoutes.customer_phone := Js.Str "9000000001";
     OrdersRoutes.customer_address := Js.Str "Mandsaur";
     OrdersRoutes.delivery_amount := Js.Num 50;
     OrdersRoutes.can_qty := Js.Num 10;
     OrdersRoutes.collected_qty := Js.Undefined;
     OrdersRoutes.collected_date := Js.Null;
     OrdersRoutes.delivery_date := Js.Str "2024-03-02";
     OrdersRoutes.delivery_time := Js.Str "10:00";
     OrdersRoutes.order_status := Js.Str "pending";
     OrdersRoutes.notes := Js.Str "" |}.

Definition empty_db : OrdersRoutes.Db :=
  {| OrdersRoutes.rows := []; OrdersRoutes.next_id := 1 |}.

(** A table that takes every row. *)
Definition any_row (values : OrdersRoutes.Body) : bool := true.

(** The row of the DailyUpdate page after "-5" is typed as delivered and
    "2.5" as collected. *)
Definition negative_entry_state : DailyUpdate.State :=
  DailyUpdate.handleUpdateChange
    (DailyUpdate.handleUpdateChange loaded_state "c1" DailyUpdate.Fdelivered "-5")
    "c1" DailyUpdate.Fcollected "2.5".

(** The order form of an order of 10 cans, 7 collected, after the user types
    9 as the quantity and 10 as the collected quantity. *)
Definition edited_form : Form.FormData :=
  fst (OrdersForm.handleChange
         (fst (OrdersForm.handleChange pending_order_form ∅ "can_qty" "9"))
         ∅ "collected_qty" "10").

(** The same form after 10 is typed as the quantity and 9 as collected. *)
Definition edited_form_swapped : Form.FormData :=
  fst (OrdersForm.handleChange
         (fst (OrdersForm.handleChange pending_order_form ∅ "can_qty" "10"))
         ∅ "collected_qty" "9").

(** A table with two orders, the next id being 5. *)
Definition two_orders_db : OrdersRoutes.Db :=
  {| OrdersRoutes.rows :=
       [ {| OrdersRoutes.id := 2; OrdersRoutes.columns := sample_body |};
         {| OrdersRoutes.id := 4;
            OrdersRoutes.columns :=
              with_quantities sample_body (Js.Num 3) (Js.Num 1) (Js.Num 20) |} ];
     OrdersRoutes.next_id := 5 |}.

(** The body of an update that leaves out [can_qty] and sends text for the
    collected quantity. *)
Definition loose_body : OrdersRoutes.Body :=
  with_quantities sample_body Js.Undefined (Js.Str "") (Js.Str "abc").

(** The entry saved for the shop customer on the day itself: the server has
    stored a holding of 40. *)
Definition today_entry : DailyUpdate.DailyUpdateType :=
  {| DailyUpdate.du_customer_id := "c1"; DailyUpdate.delivered_qty := 3;
     DailyUpdate.collected_qty := 1; DailyUpdate.du_holding_status := 40;
     DailyUpdate.du_notes := Some "gate closed" |}.

(** An entry of the day for a customer who is not in the list. *)
Definition stray_entry : DailyUpdate.DailyUpdateType :=
  {| DailyUpdate.du_customer_id := "c9"; DailyUpdate.delivered_qty := 1;
     DailyUpdate.collected_qty := 0; DailyUpdate.du_holding_status := 1;
     DailyUpdate.du_notes := None |}.

(** The page loaded for a day that has saved entries. *)
Definition loaded_saved_state : DailyUpdate.State :=
  DailyUpdate.fetchInitialData (empty_state "2024-03-02")
    (Ok [shop_customer; order_customer]) (Some [today_entry; stray_entry])
    (Some [yesterday_entry]).

(** The day of the month of a date written [yyyy-mm-dd], read off its last
    two characters. *)
Definition day_of_iso (date : string) : Z :=
  Js.number_or_zero (Js.parseInt_string (String.substring 8 2 date)).

(** The sample order with other quantities. *)
Definition order_with (can collected : Js.value) : Orders.Order :=
  {| Orders.id := Orders.id sample_order;
     Orders.order_date := Orders.order_date sample_order;
     Orders.customer_name := Orders.customer_name sample_order;
     Orders.customer_phone := Orders.customer_phone sample_order;
     Orders.customer_address := Orders.customer_address sample_order;
     Orders.can_qty := can;
     Orders.collected_qty := collected;
     Orders.delivery_amount := Orders.delivery_amount sample_order;
     Orders.delivery_date := Orders.delivery_date sample_order;
     Orders.delivery_time := Orders.delivery_time sample_order;
     Orders.order_status := Orders.order_status sample_order;
     Orders.notes := Orders.notes sample_order;
     Orders.collected_date := Orders.collected_date sample_order |}.

(** A form ready to create an order of 10 cans. *)
Definition new_order_form : Form.FormData :=
  {| Form.order_date := Js.Str "2024-03-01";
     Form.customer_name := Js.Str "Asha";
     Form.customer_phone := Js.Str "9000000001";
     Form.customer_address := Js.Str "Mandsaur";
     Form.delivery_amount := Js.Str "50";
     Form.can_qty := Js.Str "10";
     Form.collected_qty := Js.Num 0;
     Form.collected_date := Js.Str "";
     Form.delivery_date := Js.Str "2024-03-02";
     Form.delivery_time := Js.Str "10:00";
     Form.order_status := Js.Str "pending";
     Form.notes := Js.Str "" |}.

(** Two bills of a month: one paid (the server sends 1), one not (0). *)
Definition sample_bills : list Billing.MonthlyBill :=
  [ {| Billing.mb_customer_id := "c1"; Billing.mb_name := "Asha Traders";
       Billing.mb_phone_number := "9000000001"; Billing.mb_customer_type := "shop";
       Billing.mb_bill_amount := Js.Str "1800.00";
       Billing.mb_total_cans_delivered := Js.Num 45;
       Billing.mb_total_delivery_days := Js.Num 20;
       Billing.mb_paid_status := Billing.FlagValue (Js.Num 1) |};
    {| Billing.mb_customer_id := "c2"; Billing.mb_name := "Ravi";
       Billing.mb_phone_number := "9000000002"; Billing.mb_customer_type := "monthly";
       Billing.mb_bill_amount := Js.Num 0;
       Billing.mb_total_cans_delivered := Js.Num 0;
       Billing.mb_total_delivery_days := Js.Num 0;
       Billing.mb_paid_status := Billing.FlagValue (Js.Num 0) |} ].

Definition ravi_bill : Billing.MonthlyBill :=
  {| Billing.mb_customer_id := "c2"; Billing.mb_name := "Ravi";
     Billing.mb_phone_number := "9000000002"; Billing.mb_customer_type := "monthly";
     Billing.mb_bill_amount := Js.Num 0;
     Billing.mb_total_cans_delivered := Js.Num 0;
     Billing.mb_total_delivery_days := Js.Num 0;
     Billing.mb_paid_status := Billing.FlagValue (Js.Num 0) |}.

(** A table that holds the sample order alone. *)
Definition one_order_db : OrdersRoutes.Db :=
  {| OrdersRoutes.rows :=
       [ {| OrdersRoutes.id := Orders.id sample_order;
            OrdersRoutes.columns := sample_body |} ];
     OrdersRoutes.next_id := 18 |}.

(* end of sample states *)

(** * Properties *)

(** ** Facts about the operators *)

Example parseInt_examples :
  Js.parseInt (Js.Str "12") = Js.Fin 12 /\
  Js.parseInt (Js.Str " -7px") = Js.Fin (-7) /\
  Js.parseInt (Js.Str "3.7") = Js.Fin 3 /\
  Js.parseInt (Js.Str "0x1f") = Js.Fin 31 /\
  Js.parseInt (Js.Str "") = Js.NaN /\
  Js.parseInt (Js.Str "abc") = Js.NaN /\
  Js.parseInt (Js.Num (-120)) = Js.Fin (-120) /\
  Js.parseInt (Js.Num 0) = Js.Fin 0 /\
  Js.parseInt Js.Undefined = Js.NaN.
Proof. repeat split; reflexivity. Qed.

Example Number_examples :
  Js.ToNumber (Js.Str "50") = Js.Fin 50 /\
  Js.ToNumber (Js.Str " 50 ") = Js.Fin 50 /\
  Js.ToNumber (Js.Str "") = Js.Fin 0 /\
  Js.ToNumber (Js.Str "-3") = Js.Fin (-3) /\
  Js.ToNumber (Js.Str "12px") = Js.NaN /\
  Js.ToNumber (Js.Str "abc") = Js.NaN /\
  Js.ToNumber Js.Null = Js.Fin 0 /\
  Js.ToNumber Js.Undefined = Js.NaN.
Proof. repeat split; reflexivity. Qed.

Example compare_examples :
  Js.gt (Js.Str "10") (Js.Str "9") = false /\
  Js.gt (Js.Str "10") (Js.Num 9) = true /\
  Js.gt (Js.Num 10) (Js.Num 9) = true /\
  Js.le (Js.Str "") (Js.Num 0) = true /\
  Js.le Js.Undefined (Js.Num 0) = false.
Proof. repeat split; reflexivity. Qed.

Lemma or_zero_ToNumber (v : Js.value) :
  Js.ToNumber (Js.or_zero v) = ChargeSpec.collected_or_default v.
Proof.
  destruct v as [| | z | s]; try reflexivity.
  - unfold Js.or_zero; simpl. destruct (Z.eqb_spec z 0) as [-> | _]; reflexivity.
  - unfold Js.or_zero; simpl. destruct (String.eqb_spec s "") as [-> | _]; reflexivity.
Qed.

Lemma number_or_zero_default (v : Js.value) :
  Js.Fin (Js.number_or_zero (Js.ToNumber v)) = ChargeSpec.delivery_or_default v.
Proof.
  destruct v as [| | z | s]; try reflexivity.
  simpl. destruct (Js.StringToNumber s); reflexivity.
Qed.

Lemma gt_Num (a b : Z) : Js.gt (Js.Num a) (Js.Num b) = (b <? a).
Proof. unfold Js.gt, Js.lt, Z.ltb; simpl. destruct (b ?= a); reflexivity. Qed.

Lemma lt_Num (a b : Z) : Js.lt (Js.Num a) (Js.Num b) = (a <? b).
Proof. unfold Js.lt, Z.ltb; simpl. destruct (a ?= b); reflexivity. Qed.

Lemma le_Num (a b : Z) : Js.le (Js.Num a) (Js.Num b) = (a <=? b).
Proof.
  unfold Js.le, Z.leb; simpl. rewrite (Z.compare_antisym a b).
  destruct (a ?= b); reflexivity.
Qed.

Lemma add_comm (a b : Js.number) : Js.add a b = Js.add b a.
Proof. destruct a, b; simpl; try reflexivity. f_equal; lia. Qed.

Lemma add_assoc (a b c : Js.number) : Js.add a (Js.add b c) = Js.add (Js.add a b) c.
Proof. destruct a, b, c; simpl; try reflexivity. f_equal; lia. Qed.

Lemma add_zero_l (a : Js.number) : Js.add (Js.Fin 0) a = a.
Proof. destruct a; reflexivity. Qed.

(** ** Printing an integer and reading it back *)

Section ParseIntRoundTrip.

Import Js.

Lemma digit_val_char (m : Z) : 0 <= m < 10 -> digit_val (digit_char m) = Some m.
Proof.
  intros H.
  assert (Hm : m = 0 \/ m = 1 \/ m = 2 \/ m = 3 \/ m = 4 \/ m = 5 \/ m = 6 \/ m = 7
               \/ m = 8 \/ m = 9) by lia.
  repeat (destruct Hm as [-> | Hm]; [reflexivity |]). subst m. reflexivity.
Qed.

Lemma digit_char_cases (m : Z) :
  0 <= m < 10 ->
  In (digit_char m) ["0"; "1"; "2"; "3"; "4"; "5"; "6"; "7"; "8"; "9"]%char.
Proof.
  intros H.
  assert (Hm : m = 0 \/ m = 1 \/ m = 2 \/ m = 3 \/ m = 4 \/ m = 5 \/ m = 6 \/ m = 7
               \/ m = 8 \/ m = 9) by lia.
  repeat (destruct Hm as [-> | Hm]; [simpl; tauto |]). subst m. simpl; tauto.
Qed.

Lemma digit_headed_plain (s : string) :
  digit_headed s -> skip_ws s = s /\ sign s = (1, s) /\ hex_prefix s = None.
Proof.
  intros [m Hm | m m' t Hm Hm'].
  - apply digit_char_cases in Hm. simpl in Hm.
    repeat (destruct Hm as [<- | Hm]; [repeat split; reflexivity |]). destruct Hm.
  - apply digit_char_cases in Hm. apply digit_char_cases in Hm'. simpl in Hm, Hm'.
    repeat (destruct Hm as [<- | Hm];
            [repeat (destruct Hm' as [<- | Hm']; [repeat split; reflexivity |]);
             destruct Hm' |]).
    destruct Hm.
Qed.

(** The digits written for [n] read back as [n], after whatever was read
    before them. *)
Lemma digits_decimal_fuel (fuel : nat) :
  forall (n : Z) (rest : string),
    0 <= n < 2 ^ Z.of_nat fuel -> (0 < fuel)%nat ->
    (rest = "" \/ exists m t, 0 <= m < 10 /\ rest = String (digit_char m) t) ->
    digit_headed (decimal_fuel fuel n rest)
    /\ exists k : Z,
         0 <= k
         /\ forall acc : option Z,
              digits 10 (decimal_fuel fuel n rest) acc
              = digits 10 rest (Some (default 0 acc * 10 ^ k + n)).
Proof.
  induction fuel as [| f IH]; intros n rest Hn Hfuel Hrest; [lia |].
  assert (Hmod : 0 <= n mod 10 < 10) by (apply Z.mod_pos_bound; lia).
  cbn [decimal_fuel].
  destruct (Z.ltb_spec n 10) as [Hsmall | Hbig].
  - split.
    + destruct Hrest as [-> | (m & t & Hm & ->)]; [apply digit_alone | apply digit_more];
        assumption.
    + exists 1. split; [lia |]. intros acc. cbn [digits].
      rewrite (digit_val_char _ Hmod).
      destruct (Z.ltb_spec (n mod 10) 10); [| lia].
      rewrite Z.mod_small by lia. rewrite Z.pow_1_r. reflexivity.
  - assert (Hdiv : 1 <= n / 10) by (apply Z.div_le_lower_bound; lia).
    assert (Hdiv2 : n / 10 < 2 ^ Z.of_nat f).
    { apply Z.div_lt_upper_bound; [lia |].
      replace (Z.of_nat (S f)) with (Z.of_nat f + 1) in Hn by lia.
      rewrite Z.pow_add_r, Z.pow_1_r in Hn by lia. lia. }
    assert (Hf : (0 < f)%nat).
    { destruct f; [simpl in Hdiv2; lia | lia]. }
    destruct (IH (n / 10) (String (digit_char (n mod 10)) rest)) as (Hhead & k & Hk & Hdigits).
    + lia.
    + exact Hf.
    + right. exists (n mod 10), rest. split; [exact Hmod | reflexivity].
    + split; [exact Hhead |]. exists (k + 1). split; [lia |]. intros acc.
      rewrite Hdigits. cbn [digits]. rewrite (digit_val_char _ Hmod).
      destruct (Z.ltb_spec (n mod 10) 10); [| lia].
      f_equal. f_equal. cbn [default]. rewrite Z.pow_add_r, Z.pow_1_r by lia.
      pose proof (Z.div_mod n 10 ltac:(lia)) as Hdm. unfold id.
      set (a := default 0 acc). set (p := 10 ^ k). lia.
Qed.

Lemma parseInt_decimal (n : Z) :
  0 <= n ->
  let s := decimal_fuel (S (Z.to_nat (Z.log2 n))) n "" in
  digit_headed s /\ fst (digits 10 s None) = Some n.
Proof.
  intros Hn s.
  assert (Hrange : 0 <= n < 2 ^ Z.of_nat (S (Z.to_nat (Z.log2 n)))).
  { split; [exact Hn |].
    replace (Z.of_nat (S (Z.to_nat (Z.log2 n)))) with (Z.succ (Z.log2 n))
      by (pose proof (Z.log2_nonneg n); lia).
    destruct (Z.eq_dec n 0) as [-> | Hne]; [reflexivity |].
    apply Z.log2_spec. lia. }
  destruct (digits_decimal_fuel _ n "" Hrange ltac:(lia) (or_introl eq_refl))
    as (Hhead & k & Hk & Hdigits).
  split; [exact Hhead |]. subst s. rewrite Hdigits. reflexivity.
Qed.

(** [parseInt] of a number is that number. *)
Lemma parseInt_Num (z : Z) : parseInt (Num z) = Fin z.
Proof.
  unfold parseInt, ToString, Z_to_string.
  destruct (parseInt_decimal (Z.abs z) (Z.abs_nonneg z)) as [Hhead Hdigits].
  destruct (digit_headed_plain _ Hhead) as (Hws & Hsign & Hhex).
  destruct (Z.ltb_spec z 0) as [Hneg | Hpos].
  - unfold parseInt_string. cbn [skip_ws is_ws]. cbn [sign].
    change (is_ws "-"%char) with false. cbv iota. cbn [sign].
    rewrite Hhex, Hdigits. f_equal. lia.
  - unfold parseInt_string. rewrite Hws, Hsign, Hhex, Hdigits. f_equal. lia.
Qed.

End ParseIntRoundTrip.

Lemma parseInt_or_zero_Num (z : Z) : DailyUpdate.parseInt_or_zero (Js.Num z) = z.
Proof. unfold DailyUpdate.parseInt_or_zero. rewrite parseInt_Num. reflexivity. Qed.

(** ** C3: the order charge *)

(** C3.  For every form state and price row, the figures of
    [calculateReceiptData] are those of the specified order charge computed
    from [can_qty], [collected_qty], [delivery_amount] and the order price:
    subtotal = can_qty * price; charge = max(0, can_qty - collected_qty) * 500
    with an absent [collected_qty] read as 0; total = subtotal + delivery +
    charge with an absent or non-numeric [delivery_amount] read as 0.  For
    10 cans, 7 collected, a delivery amount of 50 and a price of 60 the
    figures are 600, 3, 1500 and 2150. *)
Theorem C3_order_charge :
  (forall (formData : Form.FormData) (currentPrices : PriceSheet) (id : string),
      let r := Receipt.calculateReceiptData formData currentPrices id in
      let c := ChargeSpec.computeOrderCharge (Form.can_qty formData)
                 (Form.collected_qty formData) (Form.delivery_amount formData)
                 (order_price currentPrices) in
      Receipt.subtotal r
        = Js.mul (Js.ToNumber (Form.can_qty formData)) (Js.ToNumber (order_price currentPrices))
      /\ Receipt.subtotal r = ChargeSpec.subtotal c
      /\ Receipt.missingCans r = ChargeSpec.missing_cans c
      /\ Receipt.missingCanCharge r = ChargeSpec.missing_can_charge c
      /\ Receipt.deliveryAmount r = ChargeSpec.delivery_or_default (Form.delivery_amount formData)
      /\ Receipt.totalAmount r = ChargeSpec.total_amount c
      /\ Receipt.totalAmount r
         = Js.add (Js.add (Receipt.subtotal r) (Receipt.deliveryAmount r))
                  (Receipt.missingCanCharge r))
  /\ (forall (formData : Form.FormData) (shop monthly : Js.value) (id : string),
         let formData' :=
           OrdersForm.set_field
             (OrdersForm.set_field (OrdersForm.set_field formData "can_qty" (Js.Num 10))
                                   "collected_qty" (Js.Num 7))
             "delivery_amount" (Js.Num 50) in
         let currentPrices :=
           {| order_price := Js.Num 60; shop_price := shop; monthly_price := monthly |} in
         let r := Receipt.calculateReceiptData formData' currentPrices id in
         Receipt.subtotal r = Js.Fin 600 /\ Receipt.missingCans r = Js.Fin 3
         /\ Receipt.missingCanCharge r = Js.Fin 1500 /\ Receipt.totalAmount r = Js.Fin 2150).
Proof.
  split.
  - intros formData currentPrices id r c. subst r c.
    unfold Receipt.calculateReceiptData, ChargeSpec.computeOrderCharge; simpl.
    rewrite or_zero_ToNumber, number_or_zero_default.
    repeat split; reflexivity.
  - intros formData shop monthly id. cbv zeta.
    repeat split; reflexivity.
Qed.

(** ** C5: missing cans against collected cans *)

Lemma missingCans_value (formData : Form.FormData) (currentPrices : PriceSheet) (id : string)
    (q c : Z) :
  Js.ToNumber (Form.can_qty formData) = Js.Fin q ->
  ChargeSpec.collected_or_default (Form.collected_qty formData) = Js.Fin c ->
  Receipt.missingCans (Receipt.calculateReceiptData formData currentPrices id)
  = Js.Fin (Z.max 0 (q - c)).
Proof.
  intros Hq Hc. unfold Receipt.calculateReceiptData; simpl.
  rewrite or_zero_ToNumber, Hq, Hc. reflexivity.
Qed.

(** C5, as the code has it.  For a fixed [can_qty], the missing cans do not
    increase when [collected_qty] increases; with nothing collected they are
    max(0, can_qty), hence [can_qty] itself whenever [can_qty] is not
    negative. *)
Theorem C5_missing_cans_monotone
    (fd1 fd2 : Form.FormData) (p1 p2 : PriceSheet) (id1 id2 : string) (q c1 c2 : Z) :
  Js.ToNumber (Form.can_qty fd1) = Js.Fin q ->
  Js.ToNumber (Form.can_qty fd2) = Js.Fin q ->
  ChargeSpec.collected_or_default (Form.collected_qty fd1) = Js.Fin c1 ->
  ChargeSpec.collected_or_default (Form.collected_qty fd2) = Js.Fin c2 ->
  c1 <= c2 ->
  exists m1 m2 : Z,
    Receipt.missingCans (Receipt.calculateReceiptData fd1 p1 id1) = Js.Fin m1
    /\ Receipt.missingCans (Receipt.calculateReceiptData fd2 p2 id2) = Js.Fin m2
    /\ m2 <= m1
    /\ (c1 = 0 -> m1 = Z.max 0 q)
    /\ (c1 = 0 -> 0 <= q -> m1 = q).
Proof.
  intros Hq1 Hq2 Hc1 Hc2 Hle.
  exists (Z.max 0 (q - c1)), (Z.max 0 (q - c2)).
  rewrite (missingCans_value fd1 p1 id1 q c1 Hq1 Hc1).
  rewrite (missingCans_value fd2 p2 id2 q c2 Hq2 Hc2).
  repeat split; intros; subst; lia.
Qed.

Lemma C5_missing_cans_monotone_witness :
  exists m1 m2 : Z,
    Receipt.missingCans
      (Receipt.calculateReceiptData (form_with (Js.Str "10") Js.Undefined) prices_a "1")
    = Js.Fin m1
    /\ Receipt.missingCans
         (Receipt.calculateReceiptData (form_with (Js.Num 10) (Js.Str "7")) prices_a "2")
       = Js.Fin m2
    /\ m2 <= m1
    /\ (0 = 0 -> m1 = Z.max 0 10)
    /\ (0 = 0 -> 0 <= 10 -> m1 = 10).
Proof.
  apply (C5_missing_cans_monotone
           (form_with (Js.Str "10") Js.Undefined) (form_with (Js.Num 10) (Js.Str "7"))
           prices_a prices_a "1" "2" 10 0 7);
    [reflexivity | reflexivity | reflexivity | reflexivity | lia].
Defined.

(** With nothing collected and a negative [can_qty] the missing cans are 0,
    not [can_qty]. *)
Lemma C5_counterexample :
  let formData := form_with (Js.Num (-1)) (Js.Num 0) in
  Form.can_qty formData = Js.Num (-1)
  /\ Form.collected_qty formData = Js.Num 0
  /\ Receipt.missingCans (Receipt.calculateReceiptData formData prices_a "1") = Js.Fin 0
  /\ Receipt.missingCans (Receipt.calculateReceiptData formData prices_a "1")
     <> Js.ToNumber (Form.can_qty formData).
Proof. cbv zeta. repeat split; try reflexivity. discriminate. Qed.

(** ** C9: what the charge depends on *)

(** C9.  Two calls of [calculateReceiptData] whose forms agree on [can_qty],
    [collected_qty] and [delivery_amount], and whose price rows agree on
    [order_price], return the same six figures, whatever the other fields of
    the form (status, notes, customer, dates), the other prices and the
    order id. *)
Theorem C9_charge_depends_only_on_four
    (fd1 fd2 : Form.FormData) (p1 p2 : PriceSheet) (id1 id2 : string) :
  Form.can_qty fd1 = Form.can_qty fd2 ->
  Form.collected_qty fd1 = Form.collected_qty fd2 ->
  Form.delivery_amount fd1 = Form.delivery_amount fd2 ->
  order_price p1 = order_price p2 ->
  let r1 := Receipt.calculateReceiptData fd1 p1 id1 in
  let r2 := Receipt.calculateReceiptData fd2 p2 id2 in
  Receipt.pricePerCan r1 = Receipt.pricePerCan r2
  /\ Receipt.subtotal r1 = Receipt.subtotal r2
  /\ Receipt.deliveryAmount r1 = Receipt.deliveryAmount r2
  /\ Receipt.missingCans r1 = Receipt.missingCans r2
  /\ Receipt.missingCanCharge r1 = Receipt.missingCanCharge r2
  /\ Receipt.totalAmount r1 = Receipt.totalAmount r2.
Proof.
  intros Hq Hc Hd Hp r1 r2. subst r1 r2.
  unfold Receipt.calculateReceiptData; simpl.
  rewrite Hq, Hc, Hd, Hp. repeat split; reflexivity.
Qed.

Lemma C9_charge_depends_only_on_four_witness :
  let r1 := Receipt.calculateReceiptData pending_order_form prices_a "17" in
  let r2 := Receipt.calculateReceiptData cancelled_order_form prices_b "18" in
  Receipt.pricePerCan r1 = Receipt.pricePerCan r2
  /\ Receipt.subtotal r1 = Receipt.subtotal r2
  /\ Receipt.deliveryAmount r1 = Receipt.deliveryAmount r2
  /\ Receipt.missingCans r1 = Receipt.missingCans r2
  /\ Receipt.missingCanCharge r1 = Receipt.missingCanCharge r2
  /\ Receipt.totalAmount r1 = Receipt.totalAmount r2.
Proof.
  apply (C9_charge_depends_only_on_four pending_order_form cancelled_order_form
           prices_a prices_b "17" "18"); reflexivity.
Defined.

Example cancelled_order_is_charged :
  Receipt.totalAmount (Receipt.calculateReceiptData cancelled_order_form prices_b "18")
  = Js.Fin 2150.
Proof. reflexivity. Qed.

(** ** C6: preview and download compute the same figures *)

(** C6.  For an order and a form state that hold the same [can_qty],
    [collected_qty] and [delivery_amount], and one current price row, the
    receipt preview and the receipt download of the Orders page and the
    preview and the download of the order form all succeed and compute the
    same price per can, subtotal, delivery amount, missing cans, missing can
    charge and total amount. *)
Theorem C6_preview_download_agree
    (price : PriceSheet) (others : list PriceSheet) (order : Orders.Order)
    (formData : Form.FormData) (id : string) :
  Form.can_qty formData = Orders.can_qty order ->
  Form.collected_qty formData = Orders.collected_qty order ->
  Form.delivery_amount formData = Orders.delivery_amount order ->
  OrdersForm.isEditing (Some id) = true ->
  exists (shown : Orders.Figures) (sent : Orders.ReceiptRequest)
         (download preview : Receipt.ReceiptData) (page : string),
    Orders.viewOrderReceipt (Some (price :: others)) order = Ok shown
    /\ Orders.generateOrderReceipt (Some (price :: others)) order = Ok sent
    /\ OrdersForm.generateReceipt (Some id) (Some price) formData = Ok download
    /\ OrdersForm.viewReceipt (Some id) (Some price) formData = Ok (preview, page)
    /\ Orders.generateOrderReceipt_figures price order = shown
    /\ Orders.total_amount sent = Orders.totalAmount shown
    /\ Orders.price_per_can sent = Orders.pricePerCan shown
    /\ preview = download
    /\ Receipt.pricePerCan download = Orders.pricePerCan shown
    /\ Receipt.subtotal download = Orders.subtotal shown
    /\ Receipt.deliveryAmount download = Orders.deliveryAmount shown
    /\ Receipt.missingCans download = Orders.missingCans shown
    /\ Receipt.missingCanCharge download = Orders.missingCanCharge shown
    /\ Receipt.totalAmount download = Orders.totalAmount shown.
Proof.
  intros Hq Hc Hd Hedit.
  eexists _, _, _, _, _.
  unfold Orders.viewOrderReceipt, Orders.generateOrderReceipt,
    OrdersForm.generateReceipt, OrdersForm.viewReceipt.
  rewrite Hedit. simpl Orders.currentPrice. cbv iota beta.
  repeat (split; [reflexivity |]).
  unfold Receipt.calculateReceiptData, Orders.viewOrderReceipt_figures; simpl.
  rewrite Hq, Hc, Hd. repeat split; reflexivity.
Qed.

Lemma C6_preview_download_agree_witness :
  exists (shown : Orders.Figures) (sent : Orders.ReceiptRequest)
         (download preview : Receipt.ReceiptData) (page : string),
    Orders.viewOrderReceipt (Some [prices_a; prices_b]) sample_order = Ok shown
    /\ Orders.generateOrderReceipt (Some [prices_a; prices_b]) sample_order = Ok sent
    /\ OrdersForm.generateReceipt (Some "17") (Some prices_a) pending_order_form = Ok download
    /\ OrdersForm.viewReceipt (Some "17") (Some prices_a) pending_order_form
       = Ok (preview, page)
    /\ Orders.generateOrderReceipt_figures prices_a sample_order = shown
    /\ Orders.total_amount sent = Orders.totalAmount shown
    /\ Orders.price_per_can sent = Orders.pricePerCan shown
    /\ preview = download
    /\ Receipt.pricePerCan download = Orders.pricePerCan shown
    /\ Receipt.subtotal download = Orders.subtotal shown
    /\ Receipt.deliveryAmount download = Orders.deliveryAmount shown
    /\ Receipt.missingCans download = Orders.missingCans shown
    /\ Receipt.missingCanCharge download = Orders.missingCanCharge shown
    /\ Receipt.totalAmount download = Orders.totalAmount shown.
Proof.
  apply (C6_preview_download_agree prices_a [prices_b] sample_order pending_order_form "17");
    reflexivity.
Defined.

Example sample_order_total :
  Orders.totalAmount (Orders.viewOrderReceipt_figures prices_a sample_order) = Js.Fin 2150.
Proof. reflexivity. Qed.

(** ** C4: the monthly totals *)

Lemma fold_add_shift (l : list Billing.LedgerEntry) (a : Js.number) :
  fold_left (fun sum d => Js.add sum (Js.ToNumber (Billing.delivered_qty d))) l a
  = Js.add a (BillSpec.sum_delivered l).
Proof.
  revert a. induction l as [| d l IH]; intros a; simpl.
  - destruct a; simpl; [reflexivity | f_equal; lia].
  - rewrite IH, <- add_assoc. reflexivity.
Qed.

Lemma totalCans_is_sum (l : list Billing.LedgerEntry) :
  Billing.totalCans_of l = BillSpec.sum_delivered l.
Proof. unfold Billing.totalCans_of. rewrite fold_add_shift. apply add_zero_l. Qed.

(** A ledger whose quantities are the numbers [qs], one entry per date. *)
Lemma sum_delivered_numbers (l : list Billing.LedgerEntry) (qs : list Z) :
  map Billing.delivered_qty l = map Js.Num qs ->
  BillSpec.sum_delivered l = Js.Fin (fold_right Z.add 0 qs)
  /\ Billing.total_delivery_days l = Z.of_nat (length (List.filter (fun q => 0 <? q) qs)).
Proof.
  revert qs. induction l as [| d l IH]; intros [| q qs] H; simpl in H; try discriminate.
  - split; reflexivity.
  - injection H as Hd Hl. destruct (IH qs Hl) as [IHs IHd]. split.
    + simpl. rewrite Hd, IHs. reflexivity.
    + unfold Billing.total_delivery_days in *. simpl. rewrite Hd.
      rewrite gt_Num. destruct (0 <? q); simpl; lia.
Qed.

(** C4.  For a bill, a current price row and the ledger entries of the
    month, [openLedger] takes the price per can from the customer type (shop
    price for "shop", monthly price for "monthly", order price otherwise),
    the total of cans as the sum of the delivered quantities, and the amount
    as total * price; the delivery days are the entries with a positive
    delivered quantity.  A monthly customer at 300 with deliveries 2, 0, 3, 1
    has 6 cans, 3 delivery days and an amount of 1800. *)
Theorem C4_monthly_aggregation :
  (forall (bill : Billing.Bill) (price : PriceSheet) (others : list PriceSheet)
          (ledgerData : list Billing.LedgerEntry),
      exists t : Billing.LedgerTotals,
        Billing.openLedger (Some (price :: others)) (Some ledgerData) bill = Ok t
        /\ Billing.pricePerCan t
           = (if String.eqb (Billing.customer_type bill) "shop" then shop_price price
              else if String.eqb (Billing.customer_type bill) "monthly" then monthly_price price
              else order_price price)
        /\ Billing.totalCans t = BillSpec.sum_delivered ledgerData
        /\ Billing.totalAmount t
           = Js.mul (Billing.totalCans t) (Js.ToNumber (Billing.pricePerCan t))
        /\ Billing.total_delivery_days ledgerData
           = Z.of_nat (length (List.filter
                                 (fun d => Js.gt (Billing.delivered_qty d) (Js.Num 0))
                                 ledgerData)))
  /\ (forall (bill : Billing.Bill) (price : PriceSheet) (others : list PriceSheet)
             (entries : list (string * Z)),
         exists t : Billing.LedgerTotals,
           Billing.openLedger (Some (price :: others)) (Some (numeric_ledger entries)) bill
           = Ok t
           /\ Billing.totalCans t = Js.Fin (fold_right Z.add 0 (map snd entries))
           /\ Billing.total_delivery_days (numeric_ledger entries)
              = Z.of_nat (length (List.filter (fun q => 0 <? q) (map snd entries))))
  /\ (forall (order shop : Js.value) (others : list PriceSheet),
         let price :=
           {| order_price := order; shop_price := shop; monthly_price := Js.Num 300 |} in
         exists t : Billing.LedgerTotals,
           Billing.openLedger (Some (price :: others)) (Some march_ledger) monthly_bill = Ok t
           /\ Billing.pricePerCan t = Js.Num 300
           /\ Billing.totalCans t = Js.Fin 6
           /\ Billing.total_delivery_days march_ledger = 3
           /\ Billing.totalAmount t = Js.Fin 1800).
Proof.
  split; [| split].
  - intros bill price others ledgerData. eexists. split; [reflexivity |]. simpl.
    split; [reflexivity |]. split; [apply totalCans_is_sum |]. split; reflexivity.
  - intros bill price others entries. eexists. split; [reflexivity |]. simpl.
    rewrite totalCans_is_sum. apply sum_delivered_numbers.
    unfold numeric_ledger. rewrite !map_map. reflexivity.
  - intros order shop others price. eexists. split; [reflexivity |].
    repeat split; reflexivity.
Qed.

(** ** The daily holding *)

Section DailyUpdateFacts.

Import DailyUpdate.

(** Filling a map entry by entry, as [forEach] and [reduce] do. *)
Lemma fold_insert_notin {A V : Type} (key : A -> string) (val : A -> V) (l : list A)
    (acc : gmap string V) (k : string) :
  ~ In k (map key l) ->
  fold_left (fun acc x => <[key x := val x]> acc) l acc !! k = acc !! k.
Proof.
  revert acc. induction l as [| x l IH]; intros acc Hnot; simpl; [reflexivity |].
  rewrite IH.
  - apply lookup_insert_ne. intros Heq. apply Hnot. left. exact Heq.
  - intros Hin. apply Hnot. right. exact Hin.
Qed.

Lemma fold_insert_lookup {A V : Type} (key : A -> string) (val : A -> V) (l : list A)
    (acc : gmap string V) (x : A) :
  NoDup (map key l) -> In x l ->
  fold_left (fun acc y => <[key y := val y]> acc) l acc !! key x = Some (val x).
Proof.
  revert acc. induction l as [| y l IH]; intros acc Hnd Hin; [destruct Hin |].
  simpl. apply NoDup_cons in Hnd as [Hy Hnd]. destruct Hin as [-> | Hin].
  - rewrite fold_insert_notin.
    + apply lookup_insert_eq.
    + intros H. apply Hy. apply list_elem_of_In. exact H.
  - apply IH; assumption.
Qed.

(** With one entry per customer, the map of the day before holds the
    holding of each entry. *)
Lemma prevDayHoldings_of_lookup (l : list DailyUpdateType) (u : DailyUpdateType) :
  NoDup (map du_customer_id l) -> In u l ->
  prevDayHoldings_of l !! du_customer_id u = Some (du_holding_status u).
Proof. apply (fold_insert_lookup du_customer_id du_holding_status). Qed.

Lemma prevDayHoldings_of_absent (l : list DailyUpdateType) (cid : string) :
  ~ In cid (map du_customer_id l) -> prevDayHoldings_of l !! cid = None.
Proof.
  intros H. unfold prevDayHoldings_of.
  rewrite (fold_insert_notin du_customer_id du_holding_status) by exact H.
  apply lookup_empty.
Qed.

Lemma defaultUpdatesMap_of_lookup (holdings : gmap string Z) (cs : list Customer)
    (c : Customer) :
  NoDup (map customer_id cs) -> In c cs ->
  defaultUpdatesMap_of holdings cs !! customer_id c = Some (default_row holdings c).
Proof. apply (fold_insert_lookup customer_id (default_row holdings)). Qed.

(** The saved entries of the day replace the rows of their customers only. *)
Lemma merge_updates_notin (data : list DailyUpdateType) (m : gmap string DailyUpdateState)
    (cid : string) :
  ~ In cid (map du_customer_id data) -> merge_updates m data !! cid = m !! cid.
Proof.
  unfold merge_updates. revert m.
  induction data as [| x data IH]; intros m Hnot; simpl; [reflexivity |].
  rewrite IH by (intros Hin; apply Hnot; right; exact Hin).
  destruct (m !! du_customer_id x); [| reflexivity].
  apply lookup_insert_ne. intros Heq. apply Hnot. left. exact Heq.
Qed.

(** On loading, a customer without a saved entry for the day is offered the
    default row. *)
Lemma fetchInitialData_offers_default (st : State) (customersData : list Customer)
    (initialUpdates prevDayUpdates : option (list DailyUpdateType)) (c : Customer) :
  NoDup (map customer_id customersData) -> In c customersData ->
  ~ In (customer_id c) (map du_customer_id (default [] initialUpdates)) ->
  let st1 := fetchInitialData st (Ok customersData) initialUpdates prevDayUpdates in
  updates st1 !! customer_id c = Some (default_row (previousDayHoldings st1) c)
  /\ holding_cell st1 (customer_id c)
     = holding_status (default_row (previousDayHoldings st1) c).
Proof.
  intros Hnd Hin Hnot st1.
  assert (H : updates st1 !! customer_id c = Some (default_row (previousDayHoldings st1) c)).
  { subst st1. cbn [fetchInitialData updates previousDayHoldings].
    destruct initialUpdates as [data |]; simpl in Hnot.
    - rewrite merge_updates_notin by exact Hnot.
      apply defaultUpdatesMap_of_lookup; assumption.
    - apply defaultUpdatesMap_of_lookup; assumption. }
  split; [exact H |]. unfold holding_cell. rewrite H. reflexivity.
Qed.

(** The row an edit of a quantity leaves: its holding is the base holding
    plus what the row now reads as delivered minus what it reads as
    collected. *)
Lemma handleUpdateChange_row (st : State) (cid : string) (field : Field) (value : string) :
  field <> Fnotes ->
  exists row : DailyUpdateState,
    updates (handleUpdateChange st cid field value) !! cid = Some row
    /\ holding_status row
       = baseHolding st cid + parseInt_or_zero (delivered row) - parseInt_or_zero (collected row).
Proof.
  intros Hf. unfold handleUpdateChange. simpl. eexists. split.
  - apply lookup_insert_eq.
  - destruct field; [reflexivity | reflexivity | contradiction].
Qed.

Lemma handleUpdateChange_cell (st : State) (cid : string) (field : Field) (value : string) :
  field <> Fnotes ->
  let st' := handleUpdateChange st cid field value in
  holding_cell st' cid
  = baseHolding st cid + ud_delivered_qty (updateData_of st' cid)
    - ud_collected_qty (updateData_of st' cid).
Proof.
  intros Hf st'. destruct (handleUpdateChange_row st cid field value Hf) as (row & Hrow & Hh).
  subst st'. unfold holding_cell, updateData_of, field_of. cbn [ud_delivered_qty ud_collected_qty].
  rewrite Hrow. exact Hh.
Qed.

Lemma handleUpdateChange_keeps (st : State) (cid : string) (field : Field) (value : string) :
  previousDayHoldings (handleUpdateChange st cid field value) = previousDayHoldings st
  /\ customers (handleUpdateChange st cid field value) = customers st.
Proof. split; reflexivity. Qed.

(** The entries of the day that are merged leave, for a customer who has a
    row and an entry, the row of one of the customer's entries. *)
Lemma merge_updates_found (data : list DailyUpdateType) (m : gmap string DailyUpdateState)
    (cid : string) :
  In cid (map du_customer_id data) -> is_Some (m !! cid) ->
  exists e : DailyUpdateType,
    In e data /\ du_customer_id e = cid /\ merge_updates m data !! cid = Some (row_of_update e).
Proof.
  revert m. induction data as [| x data IH]; intros m Hin Hm; [destruct Hin |].
  change (merge_updates m (x :: data))
    with (merge_updates (match m !! du_customer_id x with
                         | Some _ => <[du_customer_id x := row_of_update x]> m
                         | None => m
                         end) data).
  destruct (in_dec String.string_dec cid (map du_customer_id data)) as [Hrest | Hrest].
  - destruct (IH (match m !! du_customer_id x with
                  | Some _ => <[du_customer_id x := row_of_update x]> m
                  | None => m
                  end) Hrest) as (e & He & Hid & Hrow).
    + destruct (m !! du_customer_id x); [| exact Hm].
      apply lookup_insert_is_Some. destruct (decide (du_customer_id x = cid)) as [Heq | Hne];
        [left; exact Heq | right; split; assumption].
    + exists e. split; [right; exact He | split; assumption].
  - destruct Hin as [Hx | Hin]; [| contradiction].
    exists x. split; [left; reflexivity | split; [exact Hx |]].
    rewrite merge_updates_notin by exact Hrest. rewrite Hx.
    destruct Hm as [old Hold]. rewrite Hold. apply lookup_insert_eq.
Qed.

(** No event of the page changes the holdings of the day before. *)
Lemma run_keeps_previous (events : list Event) (st : State) :
  previousDayHoldings (run st events) = previousDayHoldings st.
Proof.
  revert st. induction events as [| e events IH]; intros st; [reflexivity |].
  change (run st (e :: events)) with (run (handle st e) events). rewrite IH.
  destruct e as [cid field value | cid saved refresh]; [reflexivity |].
  destruct saved, refresh; reflexivity.
Qed.

(** An edit of a quantity, in full: the holding is the base holding plus
    delivered minus collected, where the edited quantity is the typed one
    and the other is the one a save would have sent before the edit; the
    same two quantities are those a save sends after it. *)
Lemma edit_delivered (st : State) (cid value : string) :
  let st' := handleUpdateChange st cid Fdelivered value in
  holding_cell st' cid
  = baseHolding st cid + parseInt_or_zero (Js.Str value) - ud_collected_qty (updateData_of st cid)
  /\ ud_delivered_qty (updateData_of st' cid) = parseInt_or_zero (Js.Str value)
  /\ ud_collected_qty (updateData_of st' cid) = ud_collected_qty (updateData_of st cid).
Proof.
  unfold holding_cell, updateData_of, field_of, handleUpdateChange.
  cbn [updates ud_delivered_qty ud_collected_qty]. rewrite !lookup_insert_eq.
  destruct (updates st !! cid) as [row |]; repeat split; reflexivity.
Qed.

Lemma edit_collected (st : State) (cid value : string) :
  let st' := handleUpdateChange st cid Fcollected value in
  holding_cell st' cid
  = baseHolding st cid + ud_delivered_qty (updateData_of st cid) - parseInt_or_zero (Js.Str value)
  /\ ud_delivered_qty (updateData_of st' cid) = ud_delivered_qty (updateData_of st cid)
  /\ ud_collected_qty (updateData_of st' cid) = parseInt_or_zero (Js.Str value).
Proof.
  unfold holding_cell, updateData_of, field_of, handleUpdateChange.
  cbn [updates ud_delivered_qty ud_collected_qty]. rewrite !lookup_insert_eq.
  destruct (updates st !! cid) as [row |]; repeat split; reflexivity.
Qed.

End DailyUpdateFacts.

(** C1, as the code has it.  Let the entries of the day before hold one
    entry per customer, [u] be the entry of the listed customer [c], and the
    page be loaded for the day.
    - After any edits and saves, an edit of the delivered or of the
      collected quantity of [c] gives holding = holding of [u] + delivered -
      collected, where the edited quantity is the one typed, the other is
      the one a save would have sent before the edit, and both are the
      quantities a save sends after it.
    - On loading, a customer without a saved entry for the day is offered
      [can_qty] delivered and nothing collected, with the holding of [u]
      plus the one minus the other.
    - A customer with a saved entry for the day gets the row of such an
      entry, with the holding stored in it: the page computes none. *)
Theorem C1_balance_carry_forward
    (st : DailyUpdate.State) (customersData : list DailyUpdate.Customer)
    (initialUpdates : option (list DailyUpdate.DailyUpdateType))
    (prevDayUpdates : list DailyUpdate.DailyUpdateType)
    (u : DailyUpdate.DailyUpdateType) (c : DailyUpdate.Customer)
    (events : list DailyUpdate.Event) (value : string) :
  NoDup (map DailyUpdate.du_customer_id prevDayUpdates) ->
  In u prevDayUpdates ->
  NoDup (map DailyUpdate.customer_id customersData) ->
  In c customersData ->
  DailyUpdate.customer_id c = DailyUpdate.du_customer_id u ->
  let cid := DailyUpdate.customer_id c in
  let prior := DailyUpdate.du_holding_status u in
  let typed := DailyUpdate.parseInt_or_zero (Js.Str value) in
  let st1 := DailyUpdate.fetchInitialData st (Ok customersData) initialUpdates
               (Some prevDayUpdates) in
  let st2 := DailyUpdate.run st1 events in
  let before := DailyUpdate.updateData_of st2 cid in
  let after_delivered :=
    DailyUpdate.handleUpdateChange st2 cid DailyUpdate.Fdelivered value in
  let after_collected :=
    DailyUpdate.handleUpdateChange st2 cid DailyUpdate.Fcollected value in
  (DailyUpdate.holding_cell after_delivered cid
   = prior + typed - DailyUpdate.ud_collected_qty before
   /\ DailyUpdate.ud_delivered_qty (DailyUpdate.updateData_of after_delivered cid) = typed
   /\ DailyUpdate.ud_collected_qty (DailyUpdate.updateData_of after_delivered cid)
      = DailyUpdate.ud_collected_qty before)
  /\ (DailyUpdate.holding_cell after_collected cid
      = prior + DailyUpdate.ud_delivered_qty before - typed
      /\ DailyUpdate.ud_delivered_qty (DailyUpdate.updateData_of after_collected cid)
         = DailyUpdate.ud_delivered_qty before
      /\ DailyUpdate.ud_collected_qty (DailyUpdate.updateData_of after_collected cid) = typed)
  /\ ((~ In cid (map DailyUpdate.du_customer_id (default [] initialUpdates))
       /\ DailyUpdate.updates st1 !! cid
          = Some {| DailyUpdate.delivered := Js.Num (DailyUpdate.can_qty_or_zero c);
                    DailyUpdate.collected := Js.Num 0;
                    DailyUpdate.holding_status := prior + DailyUpdate.can_qty_or_zero c - 0;
                    DailyUpdate.notes := "" |})
      \/ (exists e : DailyUpdate.DailyUpdateType,
             In e (default [] initialUpdates)
             /\ DailyUpdate.du_customer_id e = cid
             /\ DailyUpdate.updates st1 !! cid
                = Some {| DailyUpdate.delivered := Js.Num (DailyUpdate.delivered_qty e);
                          DailyUpdate.collected := Js.Num (DailyUpdate.collected_qty e);
                          DailyUpdate.holding_status := DailyUpdate.du_holding_status e;
                          DailyUpdate.notes := default "" (DailyUpdate.du_notes e) |})).
Proof.
  intros Hnd Hin Hndc Hinc Hc cid prior typed st1 st2 before after_delivered after_collected.
  assert (Hbase : DailyUpdate.baseHolding st2 cid = prior).
  { unfold DailyUpdate.baseHolding. subst st2. rewrite run_keeps_previous.
    subst st1 cid. cbn [DailyUpdate.fetchInitialData DailyUpdate.previousDayHoldings].
    rewrite Hc, (prevDayHoldings_of_lookup prevDayUpdates u Hnd Hin). reflexivity. }
  assert (Hdefault : DailyUpdate.defaultUpdatesMap_of
                       (DailyUpdate.prevDayHoldings_of prevDayUpdates) customersData !! cid
                     = Some {| DailyUpdate.delivered := Js.Num (DailyUpdate.can_qty_or_zero c);
                               DailyUpdate.collected := Js.Num 0;
                               DailyUpdate.holding_status
                                 := prior + DailyUpdate.can_qty_or_zero c - 0;
                               DailyUpdate.notes := "" |}).
  { subst cid. rewrite (defaultUpdatesMap_of_lookup _ customersData c Hndc Hinc).
    unfold DailyUpdate.default_row.
    rewrite Hc, (prevDayHoldings_of_lookup prevDayUpdates u Hnd Hin). reflexivity. }
  split; [| split].
  - subst after_delivered before typed. rewrite <- Hbase.
    apply (edit_delivered st2 cid value).
  - subst after_collected before typed. rewrite <- Hbase.
    apply (edit_collected st2 cid value).
  - subst st1. cbn [DailyUpdate.fetchInitialData DailyUpdate.updates].
    destruct initialUpdates as [data |]; cbn [default from_option id];
      [| left; split; [intros [] | exact Hdefault]].
    destruct (in_dec String.string_dec cid (map DailyUpdate.du_customer_id data))
      as [Hsaved | Hnone].
    + right.
      destruct (merge_updates_found data
                  (DailyUpdate.defaultUpdatesMap_of
                     (DailyUpdate.prevDayHoldings_of prevDayUpdates) customersData)
                  cid Hsaved) as (e & He & Hid & Hrow).
      * rewrite Hdefault. eexists. reflexivity.
      * exists e. split; [exact He | split; [exact Hid | exact Hrow]].
    + left. split; [exact Hnone |].
      rewrite merge_updates_notin by exact Hnone. exact Hdefault.
Qed.

Lemma C1_balance_carry_forward_witness :
  let cid := DailyUpdate.customer_id shop_customer in
  let prior := DailyUpdate.du_holding_status yesterday_entry in
  let typed := DailyUpdate.parseInt_or_zero (Js.Str "3") in
  let st1 := DailyUpdate.fetchInitialData (empty_state "2024-03-02")
               (Ok [shop_customer; order_customer]) (Some [today_entry])
               (Some [yesterday_entry]) in
  let st2 := DailyUpdate.run st1
               [DailyUpdate.Edit "c2" DailyUpdate.Fdelivered "2";
                DailyUpdate.Edit "c1" DailyUpdate.Fdelivered "5";
                DailyUpdate.Save "c1" true (Some [today_entry])] in
  let before := DailyUpdate.updateData_of st2 cid in
  let after_delivered :=
    DailyUpdate.handleUpdateChange st2 cid DailyUpdate.Fdelivered "3" in
  let after_collected :=
    DailyUpdate.handleUpdateChange st2 cid DailyUpdate.Fcollected "3" in
  (DailyUpdate.holding_cell after_delivered cid
   = prior + typed - DailyUpdate.ud_collected_qty before
   /\ DailyUpdate.ud_delivered_qty (DailyUpdate.updateData_of after_delivered cid) = typed
   /\ DailyUpdate.ud_collected_qty (DailyUpdate.updateData_of after_delivered cid)
      = DailyUpdate.ud_collected_qty before)
  /\ (DailyUpdate.holding_cell after_collected cid
      = prior + DailyUpdate.ud_delivered_qty before - typed
      /\ DailyUpdate.ud_delivered_qty (DailyUpdate.updateData_of after_collected cid)
         = DailyUpdate.ud_delivered_qty before
      /\ DailyUpdate.ud_collected_qty (DailyUpdate.updateData_of after_collected cid) = typed)
  /\ ((~ In cid (map DailyUpdate.du_customer_id (default [] (Some [today_entry])))
       /\ DailyUpdate.updates st1 !! cid
          = Some {| DailyUpdate.delivered := Js.Num (DailyUpdate.can_qty_or_zero shop_customer);
                    DailyUpdate.collected := Js.Num 0;
                    DailyUpdate.holding_status
                      := prior + DailyUpdate.can_qty_or_zero shop_customer - 0;
                    DailyUpdate.notes := "" |})
      \/ (exists e : DailyUpdate.DailyUpdateType,
             In e (default [] (Some [today_entry]))
             /\ DailyUpdate.du_customer_id e = cid
             /\ DailyUpdate.updates st1 !! cid
                = Some {| DailyUpdate.delivered := Js.Num (DailyUpdate.delivered_qty e);
                          DailyUpdate.collected := Js.Num (DailyUpdate.collected_qty e);
                          DailyUpdate.holding_status := DailyUpdate.du_holding_status e;
                          DailyUpdate.notes := default "" (DailyUpdate.du_notes e) |})).
Proof.
  apply (C1_balance_carry_forward (empty_state "2024-03-02") [shop_customer; order_customer]
           (Some [today_entry]) [yesterday_entry] yesterday_entry shop_customer
           [DailyUpdate.Edit "c2" DailyUpdate.Fdelivered "2";
            DailyUpdate.Edit "c1" DailyUpdate.Fdelivered "5";
            DailyUpdate.Save "c1" true (Some [today_entry])] "3").
  - apply NoDup_cons. split; [intros H; inversion H | apply NoDup_nil; exact I].
  - left. reflexivity.
  - cbn. repeat (apply NoDup_cons; split; [rewrite list_elem_of_In; cbn; intuition discriminate |]).
    apply NoDup_nil. exact I.
  - left. reflexivity.
  - reflexivity.
Defined.

(** The customer "c1" has an entry for the day before, with a holding of 6,
    and a saved entry for the day: 3 delivered, 1 collected and a holding of
    40.  The page shows 40 and sends 3 and 1, though 6 + 3 - 1 is 8; the
    first edit of a quantity, here to the value it had, puts 8 in. *)
Lemma C1_counterexample :
  DailyUpdate.previousDayHoldings loaded_saved_state !! "c1"
  = Some (DailyUpdate.du_holding_status yesterday_entry)
  /\ DailyUpdate.du_holding_status yesterday_entry = 6
  /\ DailyUpdate.updates loaded_saved_state !! "c1"
     = Some {| DailyUpdate.delivered := Js.Num 3; DailyUpdate.collected := Js.Num 1;
               DailyUpdate.holding_status := 40; DailyUpdate.notes := "gate closed" |}
  /\ DailyUpdate.ud_delivered_qty (DailyUpdate.updateData_of loaded_saved_state "c1") = 3
  /\ DailyUpdate.ud_collected_qty (DailyUpdate.updateData_of loaded_saved_state "c1") = 1
  /\ DailyUpdate.holding_cell loaded_saved_state "c1" = 40
  /\ DailyUpdate.holding_cell loaded_saved_state "c1"
     <> DailyUpdate.du_holding_status yesterday_entry
        + DailyUpdate.ud_delivered_qty (DailyUpdate.updateData_of loaded_saved_state "c1")
        - DailyUpdate.ud_collected_qty (DailyUpdate.updateData_of loaded_saved_state "c1")
  /\ DailyUpdate.holding_cell
       (DailyUpdate.handleUpdateChange loaded_saved_state "c1" DailyUpdate.Fdelivered "3")
       "c1" = 8.
Proof. repeat split; try (vm_compute; reflexivity). vm_compute. discriminate. Qed.

Example loaded_and_edited :
  DailyUpdate.holding_cell loaded_state "c1" = 10
  /\ DailyUpdate.holding_cell
       (DailyUpdate.handleUpdateChange loaded_state "c1" DailyUpdate.Fcollected "3") "c1" = 7
  /\ DailyUpdate.updateData_of
       (DailyUpdate.handleUpdateChange loaded_state "c1" DailyUpdate.Fcollected "3") "c1"
     = {| DailyUpdate.ud_customer_id := "c1"; DailyUpdate.ud_date := "2024-03-02";
          DailyUpdate.ud_delivered_qty := 4; DailyUpdate.ud_collected_qty := 3;
          DailyUpdate.ud_notes := "" |}.
Proof. repeat split; vm_compute; reflexivity. Qed.

(** C2, as the code has it.  For a customer without an entry the day
    before, the prior holding is the customer's [can_qty], whatever the
    customer type, and 0 when the customer has no [can_qty] or is not in the
    list; the row offered on loading and every edit of a quantity start from
    it. *)
Theorem C2_seed_from_can_qty
    (st : DailyUpdate.State) (customerId : string) (field : DailyUpdate.Field)
    (value : string) (holdings : gmap string Z) (c : DailyUpdate.Customer) (type : string) :
  DailyUpdate.previousDayHoldings st !! customerId = None ->
  holdings !! DailyUpdate.customer_id c = None ->
  field <> DailyUpdate.Fnotes ->
  let seed :=
    match DailyUpdate.find_customer (DailyUpdate.customers st) customerId with
    | Some found => default 0 (DailyUpdate.can_qty found)
    | None => 0
    end in
  let st' := DailyUpdate.handleUpdateChange st customerId field value in
  let sent := DailyUpdate.updateData_of st' customerId in
  DailyUpdate.baseHolding st customerId = seed
  /\ DailyUpdate.holding_cell st' customerId
     = seed + DailyUpdate.ud_delivered_qty sent - DailyUpdate.ud_collected_qty sent
  /\ DailyUpdate.holding_status (DailyUpdate.default_row holdings c)
     = default 0 (DailyUpdate.can_qty c) + default 0 (DailyUpdate.can_qty c) - 0
  /\ DailyUpdate.default_row holdings (with_customer_type c type)
     = DailyUpdate.default_row holdings c.
Proof.
  intros Hprev Hh Hf seed st' sent.
  assert (Hbase : DailyUpdate.baseHolding st customerId = seed).
  { unfold DailyUpdate.baseHolding. rewrite Hprev. subst seed.
    destruct (DailyUpdate.find_customer _ _); reflexivity. }
  split; [exact Hbase |]. split.
  - subst sent st'. rewrite handleUpdateChange_cell by exact Hf. rewrite Hbase. reflexivity.
  - unfold DailyUpdate.default_row. simpl. rewrite Hh. split; reflexivity.
Qed.

Lemma C2_seed_from_can_qty_witness :
  let seed :=
    match DailyUpdate.find_customer (DailyUpdate.customers loaded_state) "c2" with
    | Some found => default 0 (DailyUpdate.can_qty found)
    | None => 0
    end in
  let st' := DailyUpdate.handleUpdateChange loaded_state "c2" DailyUpdate.Fdelivered "2" in
  let sent := DailyUpdate.updateData_of st' "c2" in
  DailyUpdate.baseHolding loaded_state "c2" = seed
  /\ DailyUpdate.holding_cell st' "c2"
     = seed + DailyUpdate.ud_delivered_qty sent - DailyUpdate.ud_collected_qty sent
  /\ DailyUpdate.holding_status (DailyUpdate.default_row ∅ order_customer)
     = default 0 (DailyUpdate.can_qty order_customer)
       + default 0 (DailyUpdate.can_qty order_customer) - 0
  /\ DailyUpdate.default_row ∅ (with_customer_type order_customer "monthly")
     = DailyUpdate.default_row ∅ order_customer.
Proof.
  apply (C2_seed_from_can_qty loaded_state "c2" DailyUpdate.Fdelivered "2" ∅
           order_customer "monthly").
  - vm_compute. reflexivity.
  - reflexivity.
  - intros H. discriminate H.
Defined.

(** A customer of type "order" with 5 cans and no entry the day before is
    seeded with 5, not with 0. *)
Lemma C2_counterexample :
  DailyUpdate.previousDayHoldings loaded_state !! "c2" = None
  /\ DailyUpdate.find_customer (DailyUpdate.customers loaded_state) "c2" = Some order_customer
  /\ DailyUpdate.customer_type order_customer = "order"
  /\ DailyUpdate.baseHolding loaded_state "c2" = 5
  /\ DailyUpdate.baseHolding loaded_state "c2" <> 0
  /\ DailyUpdate.holding_cell loaded_state "c2" = 10.
Proof. repeat split; try (vm_compute; reflexivity). vm_compute. discriminate. Qed.

(** C7.  The holding an edit computes is the base holding plus delivered
    minus collected, with no lower bound: collecting 9 from a customer who
    held 6 the day before and received 0 leaves -3 in the row, and -3 is
    what the holding cell shows, also after the notes are edited and after
    a save the server refuses. *)
Theorem C7_holding_not_clamped :
  (forall (st : DailyUpdate.State) (customerId value : string),
      let existing :=
        default {| DailyUpdate.delivered := Js.Num 0; DailyUpdate.collected := Js.Num 0;
                   DailyUpdate.holding_status := 0; DailyUpdate.notes := "" |}
                (DailyUpdate.updates st !! customerId) in
      DailyUpdate.holding_cell
        (DailyUpdate.handleUpdateChange st customerId DailyUpdate.Fcollected value) customerId
      = DailyUpdate.baseHolding st customerId
        + DailyUpdate.parseInt_or_zero (DailyUpdate.delivered existing)
        - DailyUpdate.parseInt_or_zero (Js.Str value)
      /\ DailyUpdate.holding_cell
           (DailyUpdate.handleUpdateChange st customerId DailyUpdate.Fdelivered value) customerId
         = DailyUpdate.baseHolding st customerId
           + DailyUpdate.parseInt_or_zero (Js.Str value)
           - DailyUpdate.parseInt_or_zero (DailyUpdate.collected existing))
  /\ (let st1 := DailyUpdate.handleUpdateChange loaded_state "c1" DailyUpdate.Fdelivered "0" in
      let st2 := DailyUpdate.handleUpdateChange st1 "c1" DailyUpdate.Fcollected "9" in
      let st3 := DailyUpdate.handleUpdateChange st2 "c1" DailyUpdate.Fnotes "check" in
      let st4 := snd (DailyUpdate.handleSaveSingleUpdate st3 "c1" false None) in
      DailyUpdate.baseHolding st1 "c1" = 6
      /\ DailyUpdate.ud_delivered_qty (DailyUpdate.updateData_of st2 "c1") = 0
      /\ DailyUpdate.ud_collected_qty (DailyUpdate.updateData_of st2 "c1") = 9
      /\ DailyUpdate.holding_status <$> (DailyUpdate.updates st2 !! "c1") = Some (-3)
      /\ DailyUpdate.holding_cell st2 "c1" = -3
      /\ DailyUpdate.holding_cell st3 "c1" = -3
      /\ DailyUpdate.holding_cell st4 "c1" = -3).
Proof.
  split.
  - intros st customerId value existing. subst existing.
    unfold DailyUpdate.holding_cell, DailyUpdate.handleUpdateChange. simpl.
    rewrite !lookup_insert_eq. split; reflexivity.
  - cbv zeta. repeat split; vm_compute; reflexivity.
Qed.

(** ** C8: what the write paths check *)

Section OrdersRoutesFacts.

Import OrdersRoutes.

Variable table_accepts : Body -> bool.

Lemma query_select_new (db : Db) (row : OrderRow) :
  Forall (fun r => id r < id row) (rows db) ->
  List.filter (fun r => id r =? id row) (rows db ++ [row]) = [row].
Proof.
  intros H. rewrite List.filter_app. simpl. rewrite Z.eqb_refl.
  replace (List.filter (fun r => id r =? id row) (rows db)) with (@nil OrderRow);
    [reflexivity |].
  symmetry. induction H as [| r l Hr _ IH]; simpl; [reflexivity |].
  destruct (Z.eqb_spec (id r) (id row)) as [Heq | _]; [lia | exact IH].
Qed.

(** The required-field check reads [can_qty] only to see that it is there,
    and does not read the other two quantities. *)
Lemma missing_required_quantities (b : Body) (can can' collected collected' delivery delivery'
    : Js.value) :
  can <> Js.Undefined -> can <> Js.Null -> can' <> Js.Undefined -> can' <> Js.Null ->
  missing_required (with_quantities b can collected delivery)
  = missing_required (with_quantities b can' collected' delivery').
Proof.
  intros H1 H2 H3 H4. unfold missing_required; simpl.
  replace (Js.strict_eq can Js.Undefined) with false by (destruct can; simpl; congruence).
  replace (Js.strict_eq can Js.Null) with false by (destruct can; simpl; congruence).
  replace (Js.strict_eq can' Js.Undefined) with false by (destruct can'; simpl; congruence).
  replace (Js.strict_eq can' Js.Null) with false by (destruct can'; simpl; congruence).
  reflexivity.
Qed.

Lemma router_post_cases (db : Db) (body : Body) :
  Forall (fun r => id r < next_id db) (rows db) ->
  let row := {| id := next_id db; columns := insert_values body |} in
  router_post table_accepts db body
  = if missing_required body then (Failed 400 "Missing required fields", db)
    else if table_accepts (insert_values body)
         then (Created 201 (Some row),
               {| rows := rows db ++ [row]; next_id := next_id db + 1 |})
         else (Failed 500 "Failed to create order", db).
Proof.
  intros Hids row. unfold router_post, query_insert.
  destruct (missing_required body); [reflexivity |].
  destruct (table_accepts (insert_values body)); [| reflexivity].
  unfold query_select. cbn [rows]. fold row.
  change (next_id db) with (id row) at 1.
  rewrite (query_select_new db row Hids). reflexivity.
Qed.

End OrdersRoutesFacts.

(** C8, as the code has it.  Creating an order fails with 400 "Missing
    required fields" and writes nothing exactly when a required field is
    missing ([can_qty] undefined or null, another required field empty);
    otherwise the row is inserted with the quantities as they were sent and
    the answer is 201, or 500 with nothing written when the table refuses
    the row.  Which quantities are sent plays no part in the check.  Saving
    a daily entry always builds the request, with [parseInt(..) || 0] of each
    quantity. *)
Theorem C8_writes_check_presence_only
    (table_accepts : OrdersRoutes.Body -> bool) (db : OrdersRoutes.Db)
    (body : OrdersRoutes.Body) (can collected delivery : Js.value)
    (st : DailyUpdate.State) (customerId : string) (saved : bool)
    (refreshResponse : option (list DailyUpdate.DailyUpdateType)) :
  Forall (fun r => OrdersRoutes.id r < OrdersRoutes.next_id db) (OrdersRoutes.rows db) ->
  can <> Js.Undefined ->
  can <> Js.Null ->
  let row := {| OrdersRoutes.id := OrdersRoutes.next_id db;
                OrdersRoutes.columns := OrdersRoutes.insert_values body |} in
  OrdersRoutes.router_post table_accepts db body
  = (if OrdersRoutes.missing_required body
     then (OrdersRoutes.Failed 400 "Missing required fields", db)
     else if table_accepts (OrdersRoutes.insert_values body)
          then (OrdersRoutes.Created 201 (Some row),
                {| OrdersRoutes.rows := OrdersRoutes.rows db ++ [row];
                   OrdersRoutes.next_id := OrdersRoutes.next_id db + 1 |})
          else (OrdersRoutes.Failed 500 "Failed to create order", db))
  /\ OrdersRoutes.missing_required (with_quantities body can collected delivery)
     = OrdersRoutes.missing_required (with_quantities body (Js.Num 1) (Js.Num 0) (Js.Num 0))
  /\ OrdersRoutes.can_qty
       (OrdersRoutes.insert_values (with_quantities body can collected delivery)) = can
  /\ OrdersRoutes.delivery_amount
       (OrdersRoutes.insert_values (with_quantities body can collected delivery)) = delivery
  /\ OrdersRoutes.collected_qty
       (OrdersRoutes.insert_values (with_quantities body can collected delivery))
     = Js.or_zero collected
  /\ fst (DailyUpdate.handleSaveSingleUpdate st customerId saved refreshResponse)
     = {| DailyUpdate.ud_customer_id := customerId;
          DailyUpdate.ud_date := DailyUpdate.selectedDate st;
          DailyUpdate.ud_delivered_qty :=
            DailyUpdate.parseInt_or_zero
              (DailyUpdate.field_of st customerId DailyUpdate.delivered);
          DailyUpdate.ud_collected_qty :=
            DailyUpdate.parseInt_or_zero
              (DailyUpdate.field_of st customerId DailyUpdate.collected);
          DailyUpdate.ud_notes :=
            default "" (DailyUpdate.notes <$> DailyUpdate.updates st !! customerId) |}.
Proof.
  intros Hids Hu Hn row. split; [| split; [| repeat split]].
  - apply router_post_cases. exact Hids.
  - apply missing_required_quantities; congruence.
  - unfold DailyUpdate.handleSaveSingleUpdate, DailyUpdate.updateData_of. simpl.
    destruct (DailyUpdate.updates st !! customerId); reflexivity.
Qed.

Lemma C8_writes_check_presence_only_witness :
  let body := with_quantities sample_body (Js.Num (-5)) (Js.Str "2.5") (Js.Num 50) in
  let row := {| OrdersRoutes.id := OrdersRoutes.next_id empty_db;
                OrdersRoutes.columns := OrdersRoutes.insert_values body |} in
  OrdersRoutes.router_post any_row empty_db body
  = (if OrdersRoutes.missing_required body
     then (OrdersRoutes.Failed 400 "Missing required fields", empty_db)
     else if any_row (OrdersRoutes.insert_values body)
          then (OrdersRoutes.Created 201 (Some row),
                {| OrdersRoutes.rows := OrdersRoutes.rows empty_db ++ [row];
                   OrdersRoutes.next_id := OrdersRoutes.next_id empty_db + 1 |})
          else (OrdersRoutes.Failed 500 "Failed to create order", empty_db))
  /\ OrdersRoutes.missing_required (with_quantities body (Js.Num (-5)) (Js.Str "2.5") (Js.Num 50))
     = OrdersRoutes.missing_required (with_quantities body (Js.Num 1) (Js.Num 0) (Js.Num 0))
  /\ OrdersRoutes.can_qty
       (OrdersRoutes.insert_values
          (with_quantities body (Js.Num (-5)) (Js.Str "2.5") (Js.Num 50))) = Js.Num (-5)
  /\ OrdersRoutes.delivery_amount
       (OrdersRoutes.insert_values
          (with_quantities body (Js.Num (-5)) (Js.Str "2.5") (Js.Num 50))) = Js.Num 50
  /\ OrdersRoutes.collected_qty
       (OrdersRoutes.insert_values
          (with_quantities body (Js.Num (-5)) (Js.Str "2.5") (Js.Num 50)))
     = Js.or_zero (Js.Str "2.5")
  /\ fst (DailyUpdate.handleSaveSingleUpdate negative_entry_state "c1" true None)
     = {| DailyUpdate.ud_customer_id := "c1";
          DailyUpdate.ud_date := DailyUpdate.selectedDate negative_entry_state;
          DailyUpdate.ud_delivered_qty :=
            DailyUpdate.parseInt_or_zero
              (DailyUpdate.field_of negative_entry_state "c1" DailyUpdate.delivered);
          DailyUpdate.ud_collected_qty :=
            DailyUpdate.parseInt_or_zero
              (DailyUpdate.field_of negative_entry_state "c1" DailyUpdate.collected);
          DailyUpdate.ud_notes :=
            default "" (DailyUpdate.notes <$> DailyUpdate.updates negative_entry_state !! "c1") |}.
Proof.
  apply (C8_writes_check_presence_only any_row empty_db
           (with_quantities sample_body (Js.Num (-5)) (Js.Str "2.5") (Js.Num 50))
           (Js.Num (-5)) (Js.Str "2.5") (Js.Num 50) negative_entry_state "c1" true None).
  - apply Forall_nil. exact I.
  - intros H. discriminate H.
  - intros H. discriminate H.
Defined.

(** An order of -5 cans with "2.5" collected has every required field: it is
    inserted and answered with 201.  A daily entry of "-5" delivered and "2.5"
    collected is sent as -5 and 2. *)
Lemma C8_counterexample :
  let body := with_quantities sample_body (Js.Num (-5)) (Js.Str "2.5") (Js.Num 50) in
  let row := {| OrdersRoutes.id := 1;
                OrdersRoutes.columns := OrdersRoutes.insert_values body |} in
  OrdersRoutes.router_post any_row empty_db body
  = (OrdersRoutes.Created 201 (Some row),
     {| OrdersRoutes.rows := [row]; OrdersRoutes.next_id := 2 |})
  /\ OrdersRoutes.can_qty (OrdersRoutes.columns row) = Js.Num (-5)
  /\ OrdersRoutes.collected_qty (OrdersRoutes.columns row) = Js.Str "2.5"
  /\ DailyUpdate.ud_delivered_qty
       (fst (DailyUpdate.handleSaveSingleUpdate negative_entry_state "c1" true None)) = -5
  /\ DailyUpdate.ud_collected_qty
       (fst (DailyUpdate.handleSaveSingleUpdate negative_entry_state "c1" true None)) = 2.
Proof. cbv zeta. repeat split; vm_compute; reflexivity. Qed.

(** ** C10: the validation of the order form *)

Section OrdersFormFacts.

Import OrdersForm.

Lemma set_if_empty (cond : bool) (key message : string) (e : gmap string string) :
  set_if cond key message e = ∅ -> cond = false /\ e = ∅.
Proof.
  unfold set_if. destruct cond; intros H.
  - exfalso. exact (insert_non_empty e key message H).
  - split; [reflexivity | exact H].
Qed.

Lemma validate_no_errors (editing : bool) (formData : Form.FormData) :
  validate editing formData = true <-> validate_errors editing formData = ∅.
Proof.
  unfold validate. rewrite Nat.eqb_eq. apply map_size_empty_iff.
Qed.

(** A value with a numeric reading compares with a number as that reading. *)
Lemma compare_reading_l (v : Js.value) (c z : Z) :
  Js.ToNumber v = Js.Fin c -> Js.compare v (Js.Num z) = Some (c ?= z).
Proof.
  intros H. unfold Js.compare.
  destruct v; cbn [Js.ToNumber] in *; try discriminate;
    try (injection H as <-; reflexivity); rewrite H; reflexivity.
Qed.

Lemma compare_reading_r (v : Js.value) (c z : Z) :
  Js.ToNumber v = Js.Fin c -> Js.compare (Js.Num z) v = Some (z ?= c).
Proof.
  intros H. unfold Js.compare.
  destruct v; cbn [Js.ToNumber] in *; try discriminate;
    try (injection H as <-; reflexivity); rewrite H; reflexivity.
Qed.

(** Where the validation is sound: when [can_qty] holds a number, as it does
    until its input is edited, a form that passes has a positive quantity
    and, when an order is edited, a collected quantity between 0 and it, with
    a collection date when it is positive. *)
Lemma validate_sound_numeric_can_qty (editing : bool) (formData : Form.FormData) (q c : Z) :
  Form.can_qty formData = Js.Num q ->
  Js.ToNumber (Form.collected_qty formData) = Js.Fin c ->
  validate editing formData = true ->
  0 < q
  /\ (editing = true ->
      0 <= c <= q
      /\ (0 < c -> Js.truthy (Form.collected_date formData) = true)
      /\ pending_collection formData = Js.Fin (q - c)
      /\ 0 <= q - c).
Proof.
  intros Hq Hc Hv. apply validate_no_errors in Hv. unfold validate_errors in Hv.
  apply set_if_empty in Hv as [_ Hv]. apply set_if_empty in Hv as [_ Hv].
  apply set_if_empty in Hv as [_ Hv].
  assert (Hpos : 0 < q).
  { destruct editing.
    - do 3 apply set_if_empty in Hv as [_ Hv]. apply set_if_empty in Hv as [Hle _].
      rewrite Hq, le_Num in Hle. lia.
    - apply set_if_empty in Hv as [Hle _]. rewrite Hq, le_Num in Hle. lia. }
  split; [exact Hpos |]. intros ->.
  apply set_if_empty in Hv as [Hdate Hv]. apply set_if_empty in Hv as [Hgt Hv].
  apply set_if_empty in Hv as [Hlt _].
  unfold Js.lt in Hlt. rewrite (compare_reading_l _ c 0 Hc) in Hlt.
  unfold Js.gt, Js.lt in Hgt, Hdate. rewrite Hq, (compare_reading_r _ c q Hc) in Hgt.
  rewrite (compare_reading_r _ c 0 Hc) in Hdate.
  assert (H0 : 0 <= c) by (destruct (Z.compare_spec c 0); [lia | discriminate | lia]).
  assert (H1 : c <= q) by (destruct (Z.compare_spec q c); [lia | discriminate | lia]).
  repeat split; try lia.
  - intros Hc0. destruct (Z.compare_spec 0 c); try lia.
    simpl in Hdate. destruct (Js.truthy (Form.collected_date formData)); [reflexivity | discriminate].
  - unfold pending_collection. rewrite Hq, Hc. reflexivity.
Qed.

End OrdersFormFacts.

(** C10, at the state the inputs produce.  [handleChange] stores the text of
    an input, so once both quantities have been typed they are strings and
    [collected_qty > can_qty] compares them as strings: with 9 cans and 10
    collected the validation finds no error, the update is sent, and the
    pending collection is -1.  With 10 cans and 9 collected the same
    comparison reports that the collected quantity exceeds the delivered
    one. *)
Theorem C10_validate_compares_strings :
  Form.can_qty edited_form = Js.Str "9"
  /\ Form.collected_qty edited_form = Js.Str "10"
  /\ Js.truthy (Form.collected_date edited_form) = true
  /\ Js.gt (Form.collected_qty edited_form) (Form.can_qty edited_form) = false
  /\ OrdersForm.validate true edited_form = true
  /\ OrdersForm.handleSubmit (Some "17") edited_form
     = (∅, Some {| OrdersForm.url := "/api/orders/17"; OrdersForm.method := "PUT";
                   OrdersForm.payload := OrdersForm.payload_of edited_form |})
  /\ Js.ToNumber (Form.can_qty edited_form) = Js.Fin 9
  /\ Js.ToNumber (Form.collected_qty edited_form) = Js.Fin 10
  /\ OrdersForm.pending_collection edited_form = Js.Fin (-1)
  /\ OrdersForm.validate true edited_form_swapped = false
  /\ OrdersForm.validate_errors true edited_form_swapped !! "collected_qty"
     = Some "Collected Quantity cannot exceed delivered quantity".
Proof. repeat split; vm_compute; reflexivity. Qed.

Lemma validate_sound_numeric_can_qty_example :
  0 < 10
  /\ (true = true ->
      0 <= 7 <= 10
      /\ (0 < 7 -> Js.truthy (Form.collected_date pending_order_form) = true)
      /\ OrdersForm.pending_collection pending_order_form = Js.Fin (10 - 7)
      /\ 0 <= 10 - 7).
Proof.
  apply (validate_sound_numeric_can_qty true pending_order_form 10 7);
    vm_compute; reflexivity.
Defined.

(** ** The order routes as a store *)

Section OrdersStoreFacts.

Import OrdersRoutes.

Variable table_accepts : Body -> bool.

(** An update keeps the ids of the rows, in their order. *)
Lemma replace_keeps_ids (l : list OrderRow) (i : Z) (values : Body) :
  map id (map (fun r => if id r =? i then {| id := id r; columns := values |} else r) l)
  = map id l.
Proof.
  induction l as [| r l IH]; [reflexivity |]. cbn [map]. rewrite IH. f_equal.
  destruct (id r =? i); reflexivity.
Qed.

Lemma select_other_replace (l : list OrderRow) (i j : Z) (values : Body) :
  i <> j ->
  List.filter (fun r => id r =? j)
    (map (fun r => if id r =? i then {| id := id r; columns := values |} else r) l)
  = List.filter (fun r => id r =? j) l.
Proof.
  intros Hij. induction l as [| r l IH]; [reflexivity |]. cbn [map List.filter].
  destruct (Z.eqb_spec (id r) i) as [Hi | Hi]; cbn [id].
  - destruct (Z.eqb_spec (id r) j) as [Hj | Hj]; [lia | exact IH].
  - destruct (Z.eqb_spec (id r) j); [f_equal |]; exact IH.
Qed.

Lemma select_absent (l : list OrderRow) (i : Z) :
  ~ In i (map id l) -> List.filter (fun r => id r =? i) l = [].
Proof.
  induction l as [| r l IH]; intros Hnot; [reflexivity |]. cbn [List.filter].
  destruct (Z.eqb_spec (id r) i) as [Hi | _].
  - exfalso. apply Hnot. left. exact Hi.
  - apply IH. intros Hin. apply Hnot. right. exact Hin.
Qed.

Lemma select_present (l : list OrderRow) (i : Z) :
  In i (map id l) -> exists r rest, List.filter (fun r => id r =? i) l = r :: rest.
Proof.
  intros Hin. apply in_map_iff in Hin as (r & Hr & Hin).
  assert (Hf : In r (List.filter (fun r => id r =? i) l)).
  { apply List.filter_In. split; [exact Hin | apply Z.eqb_eq, Hr]. }
  destruct (List.filter (fun r => id r =? i) l) as [| r' rest]; [destruct Hf | eauto].
Qed.

Lemma select_unique (l : list OrderRow) (r : OrderRow) :
  NoDup (map id l) -> In r l -> List.filter (fun x => id x =? id r) l = [r].
Proof.
  induction l as [| x l IH]; intros Hnd Hin; [destruct Hin |].
  apply NoDup_cons in Hnd as [Hx Hnd]. rewrite list_elem_of_In in Hx. cbn [List.filter].
  destruct Hin as [-> | Hin].
  - rewrite Z.eqb_refl. f_equal. apply select_absent. exact Hx.
  - destruct (Z.eqb_spec (id x) (id r)) as [Heq | _]; [| apply IH; assumption].
    exfalso. apply Hx. rewrite Heq. apply in_map. exact Hin.
Qed.

Lemma select_replaced (l : list OrderRow) (i : Z) (values : Body) :
  NoDup (map id l) -> In i (map id l) ->
  List.filter (fun r => id r =? i)
    (map (fun r => if id r =? i then {| id := id r; columns := values |} else r) l)
  = [{| id := i; columns := values |}].
Proof.
  intros Hnd Hin.
  set (l' := map (fun r => if id r =? i then {| id := id r; columns := values |} else r) l).
  assert (Hin' : In {| id := i; columns := values |} l').
  { apply in_map_iff in Hin as (r & Hr & Hin). apply in_map_iff. exists r.
    split; [| exact Hin]. rewrite Hr, Z.eqb_refl. reflexivity. }
  apply (select_unique l' {| id := i; columns := values |}); [| exact Hin'].
  subst l'. rewrite replace_keeps_ids. exact Hnd.
Qed.

Lemma select_deleted (l : list OrderRow) (i j : Z) :
  List.filter (fun r => id r =? j) (List.filter (fun r => negb (id r =? i)) l)
  = if j =? i then [] else List.filter (fun r => id r =? j) l.
Proof.
  induction l as [| r l IH]; [destruct (j =? i); reflexivity |]. cbn [List.filter].
  destruct (Z.eqb_spec (id r) i) as [Hi | Hi]; cbn [negb List.filter].
  - rewrite IH. destruct (Z.eqb_spec j i) as [Hj | Hj]; [reflexivity |].
    destruct (Z.eqb_spec (id r) j); [lia | reflexivity].
  - destruct (Z.eqb_spec (id r) j) as [Hj | Hj]; rewrite IH.
    + destruct (Z.eqb_spec j i); [lia | reflexivity].
    + reflexivity.
Qed.

(** X2.  An order that is created is found again: in a well-formed table,
    a body with its required fields that the table takes is stored under the
    next id, [GET /:id] with that id answers the stored row, [GET /] lists it
    after the rows there were, and every other id reads as before. *)
Theorem created_order_is_found (db : Db) (body : Body) :
  well_formed db ->
  missing_required body = false ->
  table_accepts (insert_values body) = true ->
  let row := {| id := next_id db; columns := insert_values body |} in
  let db' := snd (router_post table_accepts db body) in
  fst (router_post table_accepts db body) = Created 201 (Some row)
  /\ router_get_id db' (next_id db) = Row 200 (Some row)
  /\ router_get db' = Rows 200 (rows db ++ [row])
  /\ forall i : Z, i <> next_id db -> router_get_id db' i = router_get_id db i.
Proof.
  intros [Hlt Hnd] Hreq Hacc row db'.
  assert (Hpost : router_post table_accepts db body
                  = (Created 201 (Some row),
                     {| rows := rows db ++ [row]; next_id := next_id db + 1 |})).
  { rewrite (router_post_cases table_accepts db body Hlt), Hreq, Hacc. reflexivity. }
  subst db'. rewrite Hpost. cbn [fst snd].
  split; [reflexivity |]. split; [| split; [reflexivity |]].
  - unfold router_get_id, query_select. cbn [rows].
    change (next_id db) with (id row). rewrite (query_select_new db row Hlt). reflexivity.
  - intros i Hi. unfold router_get_id, query_select. cbn [rows].
    rewrite List.filter_app. cbn [List.filter id row].
    destruct (Z.eqb_spec (next_id db) i) as [Heq | _]; [congruence |].
    rewrite app_nil_r. reflexivity.
Qed.

(** X3.  Updating an order that exists replaces the values of that row and
    of no other: whatever the body holds or leaves out (no field is
    required, and [collected_qty] is stored as sent), when the table takes
    the values [PUT /:id] answers the new row, [GET /:id] reads it back, the
    ids of the table are unchanged and every other id reads as before. *)
Theorem update_replaces_one_row (db : Db) (orderId : Z) (body : Body) :
  well_formed db ->
  In orderId (map id (rows db)) ->
  table_accepts (update_values body) = true ->
  let row := {| id := orderId; columns := update_values body |} in
  let db' := snd (router_put table_accepts db orderId body) in
  fst (router_put table_accepts db orderId body) = Row 200 (Some row)
  /\ router_get_id db' orderId = Row 200 (Some row)
  /\ collected_qty (columns row) = collected_qty body
  /\ can_qty (columns row) = can_qty body
  /\ map id (rows db') = map id (rows db)
  /\ forall j : Z, j <> orderId -> router_get_id db' j = router_get_id db j.
Proof.
  intros [Hlt Hnd] Hin Hacc row db'.
  destruct (select_present (rows db) orderId Hin) as (r0 & rest & Hsel).
  assert (Hput : router_put table_accepts db orderId body
                 = (Row 200 (Some row),
                    {| rows := map (fun r => if id r =? orderId
                                             then {| id := id r; columns := update_values body |}
                                             else r) (rows db);
                       next_id := next_id db |})).
  { unfold router_put, query_update, query_select. rewrite Hsel, Hacc. cbn [rows].
    rewrite (select_replaced (rows db) orderId (update_values body) Hnd Hin). reflexivity. }
  subst db'. rewrite Hput. cbn [fst snd rows].
  split; [reflexivity |]. split; [| split; [reflexivity |]; split; [reflexivity |]; split].
  - unfold router_get_id, query_select. cbn [rows].
    rewrite (select_replaced (rows db) orderId (update_values body) Hnd Hin). reflexivity.
  - apply replace_keeps_ids.
  - intros j Hj. unfold router_get_id, query_select. cbn [rows].
    rewrite select_other_replace by congruence. reflexivity.
Qed.

(** X4.  Deleting an order that exists removes that row and no other:
    [DELETE /:id] answers 200, the table has one row less, reading,
    updating or deleting the id afterwards answers 404, and every other id
    reads as before. *)
Theorem delete_removes_one_row (db : Db) (orderId : Z) (body : Body) :
  well_formed db ->
  In orderId (map id (rows db)) ->
  let db' := snd (router_delete db orderId) in
  fst (router_delete db orderId)
  = Message 200 ("Order with ID " ++ Js.Z_to_string orderId ++ " deleted successfully")
  /\ S (length (rows db')) = length (rows db)
  /\ router_get_id db' orderId = Message 404 "Order not found"
  /\ router_put table_accepts db' orderId body = (Message 404 "Order not found", db')
  /\ router_delete db' orderId = (Message 404 "Order not found", db')
  /\ forall j : Z, j <> orderId -> router_get_id db' j = router_get_id db j.
Proof.
  intros [Hlt Hnd] Hin db'.
  destruct (select_present (rows db) orderId Hin) as (r0 & rest & Hsel).
  assert (Hdel : router_delete db orderId
                 = (Message 200 ("Order with ID " ++ Js.Z_to_string orderId
                                   ++ " deleted successfully"),
                    query_delete db orderId)).
  { unfold router_delete, query_select. rewrite Hsel. reflexivity. }
  assert (Hgone : query_select (query_delete db orderId) orderId = []).
  { unfold query_select, query_delete. cbn [rows]. rewrite select_deleted, Z.eqb_refl.
    reflexivity. }
  subst db'. rewrite Hdel. cbn [fst snd].
  split; [reflexivity |]. split; [| split; [| split; [| split]]].
  - unfold query_delete. cbn [rows]. clear Hlt Hsel Hgone Hdel.
    induction (rows db) as [| r l IH]; [destruct Hin |].
    cbn [map] in Hnd, Hin. apply NoDup_cons in Hnd as [Hr Hnd].
    rewrite list_elem_of_In in Hr. cbn [List.filter].
    destruct (Z.eqb_spec (id r) orderId) as [Heq | Hne]; cbn [negb length].
    + f_equal. f_equal. clear IH Hin Hnd. subst orderId.
      induction l as [| x l IHl]; [reflexivity |]. cbn [List.filter].
      destruct (Z.eqb_spec (id x) (id r)) as [Heq | _]; cbn [negb].
      * exfalso. apply Hr. left. exact Heq.
      * f_equal. apply IHl. intros H. apply Hr. right. exact H.
    + f_equal. apply IH; [exact Hnd |]. destruct Hin as [Hin | Hin]; [contradiction | exact Hin].
  - unfold router_get_id. rewrite Hgone. reflexivity.
  - unfold router_put. rewrite Hgone. reflexivity.
  - unfold router_delete. rewrite Hgone. reflexivity.
  - intros j Hj. unfold router_get_id, query_select, query_delete. cbn [rows].
    rewrite select_deleted. destruct (Z.eqb_spec j orderId); [contradiction | reflexivity].
Qed.

(** X5.  An id the table does not hold is not created by the way: reading,
    updating and deleting it answer 404 "Order not found" and leave the
    table as it is. *)
Theorem absent_order_is_not_found (db : Db) (orderId : Z) (body : Body) :
  ~ In orderId (map id (rows db)) ->
  router_get_id db orderId = Message 404 "Order not found"
  /\ router_put table_accepts db orderId body = (Message 404 "Order not found", db)
  /\ router_delete db orderId = (Message 404 "Order not found", db).
Proof.
  intros Hnot. unfold router_get_id, router_put, router_delete, query_select.
  rewrite (select_absent (rows db) orderId Hnot). repeat split; reflexivity.
Qed.

End OrdersStoreFacts.

Lemma two_orders_well_formed : OrdersRoutes.well_formed two_orders_db.
Proof.
  split.
  - repeat (apply Forall_cons; split; [cbn; lia |]). apply Forall_nil. exact I.
  - cbn. repeat (apply NoDup_cons; split; [rewrite list_elem_of_In; cbn; intuition discriminate |]).
    apply NoDup_nil. exact I.
Qed.

Lemma created_order_is_found_witness :
  let row := {| OrdersRoutes.id := OrdersRoutes.next_id two_orders_db;
                OrdersRoutes.columns := OrdersRoutes.insert_values sample_body |} in
  let db' := snd (OrdersRoutes.router_post any_row two_orders_db sample_body) in
  fst (OrdersRoutes.router_post any_row two_orders_db sample_body)
  = OrdersRoutes.Created 201 (Some row)
  /\ OrdersRoutes.router_get_id db' (OrdersRoutes.next_id two_orders_db)
     = OrdersRoutes.Row 200 (Some row)
  /\ OrdersRoutes.router_get db'
     = OrdersRoutes.Rows 200 (OrdersRoutes.rows two_orders_db ++ [row])
  /\ forall i : Z, i <> OrdersRoutes.next_id two_orders_db ->
                   OrdersRoutes.router_get_id db' i = OrdersRoutes.router_get_id two_orders_db i.
Proof.
  apply (created_order_is_found any_row two_orders_db sample_body);
    [exact two_orders_well_formed | reflexivity | reflexivity].
Defined.

Lemma update_replaces_one_row_witness :
  let row := {| OrdersRoutes.id := 4;
                OrdersRoutes.columns := OrdersRoutes.update_values loose_body |} in
  let db' := snd (OrdersRoutes.router_put any_row two_orders_db 4 loose_body) in
  fst (OrdersRoutes.router_put any_row two_orders_db 4 loose_body)
  = OrdersRoutes.Row 200 (Some row)
  /\ OrdersRoutes.router_get_id db' 4 = OrdersRoutes.Row 200 (Some row)
  /\ OrdersRoutes.collected_qty (OrdersRoutes.columns row)
     = OrdersRoutes.collected_qty loose_body
  /\ OrdersRoutes.can_qty (OrdersRoutes.columns row) = OrdersRoutes.can_qty loose_body
  /\ map OrdersRoutes.id (OrdersRoutes.rows db')
     = map OrdersRoutes.id (OrdersRoutes.rows two_orders_db)
  /\ forall j : Z, j <> 4 ->
                   OrdersRoutes.router_get_id db' j = OrdersRoutes.router_get_id two_orders_db j.
Proof.
  apply (update_replaces_one_row any_row two_orders_db 4 loose_body);
    [exact two_orders_well_formed | cbn; tauto | reflexivity].
Defined.

Lemma delete_removes_one_row_witness :
  let db' := snd (OrdersRoutes.router_delete two_orders_db 2) in
  fst (OrdersRoutes.router_delete two_orders_db 2)
  = OrdersRoutes.Message 200
      ("Order with ID " ++ Js.Z_to_string 2 ++ " deleted successfully")
  /\ S (length (OrdersRoutes.rows db')) = length (OrdersRoutes.rows two_orders_db)
  /\ OrdersRoutes.router_get_id db' 2 = OrdersRoutes.Message 404 "Order not found"
  /\ OrdersRoutes.router_put any_row db' 2 sample_body
     = (OrdersRoutes.Message 404 "Order not found", db')
  /\ OrdersRoutes.router_delete db' 2 = (OrdersRoutes.Message 404 "Order not found", db')
  /\ forall j : Z, j <> 2 ->
                   OrdersRoutes.router_get_id db' j = OrdersRoutes.router_get_id two_orders_db j.
Proof.
  apply (delete_removes_one_row any_row two_orders_db 2 sample_body);
    [exact two_orders_well_formed | cbn; tauto].
Defined.

Lemma absent_order_is_not_found_witness :
  OrdersRoutes.router_get_id two_orders_db 3 = OrdersRoutes.Message 404 "Order not found"
  /\ OrdersRoutes.router_put any_row two_orders_db 3 sample_body
     = (OrdersRoutes.Message 404 "Order not found", two_orders_db)
  /\ OrdersRoutes.router_delete two_orders_db 3
     = (OrdersRoutes.Message 404 "Order not found", two_orders_db).
Proof.
  apply (absent_order_is_not_found any_row two_orders_db 3 sample_body).
  cbn. intros [H | [H | []]]; discriminate H.
Defined.

Example update_stores_what_is_sent :
  OrdersRoutes.router_get_id
    (snd (OrdersRoutes.router_put any_row two_orders_db 4 loose_body)) 4
  = OrdersRoutes.Row 200
      (Some {| OrdersRoutes.id := 4;
               OrdersRoutes.columns :=
                 with_quantities
                   (OrdersRoutes.update_values sample_body)
                   Js.Undefined (Js.Str "") (Js.Str "abc") |}).
Proof. reflexivity. Qed.

(** ** The DailyUpdate page: loading, editing, saving *)

Section DailyUpdatePageFacts.

Import DailyUpdate.

Lemma fold_insert_is_Some {A V : Type} (key : A -> string) (val : A -> V) (l : list A)
    (acc : gmap string V) (k : string) :
  is_Some (fold_left (fun acc x => <[key x := val x]> acc) l acc !! k)
  <-> is_Some (acc !! k) \/ In k (map key l).
Proof.
  revert acc. induction l as [| x l IH]; intros acc; cbn [fold_left map].
  - split; [intros H; left; exact H | intros [H | []]; exact H].
  - rewrite IH. rewrite lookup_insert_is_Some. cbn [In]. split.
    + intros [[-> | [_ H]] | H]; [right; left; reflexivity | left; exact H | right; right; exact H].
    + intros [H | [H | H]]; [| left; left; exact H | right; exact H].
      destruct (decide (key x = k)) as [Heq | Hne]; [left; left; exact Heq |].
      left. right. split; assumption.
Qed.

Lemma merge_updates_is_Some (data : list DailyUpdateType) (m : gmap string DailyUpdateState)
    (k : string) :
  is_Some (merge_updates m data !! k) <-> is_Some (m !! k).
Proof.
  unfold merge_updates. revert m.
  induction data as [| x data IH]; intros m; cbn [fold_left]; [reflexivity |].
  rewrite IH. destruct (m !! du_customer_id x) as [old |] eqn:Hx; [| reflexivity].
  rewrite lookup_insert_is_Some. split.
  - intros [<- | [_ H]]; [rewrite Hx; eauto | exact H].
  - intros H. destruct (decide (du_customer_id x = k)); [left | right]; auto.
Qed.

Lemma merge_updates_lookup (data : list DailyUpdateType) (m : gmap string DailyUpdateState)
    (u : DailyUpdateType) :
  NoDup (map du_customer_id data) -> In u data -> is_Some (m !! du_customer_id u) ->
  merge_updates m data !! du_customer_id u = Some (row_of_update u).
Proof.
  revert m. induction data as [| x data IH]; intros m Hnd Hin Hm; [destruct Hin |].
  cbn [map] in Hnd. apply NoDup_cons in Hnd as [Hx Hnd]. rewrite list_elem_of_In in Hx.
  change (merge_updates m (x :: data))
    with (merge_updates (match m !! du_customer_id x with
                         | Some _ => <[du_customer_id x := row_of_update x]> m
                         | None => m
                         end) data).
  destruct Hin as [-> | Hin].
  - destruct Hm as [old Hm]. rewrite Hm. rewrite merge_updates_notin by exact Hx.
    apply lookup_insert_eq.
  - apply IH; [exact Hnd | exact Hin |].
    destruct (m !! du_customer_id x); [| exact Hm].
    rewrite lookup_insert_is_Some.
    destruct (decide (du_customer_id x = du_customer_id u)); [left | right]; auto.
Qed.

(** X6.  After loading, the table has a row for each customer of the list
    and for nobody else: an entry of the day whose customer is not in the
    list adds no row. *)
Theorem loaded_rows_are_the_customers
    (st : State) (customersData : list Customer)
    (initialUpdates prevDayUpdates : option (list DailyUpdateType)) (customerId : string) :
  is_Some (updates (fetchInitialData st (Ok customersData) initialUpdates prevDayUpdates)
             !! customerId)
  <-> In customerId (map customer_id customersData).
Proof.
  cbn [fetchInitialData updates]. unfold defaultUpdatesMap_of.
  destruct initialUpdates as [data |]; rewrite ?merge_updates_is_Some;
    rewrite (fold_insert_is_Some customer_id); rewrite lookup_empty;
    (split; [intros [[? H] | H]; [discriminate H | exact H] | intros H; right; exact H]).
Qed.

(** X7.  A saved entry of the day is shown as it was stored.  With one
    entry per customer for the day, the row of a listed customer who has an
    entry holds the delivered and collected quantities and the holding of
    that entry, whatever the entries of the day before are. *)
Theorem saved_entry_is_shown
    (st : State) (customersData : list Customer) (initialUpdatesData : list DailyUpdateType)
    (prevDayUpdates : option (list DailyUpdateType)) (u : DailyUpdateType) :
  NoDup (map du_customer_id initialUpdatesData) ->
  In u initialUpdatesData ->
  In (du_customer_id u) (map customer_id customersData) ->
  let st1 := fetchInitialData st (Ok customersData) (Some initialUpdatesData) prevDayUpdates in
  updates st1 !! du_customer_id u
  = Some {| delivered := Js.Num (delivered_qty u); collected := Js.Num (collected_qty u);
            holding_status := du_holding_status u; notes := default "" (du_notes u) |}
  /\ holding_cell st1 (du_customer_id u) = du_holding_status u
  /\ updateData_of st1 (du_customer_id u)
     = {| ud_customer_id := du_customer_id u; ud_date := selectedDate st;
          ud_delivered_qty := delivered_qty u; ud_collected_qty := collected_qty u;
          ud_notes := default "" (du_notes u) |}.
Proof.
  intros Hnd Hin Hc st1.
  assert (H : updates st1 !! du_customer_id u = Some (row_of_update u)).
  { subst st1. cbn [fetchInitialData updates]. apply merge_updates_lookup; try assumption.
    unfold defaultUpdatesMap_of. rewrite (fold_insert_is_Some customer_id). right. exact Hc. }
  split; [exact H |]. split.
  - unfold holding_cell. rewrite H. reflexivity.
  - unfold updateData_of, field_of. rewrite H. cbn [row_of_update delivered collected notes].
    rewrite !parseInt_or_zero_Num. reflexivity.
Qed.

(** X8.  A customer without a saved entry for the day is offered a default
    row.  With one record per customer in the list, the row holds the
    customer's [can_qty] (0 when missing) as delivered, 0 as collected, no
    notes, and as holding the holding of the day before, or [can_qty] when
    there is none, plus the delivered quantity. *)
Theorem unsaved_customer_gets_default_row
    (st : State) (customersData : list Customer)
    (initialUpdates prevDayUpdates : option (list DailyUpdateType)) (c : Customer) :
  NoDup (map customer_id customersData) ->
  In c customersData ->
  ~ In (customer_id c) (map du_customer_id (default [] initialUpdates)) ->
  let st1 := fetchInitialData st (Ok customersData) initialUpdates prevDayUpdates in
  updates st1 !! customer_id c
  = Some {| delivered := Js.Num (default 0 (can_qty c)); collected := Js.Num 0;
            holding_status := baseHolding st1 (customer_id c) + default 0 (can_qty c);
            notes := "" |}
  /\ updateData_of st1 (customer_id c)
     = {| ud_customer_id := customer_id c; ud_date := selectedDate st;
          ud_delivered_qty := default 0 (can_qty c); ud_collected_qty := 0; ud_notes := "" |}.
Proof.
  intros Hnd Hin Hnot st1.
  destruct (fetchInitialData_offers_default st customersData initialUpdates prevDayUpdates c
              Hnd Hin Hnot) as [Hrow _].
  fold st1 in Hrow.
  assert (Hfind : find_customer customersData (customer_id c) = Some c).
  { unfold find_customer. clear Hrow Hnot st1.
    induction customersData as [| x l IH]; [destruct Hin |].
    cbn [map] in Hnd. apply NoDup_cons in Hnd as [Hx Hnd]. rewrite list_elem_of_In in Hx.
    cbn [List.find]. destruct Hin as [-> | Hin].
    - rewrite String.eqb_refl. reflexivity.
    - destruct (String.eqb_spec (customer_id x) (customer_id c)) as [Heq | _];
        [| apply IH; assumption].
      exfalso. apply Hx. rewrite Heq. apply in_map. exact Hin. }
  assert (Hbase : baseHolding st1 (customer_id c)
                  = match previousDayHoldings st1 !! customer_id c with
                    | Some h => h
                    | None => can_qty_or_zero c
                    end).
  { unfold baseHolding. destruct (previousDayHoldings st1 !! customer_id c); [reflexivity |].
    subst st1. cbn [fetchInitialData customers]. rewrite Hfind. reflexivity. }
  split.
  - rewrite Hrow, Hbase. unfold default_row, can_qty_or_zero. f_equal. f_equal. lia.
  - unfold updateData_of, field_of. rewrite Hrow.
    cbn [default_row delivered collected notes]. rewrite !parseInt_or_zero_Num. reflexivity.
Qed.

(** X9.  An edit touches one row.  Editing a field of a customer leaves the
    row, the holding cell and the save request of every other customer as
    they were, and the customers, the holdings of the day before and the
    panel of cans to collect too; editing the notes changes neither the
    holding shown nor the quantities sent for the customer, with or without
    a row. *)
Theorem edit_touches_one_row
    (st : State) (customerId : string) (field : Field) (value other : string) :
  other <> customerId ->
  let st' := handleUpdateChange st customerId field value in
  let noted := handleUpdateChange st customerId Fnotes value in
  updates st' !! other = updates st !! other
  /\ holding_cell st' other = holding_cell st other
  /\ updateData_of st' other = updateData_of st other
  /\ customers st' = customers st
  /\ previousDayHoldings st' = previousDayHoldings st
  /\ cansToCollectToday st' = cansToCollectToday st
  /\ holding_cell noted customerId = holding_cell st customerId
  /\ ud_delivered_qty (updateData_of noted customerId)
     = ud_delivered_qty (updateData_of st customerId)
  /\ ud_collected_qty (updateData_of noted customerId)
     = ud_collected_qty (updateData_of st customerId)
  /\ ud_notes (updateData_of noted customerId) = value.
Proof.
  intros Hne st' noted.
  assert (Hother : updates st' !! other = updates st !! other).
  { subst st'. unfold handleUpdateChange. cbn [updates]. apply lookup_insert_ne. congruence. }
  split; [exact Hother |]. split; [unfold holding_cell; rewrite Hother; reflexivity |].
  split; [unfold updateData_of, field_of; rewrite Hother; reflexivity |].
  do 3 (split; [reflexivity |]).
  subst noted. unfold holding_cell, updateData_of, field_of, handleUpdateChange.
  cbn [updates ud_delivered_qty ud_collected_qty ud_notes]. rewrite !lookup_insert_eq.
  destruct (updates st !! customerId) as [row |];
    cbn [from_option id delivered collected holding_status notes];
    repeat split; try reflexivity; rewrite parseInt_or_zero_Num; reflexivity.
Qed.

(** X10.  Edits do not add up.  After the delivered and the collected
    quantity of a customer have both been typed, in either order and however
    often, the holding shown is the base holding plus the delivered quantity
    typed last minus the collected quantity typed last: what the row held
    before plays no part. *)
Theorem last_edits_decide_holding
    (st : State) (customerId a0 a b0 b : string) :
  let typed d c := baseHolding st customerId + parseInt_or_zero (Js.Str d)
                   - parseInt_or_zero (Js.Str c) in
  holding_cell (handleUpdateChange (handleUpdateChange st customerId Fdelivered a)
                                   customerId Fcollected b) customerId
  = typed a b
  /\ holding_cell (handleUpdateChange (handleUpdateChange st customerId Fcollected b)
                                      customerId Fdelivered a) customerId
     = typed a b
  /\ holding_cell
       (handleUpdateChange
          (handleUpdateChange
             (handleUpdateChange (handleUpdateChange st customerId Fdelivered a0)
                                 customerId Fcollected b0)
             customerId Fdelivered a)
          customerId Fcollected b) customerId
     = typed a b
  /\ handleUpdateChange (handleUpdateChange st customerId Fdelivered a) customerId Fdelivered a
     = handleUpdateChange st customerId Fdelivered a.
Proof.
  intros typed. subst typed. unfold holding_cell, handleUpdateChange, baseHolding.
  cbn [updates previousDayHoldings customers]. rewrite !lookup_insert_eq.
  cbn [from_option id delivered collected holding_status notes].
  repeat split; try reflexivity.
  rewrite insert_insert_eq. reflexivity.
Qed.

(** X11.  Editing a quantity of a saved row recomputes its holding from the
    day before.  With one entry per customer for the day, after the page is
    loaded an edit of the collected (delivered) quantity of a customer who
    has a saved entry gives the base holding plus the saved delivered
    quantity minus the typed one (plus the typed one minus the saved
    collected quantity); the holding stored with the entry is not used. *)
Theorem editing_saved_row_recomputes
    (st : State) (customersData : list Customer) (initialUpdatesData : list DailyUpdateType)
    (prevDayUpdates : option (list DailyUpdateType)) (u : DailyUpdateType) (value : string) :
  NoDup (map du_customer_id initialUpdatesData) ->
  In u initialUpdatesData ->
  In (du_customer_id u) (map customer_id customersData) ->
  let st1 := fetchInitialData st (Ok customersData) (Some initialUpdatesData) prevDayUpdates in
  holding_cell (handleUpdateChange st1 (du_customer_id u) Fcollected value) (du_customer_id u)
  = baseHolding st1 (du_customer_id u) + delivered_qty u - parseInt_or_zero (Js.Str value)
  /\ holding_cell (handleUpdateChange st1 (du_customer_id u) Fdelivered value)
       (du_customer_id u)
     = baseHolding st1 (du_customer_id u) + parseInt_or_zero (Js.Str value) - collected_qty u.
Proof.
  intros Hnd Hin Hc st1.
  destruct (saved_entry_is_shown st customersData initialUpdatesData prevDayUpdates u
              Hnd Hin Hc) as (Hrow & _).
  fold st1 in Hrow. unfold holding_cell, handleUpdateChange. cbn [updates].
  rewrite !lookup_insert_eq, Hrow. cbn [from_option id delivered collected holding_status].
  rewrite !parseInt_or_zero_Num. split; reflexivity.
Qed.

(** X12.  After a save the rows are those of the server.  When the save
    succeeds and the entries of the day are read again (one per customer),
    the row of each customer who has an entry and a row becomes that entry,
    holding included; rows without an entry are kept, and no row is added or
    removed.  When the save or the reading fails the table is unchanged.
    The request does not depend on either. *)
Theorem save_refresh_shows_server_rows
    (st : State) (customerId : string) (refreshedData : list DailyUpdateType)
    (u : DailyUpdateType) (saved : bool) (refreshResponse : option (list DailyUpdateType)) :
  NoDup (map du_customer_id refreshedData) ->
  In u refreshedData ->
  is_Some (updates st !! du_customer_id u) ->
  let st' := snd (handleSaveSingleUpdate st customerId true (Some refreshedData)) in
  updates st' !! du_customer_id u = Some (row_of_update u)
  /\ holding_cell st' (du_customer_id u) = du_holding_status u
  /\ (forall k : string, is_Some (updates st' !! k) <-> is_Some (updates st !! k))
  /\ (forall k : string, ~ In k (map du_customer_id refreshedData) ->
                         updates st' !! k = updates st !! k)
  /\ snd (handleSaveSingleUpdate st customerId false refreshResponse) = st
  /\ snd (handleSaveSingleUpdate st customerId saved None) = st
  /\ fst (handleSaveSingleUpdate st customerId saved refreshResponse)
     = updateData_of st customerId.
Proof.
  intros Hnd Hin Hrow st'. subst st'. cbn [handleSaveSingleUpdate snd fst updates].
  assert (H : merge_updates (updates st) refreshedData !! du_customer_id u
              = Some (row_of_update u)) by (apply merge_updates_lookup; assumption).
  split; [exact H |]. split; [unfold holding_cell; cbn [updates]; rewrite H; reflexivity |].
  split; [intros k; apply merge_updates_is_Some |].
  split; [intros k Hk; apply merge_updates_notin, Hk |].
  split; [reflexivity |]. split; [destruct saved; reflexivity | reflexivity].
Qed.

(** X13.  The panel of cans to collect lists a customer exactly when the
    customer is in the list and has an entry for the day before with a
    positive holding, and shows that holding.  A customer without an entry
    for the day before is never listed, whatever [can_qty] seeds the
    holding of the day. *)
Theorem cans_to_collect_are_yesterdays_holdings (st : State) :
  (forall item : Collection,
      In item (cansToCollectToday st)
      <-> exists (c : Customer) (h : Z),
            In c (customers st)
            /\ previousDayHoldings st !! customer_id c = Some h
            /\ 0 < h
            /\ item = {| col_customer_id := customer_id c; col_name := name c;
                         col_holding_status := h |})
  /\ (forall item : Collection,
         In item (cansToCollectToday st) ->
         is_Some (previousDayHoldings st !! col_customer_id item)
         /\ 0 < col_holding_status item)
  /\ (length (cansToCollectToday st) <= length (customers st))%nat.
Proof.
  assert (Hchar : forall item : Collection,
             In item (cansToCollectToday st)
             <-> exists (c : Customer) (h : Z),
                   In c (customers st)
                   /\ previousDayHoldings st !! customer_id c = Some h
                   /\ 0 < h
                   /\ item = {| col_customer_id := customer_id c; col_name := name c;
                                col_holding_status := h |}).
  { intros item. unfold cansToCollectToday, previous_holding_or_zero. rewrite in_map_iff.
    split.
    - intros (c & <- & Hc). apply List.filter_In in Hc as [Hc Hpos].
      destruct (previousDayHoldings st !! customer_id c) as [h |] eqn:Hh;
        cbn [from_option id] in *.
      + exists c, h. apply Z.ltb_lt in Hpos. repeat split; try assumption; reflexivity.
      + discriminate Hpos.
    - intros (c & h & Hc & Hh & Hpos & ->). exists c. rewrite Hh. cbn [from_option id].
      split; [reflexivity |]. apply List.filter_In. split; [exact Hc |].
      rewrite Hh. cbn [from_option id]. apply Z.ltb_lt, Hpos. }
  split; [exact Hchar |]. split.
  - intros item Hitem. apply Hchar in Hitem as (c & h & _ & Hh & Hpos & ->).
    cbn [col_customer_id col_holding_status]. split; [rewrite Hh; eauto | exact Hpos].
  - unfold cansToCollectToday. rewrite length_map. apply List.filter_length_le.
Qed.

End DailyUpdatePageFacts.

Lemma saved_entry_is_shown_witness :
  let st1 := DailyUpdate.fetchInitialData (empty_state "2024-03-02")
               (Ok [shop_customer; order_customer]) (Some [today_entry; stray_entry])
               (Some [yesterday_entry]) in
  DailyUpdate.updates st1 !! DailyUpdate.du_customer_id today_entry
  = Some {| DailyUpdate.delivered := Js.Num (DailyUpdate.delivered_qty today_entry);
            DailyUpdate.collected := Js.Num (DailyUpdate.collected_qty today_entry);
            DailyUpdate.holding_status := DailyUpdate.du_holding_status today_entry;
            DailyUpdate.notes := default "" (DailyUpdate.du_notes today_entry) |}
  /\ DailyUpdate.holding_cell st1 (DailyUpdate.du_customer_id today_entry)
     = DailyUpdate.du_holding_status today_entry
  /\ DailyUpdate.updateData_of st1 (DailyUpdate.du_customer_id today_entry)
     = {| DailyUpdate.ud_customer_id := DailyUpdate.du_customer_id today_entry;
          DailyUpdate.ud_date := DailyUpdate.selectedDate (empty_state "2024-03-02");
          DailyUpdate.ud_delivered_qty := DailyUpdate.delivered_qty today_entry;
          DailyUpdate.ud_collected_qty := DailyUpdate.collected_qty today_entry;
          DailyUpdate.ud_notes := default "" (DailyUpdate.du_notes today_entry) |}.
Proof.
  apply (saved_entry_is_shown (empty_state "2024-03-02") [shop_customer; order_customer]
           [today_entry; stray_entry] (Some [yesterday_entry]) today_entry).
  - cbn. repeat (apply NoDup_cons; split; [rewrite list_elem_of_In; cbn; intuition discriminate |]).
    apply NoDup_nil. exact I.
  - left. reflexivity.
  - left. reflexivity.
Defined.

Lemma unsaved_customer_gets_default_row_witness :
  let st1 := DailyUpdate.fetchInitialData (empty_state "2024-03-02")
               (Ok [shop_customer; order_customer]) (Some [today_entry; stray_entry])
               (Some [yesterday_entry]) in
  DailyUpdate.updates st1 !! DailyUpdate.customer_id order_customer
  = Some {| DailyUpdate.delivered := Js.Num (default 0 (DailyUpdate.can_qty order_customer));
            DailyUpdate.collected := Js.Num 0;
            DailyUpdate.holding_status :=
              DailyUpdate.baseHolding st1 (DailyUpdate.customer_id order_customer)
              + default 0 (DailyUpdate.can_qty order_customer);
            DailyUpdate.notes := "" |}
  /\ DailyUpdate.updateData_of st1 (DailyUpdate.customer_id order_customer)
     = {| DailyUpdate.ud_customer_id := DailyUpdate.customer_id order_customer;
          DailyUpdate.ud_date := DailyUpdate.selectedDate (empty_state "2024-03-02");
          DailyUpdate.ud_delivered_qty := default 0 (DailyUpdate.can_qty order_customer);
          DailyUpdate.ud_collected_qty := 0; DailyUpdate.ud_notes := "" |}.
Proof.
  apply (unsaved_customer_gets_default_row (empty_state "2024-03-02")
           [shop_customer; order_customer] (Some [today_entry; stray_entry])
           (Some [yesterday_entry]) order_customer).
  - cbn. repeat (apply NoDup_cons; split; [rewrite list_elem_of_In; cbn; intuition discriminate |]).
    apply NoDup_nil. exact I.
  - right. left. reflexivity.
  - cbn. intros [H | [H | []]]; discriminate H.
Defined.

Lemma edit_touches_one_row_witness :
  let st' := DailyUpdate.handleUpdateChange loaded_saved_state "c1" DailyUpdate.Fcollected "3" in
  let noted := DailyUpdate.handleUpdateChange loaded_saved_state "c1" DailyUpdate.Fnotes "3" in
  DailyUpdate.updates st' !! "c2" = DailyUpdate.updates loaded_saved_state !! "c2"
  /\ DailyUpdate.holding_cell st' "c2" = DailyUpdate.holding_cell loaded_saved_state "c2"
  /\ DailyUpdate.updateData_of st' "c2" = DailyUpdate.updateData_of loaded_saved_state "c2"
  /\ DailyUpdate.customers st' = DailyUpdate.customers loaded_saved_state
  /\ DailyUpdate.previousDayHoldings st' = DailyUpdate.previousDayHoldings loaded_saved_state
  /\ DailyUpdate.cansToCollectToday st' = DailyUpdate.cansToCollectToday loaded_saved_state
  /\ DailyUpdate.holding_cell noted "c1" = DailyUpdate.holding_cell loaded_saved_state "c1"
  /\ DailyUpdate.ud_delivered_qty (DailyUpdate.updateData_of noted "c1")
     = DailyUpdate.ud_delivered_qty (DailyUpdate.updateData_of loaded_saved_state "c1")
  /\ DailyUpdate.ud_collected_qty (DailyUpdate.updateData_of noted "c1")
     = DailyUpdate.ud_collected_qty (DailyUpdate.updateData_of loaded_saved_state "c1")
  /\ DailyUpdate.ud_notes (DailyUpdate.updateData_of noted "c1") = "3".
Proof.
  apply (edit_touches_one_row loaded_saved_state "c1" DailyUpdate.Fcollected "3" "c2").
  intros H. discriminate H.
Defined.

Lemma editing_saved_row_recomputes_witness :
  let st1 := DailyUpdate.fetchInitialData (empty_state "2024-03-02")
               (Ok [shop_customer; order_customer]) (Some [today_entry; stray_entry])
               (Some [yesterday_entry]) in
  DailyUpdate.holding_cell
    (DailyUpdate.handleUpdateChange st1 (DailyUpdate.du_customer_id today_entry)
       DailyUpdate.Fcollected "2") (DailyUpdate.du_customer_id today_entry)
  = DailyUpdate.baseHolding st1 (DailyUpdate.du_customer_id today_entry)
    + DailyUpdate.delivered_qty today_entry - DailyUpdate.parseInt_or_zero (Js.Str "2")
  /\ DailyUpdate.holding_cell
       (DailyUpdate.handleUpdateChange st1 (DailyUpdate.du_customer_id today_entry)
          DailyUpdate.Fdelivered "2") (DailyUpdate.du_customer_id today_entry)
     = DailyUpdate.baseHolding st1 (DailyUpdate.du_customer_id today_entry)
       + DailyUpdate.parseInt_or_zero (Js.Str "2") - DailyUpdate.collected_qty today_entry.
Proof.
  apply (editing_saved_row_recomputes (empty_state "2024-03-02")
           [shop_customer; order_customer] [today_entry; stray_entry]
           (Some [yesterday_entry]) today_entry "2").
  - cbn. repeat (apply NoDup_cons; split; [rewrite list_elem_of_In; cbn; intuition discriminate |]).
    apply NoDup_nil. exact I.
  - left. reflexivity.
  - left. reflexivity.
Defined.

Example saved_holding_is_replaced_on_edit :
  DailyUpdate.holding_cell loaded_saved_state "c1" = 40
  /\ DailyUpdate.holding_cell
       (DailyUpdate.handleUpdateChange loaded_saved_state "c1" DailyUpdate.Fcollected "2") "c1"
     = 7.
Proof. split; vm_compute; reflexivity. Qed.

Lemma save_refresh_shows_server_rows_witness :
  let st' := snd (DailyUpdate.handleSaveSingleUpdate loaded_state "c1" true
                    (Some [today_entry; stray_entry])) in
  DailyUpdate.updates st' !! DailyUpdate.du_customer_id today_entry
  = Some (DailyUpdate.row_of_update today_entry)
  /\ DailyUpdate.holding_cell st' (DailyUpdate.du_customer_id today_entry)
     = DailyUpdate.du_holding_status today_entry
  /\ (forall k : string, is_Some (DailyUpdate.updates st' !! k)
                         <-> is_Some (DailyUpdate.updates loaded_state !! k))
  /\ (forall k : string,
         ~ In k (map DailyUpdate.du_customer_id [today_entry; stray_entry]) ->
         DailyUpdate.updates st' !! k = DailyUpdate.updates loaded_state !! k)
  /\ snd (DailyUpdate.handleSaveSingleUpdate loaded_state "c1" false None) = loaded_state
  /\ snd (DailyUpdate.handleSaveSingleUpdate loaded_state "c1" true None) = loaded_state
  /\ fst (DailyUpdate.handleSaveSingleUpdate loaded_state "c1" true None)
     = DailyUpdate.updateData_of loaded_state "c1".
Proof.
  apply (save_refresh_shows_server_rows loaded_state "c1" [today_entry; stray_entry]
           today_entry true None).
  - cbn. repeat (apply NoDup_cons; split; [rewrite list_elem_of_In; cbn; intuition discriminate |]).
    apply NoDup_nil. exact I.
  - left. reflexivity.
  - vm_compute. eauto.
Defined.

Example panel_ignores_the_seed :
  DailyUpdate.cansToCollectToday loaded_state
  = [{| DailyUpdate.col_customer_id := "c1"; DailyUpdate.col_name := "Asha";
        DailyUpdate.col_holding_status := 6 |}]
  /\ DailyUpdate.baseHolding loaded_state "c2" = 5.
Proof. split; vm_compute; reflexivity. Qed.

(** ** The calendar of the ledger *)

Section CalendarFacts.

Import Billing.

Lemma omap_all_some (g : nat -> Z) (p : nat -> bool) (l : list nat) :
  (forall i, In i l -> p i = true) ->
  omap (fun i => if p i then Some (g i) else None) l = map g l.
Proof.
  induction l as [| i l IH]; intros H; [reflexivity |].
  change (omap (fun i => if p i then Some (g i) else None) (i :: l))
    with (match (if p i then Some (g i) else None) with
          | Some y => y :: omap (fun i => if p i then Some (g i) else None) l
          | None => omap (fun i => if p i then Some (g i) else None) l
          end).
  rewrite (H i (or_introl eq_refl)). cbn [map]. f_equal. apply IH.
  intros j Hj. apply H. right. exact Hj.
Qed.

Lemma omap_all_none (g : nat -> Z) (p : nat -> bool) (l : list nat) :
  (forall i, In i l -> p i = false) ->
  omap (fun i => if p i then Some (g i) else None) l = [].
Proof.
  induction l as [| i l IH]; intros H; [reflexivity |].
  change (omap (fun i => if p i then Some (g i) else None) (i :: l))
    with (match (if p i then Some (g i) else None) with
          | Some y => y :: omap (fun i => if p i then Some (g i) else None) l
          | None => omap (fun i => if p i then Some (g i) else None) l
          end).
  rewrite (H i (or_introl eq_refl)). apply IH. intros j Hj. apply H. right. exact Hj.
Qed.

Lemma right_days_of_rows (row : nat -> CalendarRow) (l : list nat) :
  omap dayRight (map row l) = omap (fun i => dayRight (row i)) l.
Proof.
  induction l as [| i l IH]; [reflexivity |].
  change (omap dayRight (map row (i :: l)))
    with (match dayRight (row i) with
          | Some day => day :: omap dayRight (map row l)
          | None => omap dayRight (map row l)
          end).
  rewrite IH. reflexivity.
Qed.

Lemma map_of_nat_seq (g : nat -> Z) (start len : nat) :
  (forall i : nat, g i = Z.of_nat (start + i)) ->
  map g (seq 0 len) = map Z.of_nat (seq start len).
Proof.
  intros Hg. induction len as [| len IH]; [reflexivity |].
  rewrite !seq_S, !map_app, IH. cbn [map]. rewrite Hg. reflexivity.
Qed.

(** How the month splits into the two columns. *)
Lemma half_month_split (d : nat) :
  exists h k : nat,
    Z.to_nat (half_month (Z.of_nat d)) = h /\ half_month (Z.of_nat d) = Z.of_nat h
    /\ (h + k = d)%nat /\ (k <= h)%nat.
Proof.
  unfold half_month.
  assert (H0 : 0 <= (Z.of_nat d + 1) / 2) by (apply Z.div_pos; lia).
  assert (H1 : (Z.of_nat d + 1) / 2 <= Z.of_nat d).
  { destruct d; [reflexivity |]. apply Z.div_le_upper_bound; lia. }
  assert (H2 : Z.of_nat d <= 2 * ((Z.of_nat d + 1) / 2)).
  { pose proof (Z.div_mod (Z.of_nat d + 1) 2 ltac:(lia)).
    pose proof (Z.mod_pos_bound (Z.of_nat d + 1) 2 ltac:(lia)). lia. }
  exists (Z.to_nat ((Z.of_nat d + 1) / 2)), (d - Z.to_nat ((Z.of_nat d + 1) / 2))%nat.
  repeat split; lia.
Qed.

(** X14.  The calendar shows every day of the month once and no other day:
    for a month of [d] days, the days of the left column followed by the
    days shown in the right column are 1, 2, ..., d; each quantity shown is
    the one recorded for its day, blank when there is none or it is 0, and a
    right cell without a day is blank. *)
Theorem calendar_shows_each_day_once (d : nat) (dailyDeliveries : gmap Z Js.value) :
  let rows := calendar_rows (Z.of_nat d) dailyDeliveries in
  (map dayLeft rows ++ omap dayRight rows)%list = map Z.of_nat (seq 1 d)
  /\ Forall (fun row =>
               deliveredQtyLeft row = delivered_or_blank dailyDeliveries (dayLeft row)
               /\ deliveredQtyRight row
                  = match dayRight row with
                    | Some day => delivered_or_blank dailyDeliveries day
                    | None => Js.Str ""
                    end) rows
  /\ forall day : Z,
       delivered_or_blank dailyDeliveries day = Js.Str ""
       <-> dailyDeliveries !! day = None
           \/ exists v, dailyDeliveries !! day = Some v /\ Js.truthy v = false.
Proof.
  intros rows. destruct (half_month_split d) as (h & k & Hh & HhZ & Hsum & Hk).
  split; [| split].
  - subst rows. unfold calendar_rows. rewrite Hh, HhZ.
    rewrite map_map. cbn [dayLeft].
    rewrite right_days_of_rows. cbn [dayRight].
    rewrite (map_of_nat_seq (fun i => Z.of_nat i + 1) 1 h) by (intros i; lia).
    replace (seq 0 h) with (seq 0 k ++ seq k (h - k))%list
      by (rewrite <- seq_app; f_equal; lia).
    rewrite omap_app.
    rewrite (omap_all_some (fun i => Z.of_nat i + 1 + Z.of_nat h)
               (fun i => Z.of_nat i + 1 + Z.of_nat h <=? Z.of_nat d)).
    2:{ intros i Hi. apply in_seq in Hi. apply Z.leb_le. lia. }
    rewrite (omap_all_none (fun i => Z.of_nat i + 1 + Z.of_nat h)
               (fun i => Z.of_nat i + 1 + Z.of_nat h <=? Z.of_nat d)).
    2:{ intros i Hi. apply in_seq in Hi. apply Z.leb_gt. lia. }
    rewrite app_nil_r.
    rewrite (map_of_nat_seq (fun i => Z.of_nat i + 1 + Z.of_nat h) (1 + h) k)
      by (intros i; lia).
    rewrite <- map_app, <- seq_app. f_equal. f_equal. exact Hsum.
  - subst rows. unfold calendar_rows. apply List.Forall_forall. intros row Hrow.
    apply in_map_iff in Hrow as (i & <- & _). cbn [deliveredQtyLeft dayLeft dayRight
      deliveredQtyRight].
    split; [reflexivity |].
    destruct (Z.of_nat i + 1 + half_month (Z.of_nat d) <=? Z.of_nat d); reflexivity.
  - intros day. unfold delivered_or_blank.
    destruct (dailyDeliveries !! day) as [v |] eqn:Hv.
    + destruct (Js.truthy v) eqn:Ht; split.
      * intros ->. discriminate Ht.
      * intros [H | (w & Hw & Hf)]; [discriminate H |].
        injection Hw as <-. rewrite Ht in Hf. discriminate Hf.
      * intros _. right. exists v. split; [reflexivity | exact Ht].
      * reflexivity.
    + split; [intros _; left; reflexivity | reflexivity].
Qed.

Lemma sum_cells_app (l1 l2 : list Js.value) :
  BillSpec.sum_cells (l1 ++ l2) = Js.add (BillSpec.sum_cells l1) (BillSpec.sum_cells l2).
Proof.
  induction l1 as [| v l1 IH]; cbn [app BillSpec.sum_cells fold_right].
  - symmetry. apply add_zero_l.
  - fold (BillSpec.sum_cells (l1 ++ l2)). fold (BillSpec.sum_cells l1).
    rewrite IH. apply add_assoc.
Qed.

(** A blank cell reads as 0, and any other cell as the quantity recorded. *)
Lemma blank_reading (v : Js.value) :
  v <> Js.Undefined -> Js.ToNumber (if Js.truthy v then v else Js.Str "") = Js.ToNumber v.
Proof.
  intros Hv. destruct v as [| | z | s]; [contradiction | reflexivity | |]; cbn [Js.truthy].
  - destruct (Z.eqb_spec z 0) as [-> | _]; reflexivity.
  - destruct (String.eqb_spec s "") as [-> | _]; reflexivity.
Qed.

Lemma right_cells_sum (dd : gmap Z Js.value) (rows : list CalendarRow) :
  Forall (fun row =>
            deliveredQtyRight row
            = match dayRight row with
              | Some day => delivered_or_blank dd day
              | None => Js.Str ""
              end) rows ->
  BillSpec.sum_cells (map deliveredQtyRight rows)
  = BillSpec.sum_cells (map (delivered_or_blank dd) (omap dayRight rows)).
Proof.
  induction 1 as [| row rows Hrow _ IH]; [reflexivity |].
  change (omap dayRight (row :: rows))
    with (match dayRight row with
          | Some y => y :: omap dayRight rows
          | None => omap dayRight rows
          end).
  cbn [map BillSpec.sum_cells fold_right]. fold (BillSpec.sum_cells (map deliveredQtyRight rows)).
  rewrite Hrow, IH. destruct (dayRight row); [reflexivity |]. apply add_zero_l.
Qed.

Lemma sum_blank_insert (ds : list Z) (m : gmap Z Js.value) (k : Z) (v : Js.value) :
  NoDup ds -> In k ds -> m !! k = None -> v <> Js.Undefined ->
  BillSpec.sum_cells (map (delivered_or_blank (<[k := v]> m)) ds)
  = Js.add (Js.ToNumber v) (BillSpec.sum_cells (map (delivered_or_blank m) ds)).
Proof.
  intros Hnd Hin Hm Hv. induction ds as [| x ds IH]; [destruct Hin |].
  apply NoDup_cons in Hnd as [Hx Hnd]. rewrite list_elem_of_In in Hx.
  cbn [map BillSpec.sum_cells fold_right].
  fold (BillSpec.sum_cells (map (delivered_or_blank (<[k := v]> m)) ds)).
  fold (BillSpec.sum_cells (map (delivered_or_blank m) ds)).
  destruct (Z.eq_dec x k) as [-> | Hne].
  - unfold delivered_or_blank at 1 3. rewrite lookup_insert_eq, Hm, blank_reading by exact Hv.
    cbn [Js.ToNumber Js.StringToNumber Js.skip_ws]. rewrite add_zero_l. f_equal.
    f_equal. apply map_ext_in. intros y Hy. unfold delivered_or_blank.
    rewrite lookup_insert_ne; [reflexivity |]. intros ->. contradiction.
  - destruct Hin as [Heq | Hin]; [contradiction |]. rewrite (IH Hnd Hin).
    replace (delivered_or_blank (<[k := v]> m) x) with (delivered_or_blank m x)
      by (unfold delivered_or_blank; rewrite lookup_insert_ne by congruence; reflexivity).
    rewrite !add_assoc. f_equal. apply add_comm.
Qed.

Lemma sum_blank_empty (ds : list Z) :
  BillSpec.sum_cells (map (delivered_or_blank ∅) ds) = Js.Fin 0.
Proof.
  induction ds as [| x ds IH]; [reflexivity |]. cbn [map BillSpec.sum_cells fold_right].
  fold (BillSpec.sum_cells (map (delivered_or_blank ∅) ds)). rewrite IH.
  unfold delivered_or_blank. rewrite lookup_empty. reflexivity.
Qed.

Section CalendarTotal.

Variable getDate : string -> Z.

Lemma sum_blank_fold (ds : list Z) (l : list LedgerEntry) (m : gmap Z Js.value) :
  NoDup ds ->
  NoDup (map (fun e => getDate (date e)) l) ->
  Forall (fun e => In (getDate (date e)) ds) l ->
  Forall (fun e => m !! getDate (date e) = None) l ->
  Forall (fun e => delivered_qty e <> Js.Undefined) l ->
  BillSpec.sum_cells
    (map (delivered_or_blank
            (fold_left (fun acc e => <[getDate (date e) := delivered_qty e]> acc) l m)) ds)
  = Js.add (BillSpec.sum_cells (map (delivered_or_blank m) ds)) (BillSpec.sum_delivered l).
Proof.
  intros Hds. revert m. induction l as [| e l IH]; intros m Hnd Hin Hm Hv.
  - cbn [fold_left BillSpec.sum_delivered]. rewrite add_comm. symmetry. apply add_zero_l.
  - cbn [map] in Hnd. apply NoDup_cons in Hnd as [He Hnd]. rewrite list_elem_of_In in He.
    apply Forall_cons in Hin as [Hine Hin]. apply Forall_cons in Hm as [Hme Hm].
    apply Forall_cons in Hv as [Hve Hv].
    cbn [fold_left BillSpec.sum_delivered]. rewrite IH; try assumption.
    + rewrite (sum_blank_insert ds m _ _ Hds Hine Hme Hve).
      rewrite !add_assoc. f_equal. apply add_comm.
    + rewrite List.Forall_forall in *. intros e' He'. rewrite lookup_insert_ne.
      * apply Hm, He'.
      * intros Heq. apply He. rewrite Heq. apply (in_map (fun e => getDate (date e))), He'.
Qed.

(** X15.  The calendar adds up to the total printed under it.  When the
    entries of the month fall on different days of the month, all between 1
    and the number of days, and every entry has a delivered quantity, the
    cells of the calendar (a blank cell counting as 0) sum to the total of
    cans of [openLedger]. *)
Theorem calendar_adds_up_to_total (d : nat) (ledgerData : list LedgerEntry) :
  NoDup (map (fun e => getDate (date e)) ledgerData) ->
  Forall (fun e => 1 <= getDate (date e) <= Z.of_nat d) ledgerData ->
  Forall (fun e => delivered_qty e <> Js.Undefined) ledgerData ->
  let rows := calendar getDate (Z.of_nat d) ledgerData in
  BillSpec.sum_cells (map deliveredQtyLeft rows ++ map deliveredQtyRight rows)
  = totalCans_of ledgerData.
Proof.
  intros Hnd Hrange Hv rows.
  destruct (calendar_shows_each_day_once d (dailyDeliveries_of getDate ledgerData))
    as (Hdays & Hcells & _).
  fold (calendar getDate (Z.of_nat d) ledgerData) in Hdays, Hcells. fold rows in Hdays, Hcells.
  rewrite sum_cells_app.
  rewrite (right_cells_sum (dailyDeliveries_of getDate ledgerData) rows).
  2:{ eapply List.Forall_impl; [| exact Hcells]. cbn beta. intros row [_ H]. exact H. }
  replace (map deliveredQtyLeft rows)
    with (map (delivered_or_blank (dailyDeliveries_of getDate ledgerData)) (map dayLeft rows)).
  2:{ rewrite map_map. apply map_ext_in. intros row Hrow.
      rewrite List.Forall_forall in Hcells. symmetry. apply (Hcells row Hrow). }
  rewrite <- sum_cells_app, <- map_app, Hdays.
  unfold dailyDeliveries_of. rewrite sum_blank_fold.
  - rewrite sum_blank_empty, add_zero_l. symmetry. apply totalCans_is_sum.
  - apply NoDup_fmap_2; [intros x y H; lia | apply NoDup_ListNoDup, seq_NoDup].
  - exact Hnd.
  - eapply List.Forall_impl; [| exact Hrange]. cbn beta. intros e He.
    apply in_map_iff. exists (Z.to_nat (getDate (date e))). split; [lia |].
    apply in_seq. lia.
  - apply List.Forall_forall. intros e _. apply lookup_empty.
  - exact Hv.
Qed.

End CalendarTotal.

End CalendarFacts.

Lemma calendar_adds_up_to_total_witness :
  let rows := Billing.calendar day_of_iso (Z.of_nat 31) march_ledger in
  BillSpec.sum_cells (map Billing.deliveredQtyLeft rows ++ map Billing.deliveredQtyRight rows)
  = Billing.totalCans_of march_ledger.
Proof.
  apply (calendar_adds_up_to_total day_of_iso 31 march_ledger).
  - cbn. repeat (apply NoDup_cons; split; [rewrite list_elem_of_In; cbn; intuition discriminate |]).
    apply NoDup_nil. exact I.
  - repeat (apply Forall_cons; split; [vm_compute; split; discriminate |]).
    apply Forall_nil. exact I.
  - repeat (apply Forall_cons; split; [intros H; discriminate H |]). apply Forall_nil. exact I.
Defined.

Example march_calendar_first_rows :
  firstn 2 (Billing.calendar day_of_iso 31 march_ledger)
  = [ {| Billing.dayLeft := 1; Billing.deliveredQtyLeft := Js.Num 2;
         Billing.dayRight := Some 17; Billing.deliveredQtyRight := Js.Str "" |};
      {| Billing.dayLeft := 2; Billing.deliveredQtyLeft := Js.Str "";
         Billing.dayRight := Some 18; Billing.deliveredQtyRight := Js.Str "" |} ]
  /\ length (Billing.calendar day_of_iso 31 march_ledger) = 16%nat
  /\ Billing.dayRight <$> last (Billing.calendar day_of_iso 31 march_ledger) = Some None.
Proof. repeat split; vm_compute; reflexivity. Qed.

(** ** The Orders page: the collection column and the receipt page *)

Section OrdersPageFacts.

Import Orders.

Lemma decimal_is_not_Complete (z : Z) (rest : string) :
  Js.Z_to_string z ++ rest <> "Complete".
Proof.
  unfold Js.Z_to_string.
  destruct (parseInt_decimal (Z.abs z) (Z.abs_nonneg z)) as [Hhead _].
  cbv zeta in Hhead.
  destruct (z <? 0); [cbn [String.append]; discriminate |].
  destruct Hhead as [m Hm | m m' t Hm Hm']; apply digit_char_cases in Hm; cbn [In] in Hm;
    cbn [String.append]; intros H; injection H as Hc _; rewrite Hc in Hm;
    repeat (destruct Hm as [Hm | Hm]; [discriminate Hm |]); exact Hm.
Qed.

(** X16.  The collection column tells what the receipt charges.  For an
    order whose quantities are numbers, the status is "Complete", in green,
    exactly when no can is missing; otherwise it reads collected/delivered,
    in orange, and the receipt counts the difference as missing.  For an
    order whose collected quantity is not set, the column says so, in grey,
    and the receipt counts every can as missing. *)
Theorem collection_status_matches_charge
    (currentPrice : PriceSheet) (order : Order) (q : Z) :
  can_qty order = Js.Num q ->
  let missing := missingCans (viewOrderReceipt_figures currentPrice order) in
  match collected_qty order with
  | Js.Num c =>
      (getCollectionStatus order = "Complete" <-> q <= c)
      /\ (getCollectionStatus order = "Complete" <-> missing = Js.Fin 0)
      /\ (getCollectionStatus order = "Complete"
          <-> getCollectionStatusColor order = "text-green-600")
      /\ (getCollectionStatus order = "Complete"
          \/ getCollectionStatus order = Js.Z_to_string c ++ "/" ++ Js.Z_to_string q
             /\ getCollectionStatusColor order = "text-orange-600"
             /\ missing = Js.Fin (q - c) /\ 0 < q - c)
  | Js.Undefined | Js.Null =>
      getCollectionStatus order = "Not set"
      /\ getCollectionStatusColor order = "text-gray-500"
      /\ missing = Js.Fin (Z.max 0 q)
  | Js.Str _ => True
  end.
Proof.
  intros Hq missing. subst missing.
  unfold getCollectionStatus, getCollectionStatusColor, viewOrderReceipt_figures.
  cbn [missingCans]. rewrite Hq.
  destruct (collected_qty order) as [| | c | s]; [| | | exact I].
  - cbn. repeat split. f_equal. lia.
  - cbn. repeat split. f_equal. lia.
  - cbn [not_set Js.strict_eq orb]. rewrite le_Num.
    assert (Hor : Js.ToNumber (Js.or_zero (Js.Num c)) = Js.Fin c).
    { unfold Js.or_zero. cbn [Js.truthy]. destruct (Z.eqb_spec c 0) as [-> | _]; reflexivity. }
    rewrite Hor. cbn [Js.ToNumber Js.sub Js.Math_max Js.lift2 Js.ToString].
    destruct (Z.leb_spec q c) as [Hle | Hgt].
    + split; [tauto |]. split; [split; [intros _; f_equal; lia | reflexivity] |].
      split; [tauto | left; reflexivity].
    + split; [split; [intros H; exfalso; exact (decimal_is_not_Complete _ _ H) | lia] |].
      split; [split; [intros H; exfalso; exact (decimal_is_not_Complete _ _ H) |
                      intros H; injection H as H; lia] |].
      split; [split; [intros H; exfalso; exact (decimal_is_not_Complete _ _ H) |
                      intros H; discriminate H] |].
      right. repeat split; try reflexivity; try lia. f_equal. lia.
Qed.

Lemma gt_zero_reading (v : Js.value) :
  Js.truthy v && Js.gt v (Js.Num 0)
  = positive (Js.Fin (Js.number_or_zero (Js.ToNumber v))).
Proof.
  unfold Js.gt, Js.lt, positive.
  destruct v as [| | z | s]; cbn [Js.truthy Js.compare Js.ToNumber Js.number_or_zero andb];
    try reflexivity.
  - unfold Z.ltb. destruct (Z.eqb_spec z 0) as [-> | _]; [reflexivity |].
    cbn [negb andb]. destruct (0 ?= z); reflexivity.
  - destruct (String.eqb_spec s "") as [-> | _]; [reflexivity |]. cbn [negb andb].
    destruct (Js.StringToNumber s) as [| z]; [reflexivity |].
    cbn [Js.number_or_zero]. unfold Z.ltb. destruct (0 ?= z); reflexivity.
Qed.

(** X17.  What the receipt page prints for an order whose quantities are
    numbers.  The rows of the missing cans and the row of the total are
    printed together, exactly when fewer cans were collected than delivered:
    the page of an order with all its cans back has no total.  The delivery
    row is printed exactly when the delivery amount of the figures is
    positive, and the collection table when a can was collected or is
    missing; its pending cell is delivered minus collected, which is
    negative where the missing cans are 0. *)
Theorem receipt_page_parts (currentPrice : PriceSheet) (order : Order) (q c : Z) :
  can_qty order = Js.Num q ->
  collected_qty order = Js.Num c ->
  let fig := viewOrderReceipt_figures currentPrice order in
  let page := viewOrderReceipt_sections currentPrice order in
  total_row page = (c <? q)
  /\ missing_rows page = (c <? q)
  /\ delivery_row page = positive (deliveryAmount fig)
  /\ collection_table page = ((0 <? c) || (c <? q))
  /\ pending_cell order = Js.Fin (q - c)
  /\ missingCans fig = Js.Fin (Z.max 0 (q - c))
  /\ (total_row page = false -> totalAmount fig = Js.add (subtotal fig) (deliveryAmount fig)).
Proof.
  intros Hq Hc fig page.
  assert (Hm : missingCans fig = Js.Fin (Z.max 0 (q - c))).
  { subst fig. unfold viewOrderReceipt_figures. cbn [missingCans]. rewrite Hq, Hc.
    unfold Js.or_zero. cbn [Js.truthy].
    destruct (Z.eqb_spec c 0) as [-> | _]; reflexivity. }
  assert (Hpos : positive (missingCans fig) = (c <? q)).
  { rewrite Hm. cbn [positive]. destruct (Z.ltb_spec c q), (Z.ltb_spec 0 (Z.max 0 (q - c)));
      try reflexivity; lia. }
  subst page. unfold viewOrderReceipt_sections. fold fig.
  cbn [total_row missing_rows delivery_row collection_table]. rewrite Hpos.
  split; [reflexivity |]. split; [reflexivity |].
  split; [apply gt_zero_reading |].
  split; [rewrite Hc, gt_Num; reflexivity |].
  split; [unfold pending_cell; rewrite Hq, Hc; reflexivity |].
  split; [exact Hm |].
  intros Hno. subst fig. unfold viewOrderReceipt_figures in *.
  cbn [totalAmount subtotal deliveryAmount missingCans missingCanCharge] in *.
  rewrite Hm. replace (Z.max 0 (q - c)) with 0 by (apply Z.ltb_ge in Hno; lia).
  destruct (Js.mul (Js.ToNumber (can_qty order)) (Js.ToNumber (order_price currentPrice)));
    cbn; [reflexivity | f_equal; lia].
Qed.

End OrdersPageFacts.

Lemma collection_status_matches_charge_witness :
  let missing := Orders.missingCans (Orders.viewOrderReceipt_figures prices_a sample_order) in
  (Orders.getCollectionStatus sample_order = "Complete" <-> 10 <= 7)
  /\ (Orders.getCollectionStatus sample_order = "Complete" <-> missing = Js.Fin 0)
  /\ (Orders.getCollectionStatus sample_order = "Complete"
      <-> Orders.getCollectionStatusColor sample_order = "text-green-600")
  /\ (Orders.getCollectionStatus sample_order = "Complete"
      \/ Orders.getCollectionStatus sample_order = Js.Z_to_string 7 ++ "/" ++ Js.Z_to_string 10
         /\ Orders.getCollectionStatusColor sample_order = "text-orange-600"
         /\ missing = Js.Fin (10 - 7) /\ 0 < 10 - 7).
Proof.
  apply (collection_status_matches_charge prices_a sample_order 10). reflexivity.
Defined.

Lemma receipt_page_parts_witness :
  let order := order_with (Js.Num 10) (Js.Num 12) in
  let fig := Orders.viewOrderReceipt_figures prices_a order in
  let page := Orders.viewOrderReceipt_sections prices_a order in
  Orders.total_row page = (12 <? 10)
  /\ Orders.missing_rows page = (12 <? 10)
  /\ Orders.delivery_row page = Orders.positive (Orders.deliveryAmount fig)
  /\ Orders.collection_table page = ((0 <? 12) || (12 <? 10))
  /\ Orders.pending_cell order = Js.Fin (10 - 12)
  /\ Orders.missingCans fig = Js.Fin (Z.max 0 (10 - 12))
  /\ (Orders.total_row page = false ->
      Orders.totalAmount fig = Js.add (Orders.subtotal fig) (Orders.deliveryAmount fig)).
Proof.
  apply (receipt_page_parts prices_a (order_with (Js.Num 10) (Js.Num 12)) 10 12); reflexivity.
Defined.

Example fully_collected_receipt_has_no_total :
  let order := order_with (Js.Num 10) (Js.Num 10) in
  Orders.total_row (Orders.viewOrderReceipt_sections prices_a order) = false
  /\ Orders.totalAmount (Orders.viewOrderReceipt_figures prices_a order) = Js.Fin 650
  /\ Orders.getCollectionStatus order = "Complete"
  /\ Orders.getCollectionStatus (order_with (Js.Num 10) Js.Null) = "Not set"
  /\ Orders.getCollectionStatus sample_order = "7/10".
Proof. repeat split; reflexivity. Qed.

(** ** The order form: summary, validation, creation *)

Section OrderFormPageFacts.

Import OrdersForm.

Lemma or_zero_reading (v : Js.value) :
  v <> Js.Undefined -> Js.ToNumber (Js.or_zero v) = Js.ToNumber v.
Proof.
  intros Hv. rewrite or_zero_ToNumber. destruct v; [contradiction | reflexivity ..].
Qed.

(** X18.  The summary beside the form shows the figures of the receipt.
    When the prices are loaded and neither [can_qty] nor the order price is
    undefined, the subtotal, the missing cans and the total of the summary
    are those [calculateReceiptData] computes from the same form; the
    summary reads an undefined [collected_qty] as 0, as the receipt does. *)
Theorem summary_agrees_with_receipt
    (formData : Form.FormData) (prices : PriceSheet) (id : string) :
  Form.can_qty formData <> Js.Undefined ->
  order_price prices <> Js.Undefined ->
  let r := Receipt.calculateReceiptData formData prices id in
  summary_subtotal formData (Some prices) = Receipt.subtotal r
  /\ summary_missingCans formData = Receipt.missingCans r
  /\ summary_total formData (Some prices) = Receipt.totalAmount r.
Proof.
  intros Hq Hp r. subst r.
  unfold summary_total, summary_subtotal, summary_missingCans, price_or_zero,
    Receipt.calculateReceiptData.
  cbn [Receipt.subtotal Receipt.missingCans Receipt.totalAmount].
  rewrite (or_zero_reading _ Hq), (or_zero_reading _ Hp). repeat split; reflexivity.
Qed.

Lemma set_if_keeps (cond : bool) (key message : string) (e : gmap string string) :
  cond = false -> set_if cond key message e = e.
Proof. intros ->. reflexivity. Qed.

(** X19.  What the validation asks of a form whose quantities are numbers.
    It passes exactly when the name, the phone, the address, the order date,
    the delivery date, the delivery time and the status are filled in, the
    quantity is positive and, when an order is edited, the collected
    quantity lies between 0 and the quantity and has a collection date when
    it is positive.  When an order is created the collected quantity and its
    date are not looked at. *)
Theorem validate_on_numbers (editing : bool) (formData : Form.FormData) (q c : Z) :
  Form.can_qty formData = Js.Num q ->
  Form.collected_qty formData = Js.Num c ->
  validate editing formData
  = Js.truthy (Form.customer_name formData)
    && Js.truthy (Form.customer_phone formData)
    && Js.truthy (Form.customer_address formData)
    && Js.truthy (Form.order_date formData)
    && (0 <? q)
    && (negb editing
        || (0 <=? c) && (c <=? q)
           && (negb (0 <? c) || Js.truthy (Form.collected_date formData)))
    && Js.truthy (Form.delivery_date formData)
    && Js.truthy (Form.delivery_time formData)
    && Js.truthy (Form.order_status formData).
Proof.
  intros Hq Hc.
  apply eq_true_iff_eq. rewrite validate_no_errors. unfold validate_errors.
  rewrite Hq, Hc, le_Num, lt_Num, !gt_Num.
  rewrite !andb_true_iff, orb_true_iff, !andb_true_iff, orb_true_iff, !negb_true_iff.
  rewrite Z.ltb_lt, !Z.leb_le, Z.ltb_ge.
  split.
  - intros E9.
    apply set_if_empty in E9 as [H9 E8]. apply set_if_empty in E8 as [H8 E7].
    apply set_if_empty in E7 as [H7 E6].
    assert (Hmid : (editing = false
                    \/ (0 <= c /\ c <= q)
                       /\ (c <= 0 \/ Js.truthy (Form.collected_date formData) = true))
                   /\ set_if (q <=? 0) "can_qty" "Can Quantity must be greater than 0"
                        (set_if (negb (Js.truthy (Form.order_date formData))) "order_date"
                           "Order Date is required"
                           (set_if (negb (Js.truthy (Form.customer_address formData)))
                              "customer_address" "Delivery Address is required"
                              (set_if (negb (Js.truthy (Form.customer_phone formData)))
                                 "customer_phone" "Customer Phone is required"
                                 (set_if (negb (Js.truthy (Form.customer_name formData)))
                                    "customer_name" "Customer Name is required" ∅)))) = ∅).
    { destruct editing; [| split; [left; reflexivity | exact E6]].
      apply set_if_empty in E6 as [H6 E5]. apply set_if_empty in E5 as [H5 E4].
      apply set_if_empty in E4 as [H4 E3]. split; [| exact E3]. right.
      apply Z.ltb_ge in H4. apply Z.ltb_ge in H5. split; [lia |].
      apply andb_false_iff in H6 as [H6 | H6];
        [left; apply Z.ltb_ge in H6; lia | right; apply negb_false_iff, H6]. }
    destruct Hmid as [Hed E3].
    apply set_if_empty in E3 as [H3 E2]. apply set_if_empty in E2 as [H2 E1].
    apply set_if_empty in E1 as [H1 E0]. apply set_if_empty in E0 as [H0 En].
    apply set_if_empty in En as [Hn _].
    apply Z.leb_gt in H3. rewrite negb_false_iff in *. tauto.
  - intros ((((((((Hn & H0) & H1) & H2) & H3) & Hed) & H7) & H8) & H9).
    rewrite Hn, H0, H1, H2, H7, H8, H9. cbn [negb].
    rewrite ?(set_if_keeps false) by reflexivity.
    rewrite (set_if_keeps (q <=? 0)) by (apply Z.leb_gt; lia).
    destruct editing.
    + destruct Hed as [Hed | [[Hc0 Hcq] Hdate]]; [discriminate Hed |].
      rewrite (set_if_keeps (c <? 0)) by (apply Z.ltb_ge; lia).
      rewrite (set_if_keeps (q <? c)) by (apply Z.ltb_ge; lia).
      rewrite set_if_keeps; [rewrite ?(set_if_keeps false) by reflexivity; reflexivity |].
      destruct Hdate as [Hz | Hd]; [| rewrite Hd; apply andb_false_r].
      apply andb_false_iff. left. apply Z.ltb_ge. exact Hz.
    + rewrite ?(set_if_keeps false) by reflexivity. reflexivity.
Qed.

Lemma empty_to_null_not_empty (v : Js.value) : empty_to_null v <> Js.Str "".
Proof.
  unfold empty_to_null. destruct v as [| | z | s]; cbn [Js.strict_eq]; try discriminate.
  destruct (String.eqb_spec s "") as [-> | Hne]; [discriminate | congruence].
Qed.

Lemma strict_eq_empty (v : Js.value) : Js.strict_eq v (Js.Str "") = true -> v = Js.Str "".
Proof.
  destruct v as [| | z | s]; cbn [Js.strict_eq]; try discriminate.
  intros H. apply String.eqb_eq in H. congruence.
Qed.

Variable table_accepts : OrdersRoutes.Body -> bool.

(** X20.  A new order that passes the validation of the form is created
    as it was typed.  When the form of a new order passes the validation and
    its quantity is not undefined, the submission is a POST to /api/orders
    whose body has every field the route requires; in a well-formed table
    that takes the values, the route stores them under the next id and
    answers 201.  The stored quantity is the one of the form, the collected
    quantity the one of the form or 0, and neither the notes nor the
    collection date is stored as the empty string. *)
Theorem valid_new_order_is_created (db : OrdersRoutes.Db) (formData : Form.FormData) :
  OrdersRoutes.well_formed db ->
  validate false formData = true ->
  Form.can_qty formData <> Js.Undefined ->
  table_accepts (OrdersRoutes.insert_values (Wire.body_of_form (payload_of formData))) = true ->
  let body := Wire.body_of_form (payload_of formData) in
  let row := {| OrdersRoutes.id := OrdersRoutes.next_id db;
                OrdersRoutes.columns := OrdersRoutes.insert_values body |} in
  handleSubmit None formData
  = (∅, Some {| url := "/api/orders"; method := "POST"; payload := payload_of formData |})
  /\ OrdersRoutes.missing_required body = false
  /\ OrdersRoutes.router_post table_accepts db body
     = (OrdersRoutes.Created 201 (Some row),
        {| OrdersRoutes.rows := (OrdersRoutes.rows db ++ [row])%list;
           OrdersRoutes.next_id := OrdersRoutes.next_id db + 1 |})
  /\ OrdersRoutes.can_qty (OrdersRoutes.columns row) = Form.can_qty formData
  /\ OrdersRoutes.collected_qty (OrdersRoutes.columns row)
     = Js.or_zero (Form.collected_qty formData)
  /\ OrdersRoutes.notes (OrdersRoutes.columns row) <> Js.Str ""
  /\ OrdersRoutes.collected_date (OrdersRoutes.columns row) <> Js.Str "".
Proof.
  intros [Hlt _] Hv Hq Hacc body row.
  pose proof Hv as He. apply validate_no_errors in He.
  assert (Hreq : OrdersRoutes.missing_required body = false).
  { unfold validate_errors in He.
    apply set_if_empty in He as [H9 E8]. apply set_if_empty in E8 as [H8 E7].
    apply set_if_empty in E7 as [H7 E6]. apply set_if_empty in E6 as [H3 E2].
    apply set_if_empty in E2 as [H2 E1]. apply set_if_empty in E1 as [H1 E0].
    apply set_if_empty in E0 as [H0 En]. apply set_if_empty in En as [Hn _].
    subst body. unfold OrdersRoutes.missing_required, Wire.body_of_form, payload_of.
    cbn [OrdersRoutes.order_date OrdersRoutes.customer_name OrdersRoutes.customer_phone
         OrdersRoutes.customer_address OrdersRoutes.can_qty OrdersRoutes.delivery_date
         OrdersRoutes.delivery_time OrdersRoutes.order_status
         Form.order_date Form.customer_name Form.customer_phone Form.customer_address
         Form.can_qty Form.delivery_date Form.delivery_time Form.order_status].
    rewrite H2, Hn, H0, H1, H7, H8, H9. cbn [orb].
    destruct (Form.can_qty formData); [contradiction | discriminate H3 | reflexivity ..]. }
  split.
  - unfold handleSubmit. cbn [isEditing]. rewrite Hv, He. reflexivity.
  - split; [exact Hreq |]. split.
    + rewrite (router_post_cases table_accepts db body Hlt). fold row.
      rewrite Hreq. fold body in Hacc. rewrite Hacc. reflexivity.
    + subst row body. cbn [OrdersRoutes.columns OrdersRoutes.insert_values
        OrdersRoutes.can_qty OrdersRoutes.collected_qty OrdersRoutes.notes
        OrdersRoutes.collected_date Wire.body_of_form payload_of Form.can_qty
        Form.collected_qty Form.notes Form.collected_date].
      split; [reflexivity |]. split; [reflexivity |]. split.
      * destruct (Js.strict_eq (empty_to_null (Form.notes formData)) (Js.Str "")) eqn:Hs;
          [discriminate | apply empty_to_null_not_empty].
      * apply empty_to_null_not_empty.
Qed.

End OrderFormPageFacts.

Lemma summary_agrees_with_receipt_witness :
  let r := Receipt.calculateReceiptData edited_form prices_a "17" in
  OrdersForm.summary_subtotal edited_form (Some prices_a) = Receipt.subtotal r
  /\ OrdersForm.summary_missingCans edited_form = Receipt.missingCans r
  /\ OrdersForm.summary_total edited_form (Some prices_a) = Receipt.totalAmount r.
Proof.
  apply (summary_agrees_with_receipt edited_form prices_a "17"); intros H; discriminate H.
Defined.

Example summary_without_quantity_or_prices :
  OrdersForm.summary_total (form_with Js.Undefined (Js.Num 0)) (Some prices_a) = Js.Fin 0
  /\ Receipt.totalAmount
       (Receipt.calculateReceiptData (form_with Js.Undefined (Js.Num 0)) prices_a "17")
     = Js.NaN
  /\ OrdersForm.summary_total pending_order_form None = Js.Fin 1550.
Proof. repeat split; reflexivity. Qed.

Lemma validate_on_numbers_witness :
  OrdersForm.validate true pending_order_form
  = Js.truthy (Form.customer_name pending_order_form)
    && Js.truthy (Form.customer_phone pending_order_form)
    && Js.truthy (Form.customer_address pending_order_form)
    && Js.truthy (Form.order_date pending_order_form)
    && (0 <? 10)
    && (negb true
        || (0 <=? 7) && (7 <=? 10)
           && (negb (0 <? 7) || Js.truthy (Form.collected_date pending_order_form)))
    && Js.truthy (Form.delivery_date pending_order_form)
    && Js.truthy (Form.delivery_time pending_order_form)
    && Js.truthy (Form.order_status pending_order_form).
Proof.
  apply (validate_on_numbers true pending_order_form 10 7); reflexivity.
Defined.

Lemma valid_new_order_is_created_witness :
  let body := Wire.body_of_form (OrdersForm.payload_of new_order_form) in
  let row := {| OrdersRoutes.id := OrdersRoutes.next_id two_orders_db;
                OrdersRoutes.columns := OrdersRoutes.insert_values body |} in
  OrdersForm.handleSubmit None new_order_form
  = (∅, Some {| OrdersForm.url := "/api/orders"; OrdersForm.method := "POST";
                OrdersForm.payload := OrdersForm.payload_of new_order_form |})
  /\ OrdersRoutes.missing_required body = false
  /\ OrdersRoutes.router_post any_row two_orders_db body
     = (OrdersRoutes.Created 201 (Some row),
        {| OrdersRoutes.rows := (OrdersRoutes.rows two_orders_db ++ [row])%list;
           OrdersRoutes.next_id := OrdersRoutes.next_id two_orders_db + 1 |})
  /\ OrdersRoutes.can_qty (OrdersRoutes.columns row) = Form.can_qty new_order_form
  /\ OrdersRoutes.collected_qty (OrdersRoutes.columns row)
     = Js.or_zero (Form.collected_qty new_order_form)
  /\ OrdersRoutes.notes (OrdersRoutes.columns row) <> Js.Str ""
  /\ OrdersRoutes.collected_date (OrdersRoutes.columns row) <> Js.Str "".
Proof.
  apply (valid_new_order_is_created any_row two_orders_db new_order_form).
  - exact two_orders_well_formed.
  - vm_compute. reflexivity.
  - intros H. discriminate H.
  - reflexivity.
Defined.

Example undefined_quantity_passes_the_form_only :
  OrdersForm.validate false (form_with Js.Undefined (Js.Num 0)) = false
  /\ OrdersForm.validate false
       (OrdersForm.set_field new_order_form "can_qty" Js.Undefined) = true
  /\ OrdersRoutes.missing_required
       (Wire.body_of_form
          (OrdersForm.payload_of (OrdersForm.set_field new_order_form "can_qty" Js.Undefined)))
     = true.
Proof. repeat split; vm_compute; reflexivity. Qed.

(** ** The lists and their filters *)

Lemma includes_empty (s : string) : JsText.includes s "" = true.
Proof. destruct s; reflexivity. Qed.

Lemma filter_all {A : Type} (p : A -> bool) (l : list A) :
  (forall x, In x l -> p x = true) -> List.filter p l = l.
Proof.
  induction l as [| x l IH]; intros H; [reflexivity |]. cbn [List.filter].
  rewrite (H x (or_introl eq_refl)). f_equal. apply IH. intros y Hy. apply H. right. exact Hy.
Qed.

(** X21.  The filters hide nothing by default and show nothing they should
    not.  With the type or status "all" and an empty search, the tables of
    customers, of orders and of bills show the whole list; under any other
    setting every row shown belongs to the list and has the selected type
    or status. *)
Theorem filters_show_what_is_selected
    (customers : list DailyUpdate.Customer) (orders : list Orders.Order)
    (bills : list Billing.MonthlyBill) (selected searchTerm : string) :
  DailyUpdate.filteredCustomers customers "all" "" = customers
  /\ Orders.filteredOrders orders "" "all" = orders
  /\ Billing.filteredBills bills "" "all" = bills
  /\ Forall (fun c => In c customers
                      /\ (selected = "all" \/ DailyUpdate.customer_type c = selected))
            (DailyUpdate.filteredCustomers customers selected searchTerm)
  /\ Forall (fun o => In o orders /\ (selected = "all" \/ Orders.order_status o = selected))
            (Orders.filteredOrders orders searchTerm selected)
  /\ Forall (fun b => In b bills)
            (Billing.filteredBills bills searchTerm selected)
  /\ Forall (fun b => Billing.flag_truthy (Billing.mb_paid_status b) = true)
            (Billing.filteredBills bills searchTerm "paid")
  /\ Forall (fun b => Billing.flag_truthy (Billing.mb_paid_status b) = false)
            (Billing.filteredBills bills searchTerm "unpaid").
Proof.
  split; [| split; [| split; [| split; [| split; [| split; [| split]]]]]].
  - apply filter_all. intros c _. cbn. rewrite includes_empty. reflexivity.
  - apply filter_all. intros o _. cbn. rewrite includes_empty. reflexivity.
  - apply filter_all. intros b _. unfold Billing.matchesSearch, Billing.matchesStatus.
    cbn. rewrite includes_empty. reflexivity.
  - apply List.Forall_forall. intros c Hc.
    apply List.filter_In in Hc as [Hin Hc]. split; [exact Hin |].
    apply andb_true_iff in Hc as [Ht _]. apply orb_true_iff in Ht as [Ht | Ht].
    + left. apply String.eqb_eq, Ht.
    + right. apply String.eqb_eq, Ht.
  - apply List.Forall_forall. intros o Ho.
    apply List.filter_In in Ho as [Hin Ho]. split; [exact Hin |].
    apply andb_true_iff in Ho as [_ Ht]. apply orb_true_iff in Ht as [Ht | Ht].
    + left. apply String.eqb_eq, Ht.
    + right. apply String.eqb_eq, Ht.
  - apply List.Forall_forall. intros b Hb. apply List.filter_In in Hb as [Hin _]. exact Hin.
  - apply List.Forall_forall. intros b Hb. apply List.filter_In in Hb as [_ Hb].
    apply andb_true_iff in Hb as [_ Hs]. unfold Billing.matchesStatus in Hs. cbn in Hs.
    rewrite orb_false_r in Hs. exact Hs.
  - apply List.Forall_forall. intros b Hb. apply List.filter_In in Hb as [_ Hb].
    apply andb_true_iff in Hb as [_ Hs]. unfold Billing.matchesStatus in Hs. cbn in Hs.
    apply negb_true_iff, Hs.
Qed.

Section BillListFacts.

Import Billing.

Lemma find_unique (bills : list MonthlyBill) (b : MonthlyBill) :
  NoDup (map mb_customer_id bills) -> In b bills ->
  List.find (fun x => String.eqb (mb_customer_id x) (mb_customer_id b)) bills = Some b.
Proof.
  induction bills as [| x l IH]; intros Hnd Hin; [destruct Hin |].
  cbn [map] in Hnd. apply NoDup_cons in Hnd as [Hx Hnd]. rewrite list_elem_of_In in Hx.
  cbn [List.find]. destruct Hin as [-> | Hin]; [rewrite String.eqb_refl; reflexivity |].
  destruct (String.eqb_spec (mb_customer_id x) (mb_customer_id b)) as [Heq | _];
    [| apply IH; assumption].
  exfalso. apply Hx. rewrite Heq. apply in_map. exact Hin.
Qed.

(** X22.  A change of status moves the bill between the filters and keeps
    its totals.  With one bill per customer, the request of a change carries
    the new status, the amount, the cans and the delivery days the list
    holds for the customer (0 for an empty one) and a sent status of false.
    When the server accepts it, the list has the same bills with the same
    totals; the bill of the customer is shown under the filter of its new
    status exactly when it matches the search, and no bill of the customer
    is shown under the other one.  When the server refuses, the list is
    unchanged. *)
Theorem status_change_moves_the_bill
    (bills : list MonthlyBill) (selectedMonth searchTerm : string) (b : MonthlyBill)
    (paid : bool) :
  NoDup (map mb_customer_id bills) ->
  In b bills ->
  let sent := fst (updateBillStatus bills selectedMonth (mb_customer_id b) paid true) in
  let bills' := snd (updateBillStatus bills selectedMonth (mb_customer_id b) paid true) in
  let now := if paid then "paid" else "unpaid" in
  let other := if paid then "unpaid" else "paid" in
  sent = {| bd_customer_id := mb_customer_id b; bd_bill_month := selectedMonth;
            bd_paid_status := FlagBool paid; bd_sent_status := false;
            bd_bill_amount := Js.or_zero (mb_bill_amount b);
            bd_total_cans := Js.or_zero (mb_total_cans_delivered b);
            bd_delivery_days := Js.or_zero (mb_total_delivery_days b) |}
  /\ map mb_customer_id bills' = map mb_customer_id bills
  /\ map mb_bill_amount bills' = map mb_bill_amount bills
  /\ map mb_total_cans_delivered bills' = map mb_total_cans_delivered bills
  /\ map mb_total_delivery_days bills' = map mb_total_delivery_days bills
  /\ (In (with_paid_status b paid) (filteredBills bills' searchTerm now)
      <-> matchesSearch b searchTerm = true)
  /\ Forall (fun x => mb_customer_id x <> mb_customer_id b)
            (filteredBills bills' searchTerm other)
  /\ snd (updateBillStatus bills selectedMonth (mb_customer_id b) paid false) = bills.
Proof.
  intros Hnd Hin sent bills' now other.
  assert (Hfields : forall (A : Type) (f : MonthlyBill -> A),
             (forall x p, f (with_paid_status x p) = f x) ->
             map f bills' = map f bills).
  { intros A f Hf. subst bills'. cbn [updateBillStatus snd]. rewrite map_map.
    apply map_ext. intros x. destruct (String.eqb _ _); [apply Hf | reflexivity]. }
  assert (Hin' : forall x, In x bills' <->
                   exists y, In y bills
                             /\ x = if String.eqb (mb_customer_id y) (mb_customer_id b)
                                    then with_paid_status y paid else y).
  { intros x. subst bills'. cbn [updateBillStatus snd]. rewrite in_map_iff.
    split; intros (y & H1 & H2); exists y; [split; [exact H2 | symmetry; exact H1] |
                                             split; [symmetry; exact H2 | exact H1]]. }
  split.
  { subst sent. cbn [updateBillStatus fst]. unfold found_or_zero.
    rewrite (find_unique bills b Hnd Hin). reflexivity. }
  do 4 (split; [apply Hfields; reflexivity |]).
  split; [| split; [| reflexivity]].
  - unfold filteredBills. rewrite List.filter_In, Hin'. split.
    + intros [_ Hm]. apply andb_true_iff in Hm as [Hm _]. exact Hm.
    + intros Hm. split.
      * exists b. split; [exact Hin |]. rewrite String.eqb_refl. reflexivity.
      * change (matchesSearch (with_paid_status b paid) searchTerm)
          with (matchesSearch b searchTerm).
        rewrite Hm. subst now. destruct paid; reflexivity.
  - apply List.Forall_forall. intros x Hx. unfold filteredBills in Hx.
    apply List.filter_In in Hx as [Hx Hm]. apply Hin' in Hx as (y & Hy & ->).
    destruct (String.eqb_spec (mb_customer_id y) (mb_customer_id b)) as [Heq | Hne];
      [| exact Hne].
    exfalso. apply andb_true_iff in Hm as [_ Hm]. subst other.
    destruct paid; discriminate Hm.
Qed.

(** X23.  Saving the bills saves the bills that are shown.  Nothing is
    sent when the filters leave no bill; otherwise the request has one
    element for each bill shown, in the order of the table, with the
    amount, the cans and the delivery days of the bill and a sent status of
    false.  Under the filter "unpaid" every element is saved as not paid,
    and under "paid" as paid. *)
Theorem save_sends_the_bills_shown
    (bills : list MonthlyBill) (selectedMonth searchTerm filterStatus : string) :
  let shown := filteredBills bills searchTerm filterStatus in
  match handleSaveAllBillsToDB bills selectedMonth searchTerm filterStatus with
  | None => shown = []
  | Some saved =>
      shown <> []
      /\ map bd_customer_id saved = map mb_customer_id shown
      /\ map bd_bill_amount saved = map mb_bill_amount shown
      /\ map bd_total_cans saved = map mb_total_cans_delivered shown
      /\ map bd_delivery_days saved = map mb_total_delivery_days shown
      /\ map (fun d => flag_truthy (bd_paid_status d)) saved
         = map (fun bill => flag_truthy (mb_paid_status bill)) shown
      /\ Forall (fun d => bd_sent_status d = false /\ bd_bill_month d = selectedMonth) saved
  end
  /\ Forall (fun d => bd_paid_status d = FlagBool false)
            (default [] (handleSaveAllBillsToDB bills selectedMonth searchTerm "unpaid"))
  /\ Forall (fun d => flag_truthy (bd_paid_status d) = true)
            (default [] (handleSaveAllBillsToDB bills selectedMonth searchTerm "paid")).
Proof.
  intros shown.
  assert (Hin : forall status bill, In bill (filteredBills bills searchTerm status) ->
                  matchesStatus bill status = true).
  { intros status bill Hb. unfold filteredBills in Hb.
    apply List.filter_In in Hb as [_ Hb]. apply andb_true_iff in Hb as [_ Hb]. exact Hb. }
  split; [| split].
  - unfold shown, handleSaveAllBillsToDB. clear shown.
    destruct (filteredBills bills searchTerm filterStatus) as [| first rest];
      [reflexivity |].
    split; [discriminate |].
    do 4 (split; [rewrite map_map; reflexivity |]).
    split.
    + rewrite map_map. apply map_ext. intros bill. cbn [bd_paid_status].
      destruct (flag_truthy (mb_paid_status bill)) eqn:Ht; [exact Ht | reflexivity].
    + apply List.Forall_forall. intros d Hd. apply in_map_iff in Hd as (bill & <- & _).
      split; reflexivity.
  - unfold handleSaveAllBillsToDB. specialize (Hin "unpaid").
    destruct (filteredBills bills searchTerm "unpaid") as [| first rest];
      [apply List.Forall_nil |].
    cbn [default from_option id]. apply List.Forall_forall. intros d Hd.
    apply in_map_iff in Hd as (bill & <- & Hb). specialize (Hin bill Hb).
    unfold matchesStatus in Hin. cbn in Hin. apply negb_true_iff in Hin.
    cbn [bd_paid_status]. rewrite Hin. reflexivity.
  - unfold handleSaveAllBillsToDB. specialize (Hin "paid").
    destruct (filteredBills bills searchTerm "paid") as [| first rest];
      [apply List.Forall_nil |].
    cbn [default from_option id]. apply List.Forall_forall. intros d Hd.
    apply in_map_iff in Hd as (bill & <- & Hb). specialize (Hin bill Hb).
    unfold matchesStatus in Hin. cbn in Hin. rewrite orb_false_r in Hin.
    cbn [bd_paid_status]. rewrite Hin. exact Hin.
Qed.

End BillListFacts.

Lemma status_change_moves_the_bill_witness :
  let sent := fst (Billing.updateBillStatus sample_bills "2024-03"
                     (Billing.mb_customer_id ravi_bill) true true) in
  let bills' := snd (Billing.updateBillStatus sample_bills "2024-03"
                       (Billing.mb_customer_id ravi_bill) true true) in
  let now := if true then "paid" else "unpaid" in
  let other := if true then "unpaid" else "paid" in
  sent = {| Billing.bd_customer_id := Billing.mb_customer_id ravi_bill;
            Billing.bd_bill_month := "2024-03";
            Billing.bd_paid_status := Billing.FlagBool true;
            Billing.bd_sent_status := false;
            Billing.bd_bill_amount := Js.or_zero (Billing.mb_bill_amount ravi_bill);
            Billing.bd_total_cans := Js.or_zero (Billing.mb_total_cans_delivered ravi_bill);
            Billing.bd_delivery_days :=
              Js.or_zero (Billing.mb_total_delivery_days ravi_bill) |}
  /\ map Billing.mb_customer_id bills' = map Billing.mb_customer_id sample_bills
  /\ map Billing.mb_bill_amount bills' = map Billing.mb_bill_amount sample_bills
  /\ map Billing.mb_total_cans_delivered bills'
     = map Billing.mb_total_cans_delivered sample_bills
  /\ map Billing.mb_total_delivery_days bills'
     = map Billing.mb_total_delivery_days sample_bills
  /\ (In (Billing.with_paid_status ravi_bill true) (Billing.filteredBills bills' "rav" now)
      <-> Billing.matchesSearch ravi_bill "rav" = true)
  /\ Forall (fun x => Billing.mb_customer_id x <> Billing.mb_customer_id ravi_bill)
            (Billing.filteredBills bills' "rav" other)
  /\ snd (Billing.updateBillStatus sample_bills "2024-03"
            (Billing.mb_customer_id ravi_bill) true false) = sample_bills.
Proof.
  apply (status_change_moves_the_bill sample_bills "2024-03" "rav" ravi_bill true).
  - cbn. repeat (apply NoDup_cons; split; [rewrite list_elem_of_In; cbn; intuition discriminate |]).
    apply NoDup_nil. exact I.
  - right. left. reflexivity.
Defined.

Example bills_filtered_and_saved :
  map Billing.mb_customer_id (Billing.filteredBills sample_bills "ASHA" "all") = ["c1"]
  /\ map Billing.mb_customer_id (Billing.filteredBills sample_bills "" "unpaid") = ["c2"]
  /\ Billing.handleSaveAllBillsToDB sample_bills "2024-03" "nobody" "all" = None
  /\ option_map (map Billing.bd_paid_status)
                (Billing.handleSaveAllBillsToDB sample_bills "2024-03" "" "all")
     = Some [Billing.FlagValue (Js.Num 1); Billing.FlagBool false].
Proof. repeat split; reflexivity. Qed.

(** ** Deleting an order from the page *)

Lemma map_filter_comm {A B : Type} (f : A -> B) (p : B -> bool) (l : list A) :
  map f (List.filter (fun x => p (f x)) l) = List.filter p (map f l).
Proof.
  induction l as [| x l IH]; [reflexivity |]. cbn [List.filter map].
  destruct (p (f x)); cbn [map]; rewrite IH; reflexivity.
Qed.

(** X24.  The list of the page follows the table when an order is deleted.
    If the page lists the orders of the table, then after a confirmed
    deletion it still does: the order is dropped from both when the table
    had it, and the answer 404 leaves both as they were.  Without the
    confirmation the list is kept. *)
Theorem page_delete_follows_the_table
    (db : OrdersRoutes.Db) (orders : list Orders.Order) (orderId : Z) (ok : bool) :
  map Orders.id orders = map OrdersRoutes.id (OrdersRoutes.rows db) ->
  let reply := fst (OrdersRoutes.router_delete db orderId) in
  let db' := snd (OrdersRoutes.router_delete db orderId) in
  let orders' := Orders.handleDeleteOrder orders orderId true (Wire.response_ok reply) in
  map Orders.id orders' = map OrdersRoutes.id (OrdersRoutes.rows db')
  /\ Forall (fun o => Orders.id o <> orderId) orders'
  /\ (Wire.response_ok reply = true \/ (orders' = orders /\ db' = db))
  /\ Orders.handleDeleteOrder orders orderId false ok = orders.
Proof.
  intros Hsame reply db' orders'. subst reply db' orders'.
  unfold OrdersRoutes.router_delete.
  destruct (OrdersRoutes.query_select db orderId) as [| r found] eqn:Hsel.
  - unfold Orders.handleDeleteOrder, Wire.response_ok. cbn [fst snd Wire.status_of].
    change ((200 <=? 404) && (404 <=? 299)) with false. cbn [andb].
    split; [exact Hsame |]. split; [| split; [right; split; reflexivity | reflexivity]].
    apply List.Forall_forall. intros o Ho Heq.
    assert (Hin : In orderId (map OrdersRoutes.id (OrdersRoutes.rows db))).
    { rewrite <- Hsame, <- Heq. apply in_map. exact Ho. }
    apply in_map_iff in Hin as (row & Hid & Hrow).
    assert (Hsel' : In row (OrdersRoutes.query_select db orderId)).
    { unfold OrdersRoutes.query_select. apply List.filter_In. split; [exact Hrow |].
      apply Z.eqb_eq. exact Hid. }
    rewrite Hsel in Hsel'. destruct Hsel'.
  - unfold Orders.handleDeleteOrder, Wire.response_ok. cbn [fst snd Wire.status_of].
    change ((200 <=? 200) && (200 <=? 299)) with true. cbn [andb].
    split; [| split; [| split; [left; reflexivity | reflexivity]]].
    + cbn [OrdersRoutes.query_delete OrdersRoutes.rows].
      pose proof (map_filter_comm Orders.id (fun i => negb (i =? orderId)) orders) as H1.
      pose proof (map_filter_comm OrdersRoutes.id (fun i => negb (i =? orderId))
                    (OrdersRoutes.rows db)) as H2.
      cbv beta in H1, H2. rewrite H1, H2, Hsame. reflexivity.
    + apply List.Forall_forall. intros o Ho. apply List.filter_In in Ho as [_ Ho].
      apply negb_true_iff, Z.eqb_neq in Ho. exact Ho.
Qed.

Lemma page_delete_follows_the_table_witness :
  let reply := fst (OrdersRoutes.router_delete one_order_db 17) in
  let db' := snd (OrdersRoutes.router_delete one_order_db 17) in
  let orders' :=
    Orders.handleDeleteOrder [sample_order] 17 true (Wire.response_ok reply) in
  map Orders.id orders' = map OrdersRoutes.id (OrdersRoutes.rows db')
  /\ Forall (fun o => Orders.id o <> 17) orders'
  /\ (Wire.response_ok reply = true \/ (orders' = [sample_order] /\ db' = one_order_db))
  /\ Orders.handleDeleteOrder [sample_order] 17 false true = [sample_order].
Proof.
  apply (page_delete_follows_the_table one_order_db [sample_order] 17 true).
  reflexivity.
Defined.
